(** * Netflix content dashboard: loader, filters, aggregations and search

    A shallow embedding of [src/app.py] (the Streamlit script) and of
    [src/utils/helpers.py], followed by the properties of the
    specification that concern them.

    Conventions of the embedding.
    - A Python [str] is a [string]; a character is a code point below 256
      (Latin-1), which fixes what [str.strip] calls whitespace and what
      case folding does.
    - A cell of an object column is [option string]: [None] is pandas'
      NaN, the value [read_csv] gives to an empty field.  A column in
      which every field is empty is read as [float64], not [object], and
      the string methods ([Series.str]) refuse it.
    - A DataFrame is the list of its rows, in index order; the frame
      [pd.DataFrame()] is the empty list.
    - [release_year], [year_added] and [month_added] are integers or NaN
      ([option Z]).
    - Python exceptions are the [Raise] results of a small error monad;
      what Streamlit puts on the page is a log of events. *)

From Stdlib Require Import String Ascii List ZArith Bool Arith Lia.
Import ListNotations.
Open Scope string_scope.
Open Scope list_scope.
Open Scope nat_scope.

(** ** Exceptions *)

Inductive exn : Type :=
  | FileNotFoundError
  | PermissionError
  | IsADirectoryError
  | UnicodeDecodeError
  | EmptyDataError
  | ParserError
  | ValueError
  | AttributeError.

Inductive result (A : Type) : Type :=
  | Ok (a : A)
  | Raise (e : exn).
Arguments Ok {A} a.
Arguments Raise {A} e.

Definition rbind {A B : Type} (m : result A) (k : A -> result B) : result B :=
  match m with
  | Ok a => k a
  | Raise e => Raise e
  end.

Notation "x <- m ;; k" := (rbind m (fun x => k))
  (at level 61, m at next level, right associativity).

(** ** Python strings *)

Module PyStr.

(** [str.isspace] on one character, for code points below 256:
    TAB..CR, FS..US, SPACE, NEL and NBSP. *)
Definition isspace (c : ascii) : bool :=
  let n := nat_of_ascii c in
  (((9 <=? n) && (n <=? 13)) || ((28 <=? n) && (n <=? 32))
   || (n =? 133) || (n =? 160))%nat.

Fixpoint lstrip (s : string) : string :=
  match s with
  | EmptyString => EmptyString
  | String c s' => if isspace c then lstrip s' else s
  end.

Fixpoint rstrip (s : string) : string :=
  match s with
  | EmptyString => EmptyString
  | String c s' =>
      match rstrip s' with
      | EmptyString => if isspace c then EmptyString else String c EmptyString
      | r => String c r
      end
  end.

(** [s.strip()] *)
Definition strip (s : string) : string := rstrip (lstrip s).

(** [sub in s] *)
Fixpoint contains (sub s : string) : bool :=
  match s with
  | EmptyString => String.eqb sub EmptyString
  | String _ s' => String.prefix sub s || contains sub s'
  end.

(** The scan of [s.split(sep)] for a non-empty [sep]: [skip] counts the
    characters of an occurrence of [sep] still to be passed over; the
    head of the result is the piece being read. *)
Fixpoint split_from (sep s : string) (skip : nat) : list string :=
  match s with
  | EmptyString => [EmptyString]
  | String c s' =>
      match skip with
      | S k => split_from sep s' k
      | O =>
          if String.prefix sep s
          then EmptyString :: split_from sep s' (String.length sep - 1)
          else match split_from sep s' 0 with
               | piece :: rest => String c piece :: rest
               | [] => [String c EmptyString]
               end
      end
  end.

(** [s.split(sep)]: [ValueError("empty separator")] when [sep] is empty. *)
Definition split (sep s : string) : result (list string) :=
  if String.eqb sep EmptyString then Raise ValueError
  else Ok (split_from sep s 0).

(** [sep.join(parts)] *)
Fixpoint join (sep : string) (parts : list string) : string :=
  match parts with
  | [] => EmptyString
  | [p] => p
  | p :: rest => (p ++ sep ++ join sep rest)%string
  end.

(** Case folding of one character ([A-Z] and the Latin-1 capitals). *)
Definition tolower (c : ascii) : ascii :=
  let n := nat_of_ascii c in
  if (((65 <=? n) && (n <=? 90))
      || ((192 <=? n) && (n <=? 222) && negb (n =? 215)))%nat
  then ascii_of_nat (n + 32) else c.

(** [s.lower()] *)
Fixpoint lower (s : string) : string :=
  match s with
  | EmptyString => EmptyString
  | String c s' => String (tolower c) (lower s')
  end.

End PyStr.

(** ** Python regular expressions, as far as the dashboard needs them

    [Series.str.contains(pat)] compiles [pat] with [re.compile] (its
    [regex] argument defaults to [True]).  The fragment embedded here is
    the patterns made of ordinary characters and of the dot; a pattern
    that uses any other special character is outside it and [compile]
    answers [None]. *)

Module PyRe.

Inductive atom : Type :=
  | Lit (c : ascii)   (* an ordinary character *)
  | AnyChar.          (* the dot: any character but the newline *)

Definition special_chars : list ascii :=
  list_ascii_of_string "\^$*+?{}[]|()".

Definition is_special (c : ascii) : bool :=
  existsb (Ascii.eqb c) special_chars.

Fixpoint compile (pat : string) : option (list atom) :=
  match pat with
  | EmptyString => Some []
  | String c pat' =>
      if Ascii.eqb c "."%char then option_map (cons AnyChar) (compile pat')
      else if is_special c then None
      else option_map (cons (Lit c)) (compile pat')
  end.

Definition newline : ascii := ascii_of_nat 10.

(** One atom against one character; [ignorecase] is [re.IGNORECASE]. *)
Definition atom_matches (ignorecase : bool) (a : atom) (t : ascii) : bool :=
  match a with
  | Lit c =>
      if ignorecase then Ascii.eqb (PyStr.tolower c) (PyStr.tolower t)
      else Ascii.eqb c t
  | AnyChar => negb (Ascii.eqb t newline)
  end.

(** [re.match] at the start of [s]. *)
Fixpoint match_here (ignorecase : bool) (re : list atom) (s : string) : bool :=
  match re with
  | [] => true
  | a :: re' =>
      match s with
      | EmptyString => false
      | String t s' => atom_matches ignorecase a t && match_here ignorecase re' s'
      end
  end.

(** [regex.search(s) is not None] *)
Fixpoint search (ignorecase : bool) (re : list atom) (s : string) : bool :=
  match_here ignorecase re s
  || match s with
     | EmptyString => false
     | String _ s' => search ignorecase re s'
     end.

End PyRe.

(** ** pandas *)

Module Pandas.

(** A cell of an object column: a string or NaN. *)
Definition cell : Type := option string.

Definition cell_eqb (a b : cell) : bool :=
  match a, b with
  | Some x, Some y => String.eqb x y
  | None, None => true
  | _, _ => false
  end.

(** [Series.dropna()] *)
Fixpoint dropna {A : Type} (s : list (option A)) : list A :=
  match s with
  | [] => []
  | Some x :: s' => x :: dropna s'
  | None :: s' => dropna s'
  end.

(** [Series.fillna(value)] *)
Definition fillna {A : Type} (value : A) (c : option A) : option A :=
  match c with
  | Some x => Some x
  | None => Some value
  end.

(** [Series.isin(values)]: NaN is found in [values] when NaN is listed. *)
Definition isin (values : list cell) (c : cell) : bool :=
  existsb (cell_eqb c) values.

(** [Series.head(n)]: the first [n] entries, or all but the last [-n]
    when [n] is negative. *)
Definition head {A : Type} (n : Z) (l : list A) : list A :=
  if (0 <=? n)%Z then firstn (Z.to_nat n) l
  else firstn (length l - Z.to_nat (- n)) l.

Section Counting.
Context {A : Type} (eqb : A -> A -> bool).

(** One more occurrence of [k] in a table kept in first-seen order. *)
Fixpoint bump (k : A) (t : list (A * nat)) : list (A * nat) :=
  match t with
  | [] => [(k, 1)]
  | (k', n) :: t' => if eqb k k' then (k', S n) :: t' else (k', n) :: bump k t'
  end.

(** The distinct values with their counts, in first-seen order. *)
Definition tally (l : list A) : list (A * nat) :=
  fold_left (fun t k => bump k t) l [].

(** Insertion of an entry that came before all of [l]: it passes the
    entries with a strictly larger count and stops at the first
    other one. *)
Fixpoint insert_desc (p : A * nat) (l : list (A * nat)) : list (A * nat) :=
  match l with
  | [] => [p]
  | q :: l' => if snd p <? snd q then q :: insert_desc p l' else p :: l
  end.

Definition sort_desc (l : list (A * nat)) : list (A * nat) :=
  fold_right insert_desc [] l.

(** Modelled from the spec: the order [Series.value_counts()] gives to
    entries with equal counts.  pandas is library code outside the
    repository; the spec fixes the order as count descending, ties
    broken by first-encountered order (stable), and that is what
    this definition does. *)
Definition value_counts (l : list A) : list (A * nat) :=
  sort_desc (tally l).

(** [Series.get(key, default)] on a table of counts. *)
Fixpoint get (key : A) (default : nat) (t : list (A * nat)) : nat :=
  match t with
  | [] => default
  | (k, n) :: t' => if eqb key k then n else get key default t'
  end.

(** [Series.get(key)] without a default. *)
Fixpoint lookup (key : A) (t : list (A * nat)) : option nat :=
  match t with
  | [] => None
  | (k, n) :: t' => if eqb key k then Some n else lookup key t'
  end.

(** Number of entries of [l] equal to [k]. *)
Definition occurrences (k : A) (l : list A) : nat :=
  length (filter (eqb k) l).

End Counting.

(** Sorted distinct values: the order pandas gives to group keys and
    to the axes of a pivot table. *)
Section SortedKeys.
Context {A : Type} (cmp : A -> A -> comparison).

Fixpoint insert_uniq (x : A) (l : list A) : list A :=
  match l with
  | [] => [x]
  | y :: l' =>
      match cmp x y with
      | Lt => x :: l
      | Eq => l
      | Gt => y :: insert_uniq x l'
      end
  end.

Definition sort_uniq (l : list A) : list A :=
  fold_right insert_uniq [] l.

End SortedKeys.

(** The dtype that [read_csv] gives a column of text: [object] when
    some line has a value, and when the file has no line at all;
    [float64] when the file has lines and the field is empty in every
    one.  Boolean indexing and [copy] keep the dtype of a column,
    whatever rows they keep. *)
Inductive dtype : Type :=
  | object
  | float64.

Definition notna {A : Type} (c : option A) : bool :=
  match c with
  | Some _ => true
  | None => false
  end.

Definition dtype_of (column : list cell) : dtype :=
  match column with
  | [] => object
  | _ :: _ => if existsb notna column then object else float64
  end.

(** [Series.str]: building the accessor raises
    [AttributeError("Can only use .str accessor with string values!")]
    on a column that is not [object]. *)
Definition str_accessor (column_dtype : dtype) : result unit :=
  match column_dtype with
  | object => Ok tt
  | float64 => Raise AttributeError
  end.

(** [Series.str.contains(pat, case=case, na=na)], once the accessor is
    there: the pattern is compiled once, then searched in every cell; a
    NaN cell gives [na].
    [None] when [pat] is outside the embedded fragment of regular
    expressions. *)
Definition str_contains (pat : string) (case : bool) (na : bool)
  : option (cell -> bool) :=
  match PyRe.compile pat with
  | None => None
  | Some re =>
      Some (fun c => match c with
                     | None => na
                     | Some s => PyRe.search (negb case) re s
                     end)
  end.

End Pandas.

(** ** The data model *)

Import Pandas.

(** A [pandas.Timestamp], as far as [.dt.year] and [.dt.month] read it. *)
Record Timestamp : Type := mkTimestamp {
  ts_year : Z;
  ts_month : Z;
  ts_day : Z
}.

(** A line of [netflix_titles.csv] as [read_csv] hands it over. *)
Record RawRow : Type := mkRawRow {
  raw_type : cell;
  raw_title : cell;
  raw_director : cell;
  raw_cast : cell;
  raw_country : cell;
  raw_date_added : cell;
  raw_release_year : cell;
  raw_rating : cell;
  raw_duration : cell;
  raw_listed_in : cell;
  raw_description : cell
}.

(** A row of the cleaned frame. *)
Record Row : Type := mkRow {
  type_ : cell;
  title : cell;
  director : cell;
  cast : cell;
  country : cell;
  date_added : option Timestamp;
  release_year : option Z;
  rating : cell;
  duration : cell;
  listed_in : cell;
  description : cell;
  year_added : option Z;
  month_added : option Z
}.

Definition RawFrame : Type := list RawRow.
Definition DataFrame : Type := list Row.

(** [df.empty] *)
Definition empty {A : Type} (df : list A) : bool :=
  match df with
  | [] => true
  | _ :: _ => false
  end.

(** The two parsers of pandas, [pd.to_datetime] and [pd.to_numeric], are
    library code: the definitions below take what they do on one
    non-missing field as a function, whose [None] is the NaT or NaN that
    [errors='coerce'] puts for a text that does not parse. *)

(** [pd.to_datetime(col, errors='coerce')] on one cell *)
Definition coerce_datetime (to_datetime : string -> option Timestamp)
  (c : cell) : option Timestamp :=
  match c with
  | Some s => to_datetime s
  | None => None
  end.

(** [pd.to_numeric(col, errors='coerce')] on one cell *)
Definition coerce_numeric (to_numeric : string -> option Z) (c : cell)
  : option Z :=
  match c with
  | Some s => to_numeric s
  | None => None
  end.

(** [Series.dt.year] and [Series.dt.month] on one cell *)
Definition dt_year (d : option Timestamp) : option Z := option_map ts_year d.
Definition dt_month (d : option Timestamp) : option Z := option_map ts_month d.

(** ** [src/utils/helpers.py] *)

Module Helpers.

Section CleanNetflixData.
Variable to_datetime : string -> option Timestamp.
Variable to_numeric : string -> option Z.

(** [clean_netflix_data(df)]: works on a copy and, unlike
    [load_data], also fills [director] and [cast]. *)
Definition clean_netflix_data (df : RawFrame) : DataFrame :=
  map (fun r =>
         let date := coerce_datetime to_datetime (raw_date_added r) in
         {| type_ := raw_type r;
            title := raw_title r;
            director := fillna "Unknown" (raw_director r);
            cast := fillna "Unknown" (raw_cast r);
            country := fillna "Unknown" (raw_country r);
            date_added := date;
            release_year := coerce_numeric to_numeric (raw_release_year r);
            rating := fillna "Not Rated" (raw_rating r);
            duration := fillna "Unknown" (raw_duration r);
            listed_in := raw_listed_in r;
            description := raw_description r;
            year_added := dt_year date;
            month_added := dt_month date |}) df.

End CleanNetflixData.

(** The loop of [extract_top_items]: [all_items] grows cell by cell. *)
Fixpoint collect_items (sep : string) (cells : list string)
  (all_items : list string) : result (list string) :=
  match cells with
  | [] => Ok all_items
  | items :: cells' =>
      if PyStr.contains sep items
      then parts <- PyStr.split sep items ;;
           collect_items sep cells' (all_items ++ map PyStr.strip parts)
      else collect_items sep cells' (all_items ++ [PyStr.strip items])
  end.

(** [extract_top_items(series, top_n, sep)] *)
Definition extract_top_items (series : list cell) (top_n : Z) (sep : string)
  : result (list (string * nat)) :=
  all_items <- collect_items sep (dropna series) [] ;;
  Ok (head top_n (value_counts String.eqb all_items)).

End Helpers.

(** ** What the script puts on the page, and how a run ends *)

Inductive metric_value : Type :=
  | MInt (z : Z)
  | MText (s : string).

(** A pivot table: the labels of the two axes and one line of values
    per index label. *)
Record pivot_table (V : Type) : Type := mkPivot {
  pt_index : list Z;
  pt_columns : list Z;
  pt_values : list (list V)
}.
Arguments mkPivot {V} _ _ _.
Arguments pt_index {V} _.
Arguments pt_columns {V} _.
Arguments pt_values {V} _.

Inductive event : Type :=
  | Markdown (text : string)                               (* st.markdown *)
  | ErrorBox (text : string)                               (* st.error *)
  | Metric (label : string) (value : metric_value)         (* st.metric *)
  | BarChart (title : string) (data : list (string * nat)) (* px.bar *)
  | Heatmap (title : string) (data : pivot_table nat)      (* px.imshow *)
  | Displaying (n : nat)               (* the line "Displaying n titles" *)
  | Card (r : Row).                                        (* st.expander *)

Inductive halt : Type :=
  | Stopped                (* st.stop() *)
  | Uncaught (e : exn)     (* an exception left the script *)
  | OutsideFragment.       (* a search pattern the embedding does not cover *)

Inductive outcome (A : Type) : Type :=
  | Done (a : A)
  | Halt (h : halt).
Arguments Done {A} a.
Arguments Halt {A} h.

(** A statement of the script: it extends the page and either goes on
    with a value or ends the run. *)
Definition script (A : Type) : Type := list event -> list event * outcome A.

Definition sret {A : Type} (a : A) : script A := fun page => (page, Done a).

Definition sbind {A B : Type} (m : script A) (k : A -> script B) : script B :=
  fun page =>
    match m page with
    | (page', Done a) => k a page'
    | (page', Halt h) => (page', Halt h)
    end.

Notation "x <~ m ;; k" := (sbind m (fun x => k))
  (at level 61, m at next level, right associativity).
Notation "m ;;; k" := (sbind m (fun _ => k))
  (at level 61, right associativity).

Definition emit (e : event) : script unit := fun page => (page ++ [e], Done tt).
Definition st_stop {A : Type} : script A := fun page => (page, Halt Stopped).
Definition raise {A : Type} (e : exn) : script A := fun page => (page, Halt (Uncaught e)).
Definition outside {A : Type} : script A := fun page => (page, Halt OutsideFragment).

Definition lift {A : Type} (r : result A) : script A :=
  match r with
  | Ok a => sret a
  | Raise e => raise e
  end.

(** [try: body  except FileNotFoundError: handler] *)
Definition try_except_FileNotFoundError {A : Type} (body handler : script A)
  : script A :=
  fun page =>
    match body page with
    | (page', Halt (Uncaught FileNotFoundError)) => handler page'
    | r => r
    end.

(** Is an event a metric, a chart or a detail card? *)
Definition is_rendering (e : event) : bool :=
  match e with
  | Metric _ _ | BarChart _ _ | Heatmap _ _ | Displaying _ | Card _ => true
  | Markdown _ | ErrorBox _ => false
  end.

(** ** The file system, as [pd.read_csv] meets it *)

Inductive read_failure : Type :=
  | NoPermission | IsDirectory | BadEncoding | NoColumns | BadSyntax.

Definition exn_of_failure (f : read_failure) : exn :=
  match f with
  | NoPermission => PermissionError
  | IsDirectory => IsADirectoryError
  | BadEncoding => UnicodeDecodeError
  | NoColumns => EmptyDataError
  | BadSyntax => ParserError
  end.

Inductive file_state : Type :=
  | Missing                          (* no file of that name *)
  | Unreadable (why : read_failure)  (* a file that cannot be read or parsed *)
  | Readable (content : RawFrame).

(** [pd.read_csv("netflix_titles.csv")] *)
Definition read_csv (fs : file_state) : result RawFrame :=
  match fs with
  | Missing => Raise FileNotFoundError
  | Unreadable why => Raise (exn_of_failure why)
  | Readable content => Ok content
  end.

(** The widgets of the sidebar and of the detail tab: what the user has
    selected when the script runs. *)
Record Inputs : Type := mkInputs {
  content_type : list cell;
  ratings : list cell;
  year_range : Z * Z;
  search_query : string;
  selected_genre : string;
  selected_country : string
}.

(** ** pandas, continued: what the remaining code of the two files calls *)

Module PandasMore.

(** [Series.unique()]: the distinct values in the order in which they
    are first met. *)
Definition unique {A : Type} (eqb : A -> A -> bool) (l : list A) : list A :=
  fold_left (fun seen x => if existsb (eqb x) seen then seen else seen ++ [x])
    l [].

(** [Series.nunique()]: NaN is not counted. *)
Definition nunique (col : list cell) : nat :=
  length (unique String.eqb (dropna col)).

(** [Series.min()] over the values that are there. *)
Definition series_min (ys : list Z) : option Z :=
  match ys with
  | [] => None
  | y :: ys' => Some (fold_left Z.min ys' y)
  end.

(** [Series.mode()]: the most frequent values, NaN left out, in
    increasing order. *)
Definition mode (col : list cell) : list string :=
  let t := tally String.eqb (dropna col) in
  let top := fold_right Nat.max 0 (map snd t) in
  sort_uniq String.compare (map fst (filter (fun p => snd p =? top) t)).

(** [\d] on a character below 256. *)
Definition is_digit (c : ascii) : bool :=
  let n := nat_of_ascii c in ((48 <=? n) && (n <=? 57))%nat.

(** The digits a string begins with. *)
Fixpoint take_digits (s : string) : string :=
  match s with
  | EmptyString => EmptyString
  | String c s' => if is_digit c then String c (take_digits s') else EmptyString
  end.

(** The group of [re.search('(\d+)', s)]: the leftmost run of digits,
    as long as it goes. *)
Fixpoint search_digits (s : string) : option string :=
  match s with
  | EmptyString => None
  | String c s' => if is_digit c then Some (take_digits s) else search_digits s'
  end.

(** [Series.str.extract('(\d+)')] on one cell: NaN for NaN and for a
    string without a digit. *)
Definition str_extract_digits (c : cell) : cell :=
  match c with
  | Some s => search_digits s
  | None => None
  end.

(** The number a string of digits writes.  [astype(float)] gives this
    number for a run of digits that writes less than 2^53; from there
    on the conversion rounds, which is not embedded. *)
Definition digits_value (d : string) : Z :=
  fold_left (fun acc c => (10 * acc + (Z.of_nat (nat_of_ascii c) - 48))%Z)
    (list_ascii_of_string d) 0%Z.

(** [s[:n]] *)
Fixpoint slice_to (n : nat) (s : string) : string :=
  match n, s with
  | S n', String c s' => String c (slice_to n' s')
  | _, _ => EmptyString
  end.

End PandasMore.

(** ** [src/app.py] *)

Module App.

Definition not_found_message : string :=
  "netflix_titles.csv file not found. Please ensure the file is in the same directory.".

Section LoadData.
Variable to_datetime : string -> option Timestamp.
Variable to_numeric : string -> option Z.

(** The cleaning statements of [load_data] (lines 45-53), row by
    row: [director] and [cast] keep their NaN. *)
Definition clean_row (r : RawRow) : Row :=
  let date := coerce_datetime to_datetime (raw_date_added r) in
  {| type_ := raw_type r;
     title := raw_title r;
     director := raw_director r;
     cast := raw_cast r;
     country := fillna "Unknown" (raw_country r);
     date_added := date;
     release_year := coerce_numeric to_numeric (raw_release_year r);
     rating := fillna "Not Rated" (raw_rating r);
     duration := fillna "Unknown" (raw_duration r);
     listed_in := raw_listed_in r;
     description := raw_description r;
     year_added := dt_year date;
     month_added := dt_month date |}.

(** [load_data()], lines 40-58 *)
Definition load_data (fs : file_state) : script DataFrame :=
  try_except_FileNotFoundError
    (df <~ lift (read_csv fs) ;;
     sret (map clean_row df))
    (emit (ErrorBox not_found_message) ;;;
     sret []).

End LoadData.

(** [series >= bound] and [series <= bound] on one cell: a comparison
    with NaN is false. *)
Definition ge_cell (c : option Z) (bound : Z) : bool :=
  match c with
  | Some y => (bound <=? y)%Z
  | None => false
  end.

Definition le_cell (c : option Z) (bound : Z) : bool :=
  match c with
  | Some y => (y <=? bound)%Z
  | None => false
  end.

(** [filtered_df], lines 97-102 *)
Definition filtered_df (df : DataFrame) (content_type ratings : list cell)
  (year_range : Z * Z) : DataFrame :=
  filter (fun r =>
            isin content_type (type_ r)
            && isin ratings (rating r)
            && ge_cell (release_year r) (fst year_range)
            && le_cell (release_year r) (snd year_range)) df.

(** [s.split(',')]: the separator is not empty, so there is no
    [ValueError] to raise. *)
Definition split_comma (s : string) : list string :=
  PyStr.split_from "," s 0.

(** The loop of lines 233-235, and of lines 300-302 and 319-321:
    [all_items.extend([x.strip() for x in cell.split(',')])]. *)
Definition collect_tokens (cells : list string) : list string :=
  fold_left (fun all_items c => all_items ++ map PyStr.strip (split_comma c))
    cells [].

(** [genre_counts], line 237 *)
Definition genre_counts (filtered : DataFrame) : list (string * nat) :=
  head 15 (value_counts String.eqb
             (collect_tokens (dropna (map listed_in filtered)))).

(** [director_counts], line 304 *)
Definition director_counts (filtered : DataFrame) : list (string * nat) :=
  head 10 (value_counts String.eqb
             (collect_tokens (dropna (map director filtered)))).

(** [cast_counts], line 323 *)
Definition cast_counts (filtered : DataFrame) : list (string * nat) :=
  head 10 (value_counts String.eqb
             (collect_tokens (dropna (map cast filtered)))).

(** The loop of lines 340-343: a cell equal to ['Unknown'] is passed
    over. *)
Definition all_countries (filtered : DataFrame) : list string :=
  fold_left (fun acc countries =>
               if negb (String.eqb countries "Unknown")
               then acc ++ map PyStr.strip (split_comma countries)
               else acc)
    (dropna (map country filtered)) [].

(** [country_counts], line 345 *)
Definition country_counts (filtered : DataFrame) : list (string * nat) :=
  head 20 (value_counts String.eqb (all_countries filtered)).

(** *** Trends over time (tab 4) *)

Definition pair_cmp (a b : Z * Z) : comparison :=
  match Z.compare (fst a) (fst b) with
  | Eq => Z.compare (snd a) (snd b)
  | c => c
  end.

Definition pair_eqb (a b : Z * Z) : bool :=
  Z.eqb (fst a) (fst b) && Z.eqb (snd a) (snd b).

(** The group key of a row, [(year_added, month_added)]; [groupby]
    drops the rows in which one of the two is NaN. *)
Definition added_key (r : Row) : option (Z * Z) :=
  match year_added r, month_added r with
  | Some y, Some m => Some (y, m)
  | _, _ => None
  end.

(** [heatmap_data], line 479:
    [groupby(['year_added', 'month_added']).size().reset_index(name='count')],
    one line per key that occurs, keys in increasing order. *)
Definition heatmap_data (filtered : DataFrame) : list ((Z * Z) * nat) :=
  let keys := dropna (map added_key filtered) in
  map (fun k => (k, occurrences pair_eqb k keys)) (sort_uniq pair_cmp keys).

(** [DataFrame.pivot(index='month_added', columns='year_added',
    values='count')]: a cell without a line in [data] is NaN. *)
Definition pivot (data : list ((Z * Z) * nat)) : pivot_table (option nat) :=
  let index := sort_uniq Z.compare (map (fun e => snd (fst e)) data) in
  let columns := sort_uniq Z.compare (map (fun e => fst (fst e)) data) in
  mkPivot index columns
    (map (fun m => map (fun y => lookup pair_eqb (y, m) data) columns) index).

(** [DataFrame.fillna(value)] *)
Definition fillna_table (value : nat) (t : pivot_table (option nat))
  : pivot_table nat :=
  mkPivot (pt_index t) (pt_columns t)
    (map (map (fun c => match c with Some n => n | None => value end))
       (pt_values t)).

(** [heatmap_pivot], line 480 *)
Definition heatmap_pivot (filtered : DataFrame) : pivot_table nat :=
  fillna_table 0 (pivot (heatmap_data filtered)).

(** Position of a label on an axis. *)
Fixpoint position (x : Z) (axis : list Z) : option nat :=
  match axis with
  | [] => None
  | y :: axis' =>
      if Z.eqb x y then Some 0 else option_map S (position x axis')
  end.

(** [table.loc[m, y]]: the cell of index label [m] and column label
    [y], when the table has one. *)
Definition loc {V : Type} (t : pivot_table V) (m y : Z) : option V :=
  match position m (pt_index t), position y (pt_columns t) with
  | Some i, Some j =>
      match nth_error (pt_values t) i with
      | Some line => nth_error line j
      | None => None
      end
  | _, _ => None
  end.

(** [Series.sort_index()] on a table of counts with numeric labels. *)
Fixpoint insert_by_label (p : Z * nat) (t : list (Z * nat)) : list (Z * nat) :=
  match t with
  | [] => [p]
  | q :: t' =>
      if (fst p <=? fst q)%Z then p :: t else q :: insert_by_label p t'
  end.

Definition sort_index (t : list (Z * nat)) : list (Z * nat) :=
  fold_right insert_by_label [] t.

(** [monthly_added], line 495 *)
Definition monthly_added (filtered : DataFrame) : list (Z * nat) :=
  sort_index (value_counts Z.eqb (dropna (map month_added filtered))).

Definition month_names : list string :=
  ["Jan"; "Feb"; "Mar"; "Apr"; "May"; "Jun";
   "Jul"; "Aug"; "Sep"; "Oct"; "Nov"; "Dec"].

(** [range(1, 13)] *)
Definition months : list Z := map Z.of_nat (seq 1 12).

(** [monthly_data], lines 499-502 *)
Definition monthly_data (filtered : DataFrame) : list (string * nat) :=
  combine month_names
    (map (fun i => get Z.eqb i 0 (monthly_added filtered)) months).

(** *** Detailed analysis (tab 5) *)

(** [if search_query:] -- a string is true when it is not empty. *)
Definition truthy (s : string) : bool := negb (String.eqb s "").

(** The dtypes of the five columns that the detail tab reads through
    [.str].  They are those of the frame that was loaded: [filtered_df]
    and [detailed_df] are made from [df] by boolean indexing and
    [copy]. *)
Record dtypes : Type := mkDtypes {
  dt_title : dtype;
  dt_director : dtype;
  dt_cast : dtype;
  dt_listed_in : dtype;
  dt_country : dtype
}.

Definition dtypes_of (df : DataFrame) : dtypes :=
  mkDtypes (dtype_of (map title df)) (dtype_of (map director df))
    (dtype_of (map cast df)) (dtype_of (map listed_in df))
    (dtype_of (map country df)).

(** Lines 546-551: the free-text search, case-insensitive, over
    [title], [director] and [cast].  The three operands of [|] are
    evaluated from left to right, each one building its accessor and
    then compiling the pattern; [Raise] when an accessor is refused,
    [Ok None] when the pattern is outside the embedded fragment of
    regular expressions. *)
Definition apply_search (dts : dtypes) (query : string) (d : DataFrame)
  : result (option DataFrame) :=
  if truthy query then
    u <- str_accessor (dt_title dts) ;;
    match str_contains query false false with
    | Some hit =>
        u <- str_accessor (dt_director dts) ;;
        u <- str_accessor (dt_cast dts) ;;
        Ok (Some (filter (fun r => hit (title r) || hit (director r)
                                   || hit (cast r)) d))
    | None => Ok None
    end
  else Ok (Some d).

(** Lines 553-557: the genre and the country filter, case-sensitive,
    on one column each. *)
Definition apply_select (column : Row -> cell) (selected : string)
  (d : DataFrame) : option DataFrame :=
  if negb (String.eqb selected "All") then
    match str_contains selected true false with
    | Some hit => Some (filter (fun r => hit (column r)) d)
    | None => None
    end
  else Some d.

(** The accessor that a select filter builds on its column, when the
    selection is not "All" (lines 554 and 557). *)
Definition select_accessor (selected : string) (column_dtype : dtype)
  : result unit :=
  if negb (String.eqb selected "All") then str_accessor column_dtype
  else Ok tt.

(** [detailed_df], lines 545-557: the search, then the genre filter,
    then the country filter, each on the result of the one before.
    [Raise] when one of them raises; [Ok None] when a pattern is
    outside the embedded fragment of regular expressions. *)
Definition detailed_df (dts : dtypes) (filtered : DataFrame)
  (query genre country_sel : string) : result (option DataFrame) :=
  searched <- apply_search dts query filtered ;;
  match searched with
  | Some d1 =>
      u <- select_accessor genre (dt_listed_in dts) ;;
      match apply_select listed_in genre d1 with
      | Some d2 =>
          u <- select_accessor country_sel (dt_country dts) ;;
          Ok (apply_select country country_sel d2)
      | None => Ok None
      end
  | None => Ok None
  end.

(** [len(d[d['type'] == label])] *)
Definition count_type (label : string) (d : DataFrame) : nat :=
  length (filter (fun r => cell_eqb (type_ r) (Some label)) d).

(** [int(d['release_year'].mean()) if not d.empty else 0], line 564:
    the mean passes over NaN, is NaN when nothing is left, and [int]
    of NaN raises [ValueError]; [int] rounds towards zero. *)
Definition average_release_year (d : DataFrame) : result Z :=
  if empty d then Ok 0%Z
  else match dropna (map release_year d) with
       | [] => Raise ValueError
       | ys => Ok (Z.quot (fold_right Z.add 0%Z ys) (Z.of_nat (length ys)))
       end.

(** Lines 574-597: one expander per row, in the order of the frame. *)
Fixpoint show_cards (d : DataFrame) : script unit :=
  match d with
  | [] => sret tt
  | row :: d' => emit (Card row) ;;; show_cards d'
  end.

(** Lines 560-597: the four metrics, the caption and the cards. *)
Definition show_details (detailed : DataFrame) : script unit :=
  emit (Metric "Filtered Results" (MInt (Z.of_nat (length detailed)))) ;;;
  avg <~ lift (average_release_year detailed) ;;
  emit (Metric "Average Release Year" (MInt avg)) ;;;
  emit (Metric "Movies" (MInt (Z.of_nat (count_type "Movie" detailed)))) ;;;
  emit (Metric "TV Shows" (MInt (Z.of_nat (count_type "TV Show" detailed)))) ;;;
  emit (Displaying (length detailed)) ;;;
  show_cards (head 100 detailed).

(** *** The metrics above the tabs *)

(** [Series.max()] over the values that are there. *)
Definition series_max (ys : list Z) : option Z :=
  match ys with
  | [] => None
  | y :: ys' => Some (fold_left Z.max ys' y)
  end.

(** Lines 105-115: the four metrics above the tabs. *)
Definition show_metrics (filtered : DataFrame) : script unit :=
  emit (Metric "Total Content" (MInt (Z.of_nat (length filtered)))) ;;;
  emit (Metric "Movies" (MInt (Z.of_nat (count_type "Movie" filtered)))) ;;;
  emit (Metric "TV Shows" (MInt (Z.of_nat (count_type "TV Show" filtered)))) ;;;
  emit (Metric "Latest Release Year"
          match series_max (dropna (map release_year filtered)) with
          | Some y => MInt y
          | None => MText "N/A"
          end).

(** *** The objects behind the names [df] and [filtered_df]

    Boolean indexing ([df[mask]]) builds a new frame; the assignment
    [filtered_df['decade'] = ...] of line 161 writes a column into the
    object it is applied to. *)

Record frame_obj : Type := mkFrame {
  rows : DataFrame;
  decade : option (list (option Z))   (* the column, once it is there *)
}.

Record namespace : Type := mkNamespace {
  heap : list frame_obj;         (* the objects, by address *)
  name_df : nat;                 (* the address bound to [df] *)
  name_filtered_df : option nat  (* the address bound to [filtered_df] *)
}.

Definition deref (ns : namespace) (a : nat) : option frame_obj :=
  nth_error (heap ns) a.

Fixpoint update {A : Type} (l : list A) (a : nat) (f : A -> A) : list A :=
  match l, a with
  | [], _ => []
  | x :: l', 0 => f x :: l'
  | x :: l', S a' => x :: update l' a' f
  end.

(** Lines 97-102 as a statement: a new object, bound to
    [filtered_df]. *)
Definition stmt_apply_filters (inp : Inputs) (ns : namespace) : namespace :=
  match deref ns (name_df ns) with
  | Some catalog =>
      mkNamespace
        (heap ns ++ [mkFrame (filtered_df (rows catalog) (content_type inp)
                                (ratings inp) (year_range inp)) None])
        (name_df ns)
        (Some (length (heap ns)))
  | None => ns
  end.

(** Line 161: [filtered_df['decade'] = (filtered_df['release_year'] // 10) * 10] *)
Definition stmt_add_decade (ns : namespace) : namespace :=
  match name_filtered_df ns with
  | Some a =>
      mkNamespace
        (update (heap ns) a
           (fun o => mkFrame (rows o)
                       (Some (map (fun r => option_map (fun y => (y / 10) * 10)%Z
                                              (release_year r)) (rows o)))))
        (name_df ns)
        (name_filtered_df ns)
  | None => ns
  end.

(** *** The rest of the overview (tab 1) *)

(** [type_counts], line 133 *)
Definition type_counts (filtered : DataFrame) : list (string * nat) :=
  value_counts String.eqb (dropna (map type_ filtered)).

(** [rating_counts], line 145 *)
Definition rating_counts (filtered : DataFrame) : list (string * nat) :=
  head 10 (value_counts String.eqb (dropna (map rating filtered))).

(** The right-hand side of line 161, [(release_year // 10) * 10]. *)
Definition decade_column (filtered : DataFrame) : list (option Z) :=
  map (fun r => option_map (fun y => (y / 10) * 10)%Z (release_year r)) filtered.

(** [decade_counts], line 162 *)
Definition decade_counts (decades : list (option Z)) : list (Z * nat) :=
  sort_index (value_counts Z.eqb (dropna decades)).

(** [movies_df] and [tv_shows_df], lines 193-194 *)
Definition movies_df (filtered : DataFrame) : DataFrame :=
  filter (fun r => cell_eqb (type_ r) (Some "Movie")) filtered.

Definition tv_shows_df (filtered : DataFrame) : DataFrame :=
  filter (fun r => cell_eqb (type_ r) (Some "TV Show")) filtered.

(** The columns [duration_min] and [seasons], lines 197 and 200:
    [d['duration'].str.extract('(\d+)').astype(float)]. *)
Definition leading_number (d : DataFrame) : list (option Z) :=
  map (fun r => option_map PandasMore.digits_value
                  (PandasMore.str_extract_digits (duration r))) d.

(** [season_counts], line 218 *)
Definition season_counts (tv_shows : DataFrame) : list (Z * nat) :=
  head 15 (sort_index (value_counts Z.eqb (dropna (leading_number tv_shows)))).

(** *** Genre trends (tab 2) *)

Record genre_record : Type := mkGenreRecord {
  gr_genre : string;
  gr_release_year : option Z;
  gr_type : cell
}.

(** [genre_counts.head(8).index] *)
Definition top_genres (filtered : DataFrame) : list string :=
  map fst (head 8 (genre_counts filtered)).

(** [genre_time_data], lines 267-277: one record per genre token of a
    row, when the genre is among the first eight of [genre_counts]. *)
Definition genre_time_data (filtered : DataFrame) : list genre_record :=
  flat_map (fun row =>
              match listed_in row with
              | Some s =>
                  map (fun genre =>
                         mkGenreRecord genre (release_year row) (type_ row))
                    (filter (fun genre =>
                               existsb (String.eqb genre) (top_genres filtered))
                       (map PyStr.strip (split_comma s)))
              | None => []
              end) filtered.

(** *** Countries against ratings and types (tab 3) *)

(** [filtered_df[filtered_df['country'].str.contains(country, na=False)]],
    lines 391 and 422; [None] when the name is outside the embedded
    fragment of regular expressions. *)
Definition country_data (filtered : DataFrame) (name : string)
  : option DataFrame :=
  match str_contains name true false with
  | Some hit => Some (filter (fun r => hit (country r)) filtered)
  | None => None
  end.

(** The loop of lines 421-425 over a list of country names. *)
Fixpoint country_type_rows (filtered : DataFrame) (names : list string)
  : option (list (string * nat * nat)) :=
  match names with
  | [] => Some []
  | name :: names' =>
      match country_data filtered name with
      | Some d =>
          match country_type_rows filtered names' with
          | Some rest =>
              Some ((name, count_type "Movie" d, count_type "TV Show" d) :: rest)
          | None => None
          end
      | None => None
      end
  end.

(** [country_type_data], lines 418-425 *)
Definition country_type_data (filtered : DataFrame)
  : option (list (string * nat * nat)) :=
  country_type_rows filtered (map fst (head 10 (country_counts filtered))).

(** *** Releases and additions by year (tab 4) *)

(** [yearly_releases], lines 445-446 *)
Definition yearly_releases (filtered : DataFrame) : list (Z * nat) :=
  filter (fun p => (1990 <=? fst p)%Z)
    (sort_index (value_counts Z.eqb (dropna (map release_year filtered)))).

(** [yearly_added], line 464 *)
Definition yearly_added (filtered : DataFrame) : list (Z * nat) :=
  sort_index (value_counts Z.eqb (dropna (map year_added filtered))).

(** *** The widgets *)

(** The defaults of the two multiselects, lines 75-86:
    [df['type'].unique()] and [df['rating'].unique()]. *)
Definition default_content_type (df : DataFrame) : list cell :=
  PandasMore.unique cell_eqb (map type_ df).

Definition default_ratings (df : DataFrame) : list cell :=
  PandasMore.unique cell_eqb (map rating df).

(** [col.str.split(',').explode().str.strip()]: a NaN cell stays one
    NaN. *)
Definition exploded (col : list cell) : list cell :=
  flat_map (fun c =>
              match c with
              | Some s => map (fun piece => Some (PyStr.strip piece)) (split_comma s)
              | None => [None]
              end) col.

(** The options of the two select boxes, lines 539 and 542:
    [["All"] + list(col.str.split(',').explode().str.strip().unique())[:50]]
    on a column [col] of the loaded frame; the slice binds to the list,
    before the sum.  The first [.str] is refused on a column that is
    not [object]; the second one meets the pieces, which are strings. *)
Definition select_options (col : list cell) : result (list cell) :=
  u <- str_accessor (dtype_of col) ;;
  Ok (Some "All" :: firstn 50 (PandasMore.unique cell_eqb (exploded col))).

(** *** The body of a detail card, lines 576-597 *)

Inductive card_line : Type :=
  | LType (c : cell)
  | LDuration (c : cell)
  | LSeasons (c : cell)
  | LRating (c : cell)
  | LReleaseYear (y : option Z)
  | LAddedOn (d : Timestamp)
  | LCountry (c : cell)
  | LDirector (s : string)
  | LCast (s : string)
  | LGenre (c : cell)
  | LDescription (s : string).

Definition card_body (row : Row) : list card_line :=
  [LType (type_ row);
   if cell_eqb (type_ row) (Some "Movie") then LDuration (duration row)
   else LSeasons (duration row);
   LRating (rating row);
   LReleaseYear (release_year row)]
  ++ match date_added row with
     | Some d => [LAddedOn d]
     | None => []
     end
  ++ [LCountry (country row)]
  ++ match director row with
     | Some s => if negb (String.eqb s "Unknown") then [LDirector s] else []
     | None => []
     end
  ++ match cast row with
     | Some s =>
         if negb (String.eqb s "Unknown")
         then [LCast (PandasMore.slice_to 200 s ++ "...")%string]
         else []
     | None => []
     end
  ++ [LGenre (listed_in row)]
  ++ match description row with
     | Some s => [LDescription s]
     | None => []
     end.

(** *** The script, from the sidebar to the detail tab

    [px.bar], [px.line] and [px.area] called with two sequences, [x=]
    and [y=]: plotly takes two empty sequences for two lists of column
    names and refuses them with [ValueError]. *)
Definition px_xy {K : Type} (table : list (K * nat)) : result unit :=
  match table with
  | [] => Raise ValueError
  | _ :: _ => Ok tt
  end.

(** Everything below [if df.empty: st.stop()], in the order of the
    script.  Embedded are: the slider, which needs the smallest and
    the largest release year ([int] of NaN raises when no row has
    one); the filter and the four metrics; the figures that are built
    from two sequences, which can be refused; the country loops of tab
    3, which compile each country name as a pattern; the heat map and
    the monthly table; the two select boxes and the detail tab.  A
    figure is put on the page log where the log has an event for it.
    The pies, the histogram, the treemap, the map and the figures built
    from a frame are not embedded. *)
Definition dashboard (df : DataFrame) (inp : Inputs) : script unit :=
  (match series_max (dropna (map release_year df)) with
   | Some _ => sret tt
   | None => raise ValueError
   end) ;;;
  let filtered :=
    filtered_df df (content_type inp) (ratings inp) (year_range inp) in
  show_metrics filtered ;;;
  lift (px_xy (rating_counts filtered)) ;;;
  emit (BarChart "Top 10 Content Ratings" (rating_counts filtered)) ;;;
  (if empty (tv_shows_df filtered) then sret tt
   else lift (px_xy (season_counts (tv_shows_df filtered)))) ;;;
  lift (px_xy (genre_counts filtered)) ;;;
  emit (BarChart "Top 15 Genres/Categories" (genre_counts filtered)) ;;;
  lift (px_xy (director_counts filtered)) ;;;
  emit (BarChart "Top 10 Directors" (director_counts filtered)) ;;;
  lift (px_xy (cast_counts filtered)) ;;;
  emit (BarChart "Top 10 Actors/Actresses" (cast_counts filtered)) ;;;
  lift (px_xy (country_counts filtered)) ;;;
  emit (BarChart "Top 20 Countries by Content Production"
          (country_counts filtered)) ;;;
  (match country_type_rows filtered
           (map fst (head 15 (country_counts filtered))) with
   | Some _ => sret tt
   | None => outside
   end) ;;;
  lift (px_xy (yearly_releases filtered)) ;;;
  lift (px_xy (yearly_added filtered)) ;;;
  emit (Heatmap "Monthly Content Additions Heatmap" (heatmap_pivot filtered)) ;;;
  emit (BarChart "Content Added by Month" (monthly_data filtered)) ;;;
  genres <~ lift (select_options (map listed_in df)) ;;
  countries <~ lift (select_options (map country df)) ;;
  found <~ lift (detailed_df (dtypes_of df) filtered (search_query inp)
                   (selected_genre inp) (selected_country inp)) ;;
  match found with
  | Some detailed => show_details detailed
  | None => outside
  end.

Definition header : string := "Netflix Content Analysis Dashboard".

Section Main.
Variable to_datetime : string -> option Timestamp.
Variable to_numeric : string -> option Z.

(** Lines 32-64 and what follows: the header, the load, the stop on
    an empty frame, the dashboard. *)
Definition main (fs : file_state) (inp : Inputs) : script unit :=
  emit (Markdown header) ;;;
  df <~ load_data to_datetime to_numeric fs ;;
  if empty df then st_stop else dashboard df inp.

(** One run of the script on an empty page. *)
Definition run (fs : file_state) (inp : Inputs) : list event * outcome unit :=
  main fs inp [].

End Main.

End App.

(** ** [src/utils/helpers.py], the statistics functions *)

Module Stats.

(** [calculate_content_trends(df, year_col)], on the column
    [df[year_col]]. *)
Definition calculate_content_trends (col : list (option Z)) : list (Z * nat) :=
  App.sort_index (value_counts Z.eqb (dropna col)).

Record country_stats : Type := mkCountryStats {
  counts : list (string * nat);
  total_unique : nat
}.

(** [get_country_stats(df, country_col)], on the column
    [df[country_col]]: the loop is the one of [extract_top_items] with
    the comma. *)
Definition get_country_stats (col : list cell) : result country_stats :=
  all_countries <- Helpers.collect_items "," (dropna col) [] ;;
  Ok (mkCountryStats (value_counts String.eqb all_countries)
        (PandasMore.nunique (map Some all_countries))).

Record summary : Type := mkSummary {
  total_titles : nat;
  movies_count : nat;
  tv_shows_count : nat;
  earliest_release : option Z;
  latest_release : option Z;
  unique_countries : nat;
  unique_directors : nat;
  most_common_rating : string
}.

(** [create_summary_stats(df)] *)
Definition create_summary_stats (df : DataFrame) : summary :=
  {| total_titles := length df;
     movies_count := App.count_type "Movie" df;
     tv_shows_count := App.count_type "TV Show" df;
     earliest_release := PandasMore.series_min (dropna (map release_year df));
     latest_release := App.series_max (dropna (map release_year df));
     unique_countries := PandasMore.nunique (map country df);
     unique_directors := PandasMore.nunique (map director df);
     most_common_rating :=
       match PandasMore.mode (map rating df) with
       | m :: _ => m
       | [] => "N/A"
       end |}.

End Stats.

(** ** The vocabulary of the statements

    [top_tokens] and [search] follow the words of the specification, to
    be compared with what the code computes; the other definitions name
    what the statements below talk about. *)

Module Spec.

(** The distinct values of a list in the order in which they are first
    met. *)
Fixpoint first_occ {A : Type} (eqb : A -> A -> bool) (l : list A) : list A :=
  match l with
  | [] => []
  | x :: l' => x :: filter (fun y => negb (eqb x y)) (first_occ eqb l')
  end.

(** The trimmed pieces of every non-absent cell, empty ones
    included. *)
Definition tokens (sep : string) (series : list cell) : list string :=
  flat_map (fun c => map PyStr.strip (PyStr.split_from sep c 0))
    (dropna series).

(** [top_tokens] as the specification words it: split, trim, discard
    the empty tokens, tally, keep the first [top_n] by count. *)
Definition top_tokens (series : list cell) (top_n : Z) (sep : string)
  : list (string * nat) :=
  head top_n
    (value_counts String.eqb
       (filter (fun t => negb (String.eqb t "")) (tokens sep series))).

(** [query] is a case-insensitive substring of the cell; an absent
    cell never matches. *)
Definition ci_substring (query : string) (c : cell) : bool :=
  match c with
  | Some s => PyStr.contains (PyStr.lower query) (PyStr.lower s)
  | None => false
  end.

(** [search] as the specification words it: title OR director OR cast
    contains the query as a case-insensitive substring. *)
Definition search (view : DataFrame) (query : string) : DataFrame :=
  filter (fun r => ci_substring query (title r)
                   || ci_substring query (director r)
                   || ci_substring query (cast r)) view.

(** A string of whitespace only. *)
Fixpoint all_space (s : string) : bool :=
  match s with
  | EmptyString => true
  | String c s' => PyStr.isspace c && all_space s'
  end.

(** A string that does not begin, respectively end, with whitespace. *)
Definition head_clean (s : string) : Prop :=
  match s with
  | EmptyString => True
  | String c _ => PyStr.isspace c = false
  end.

Fixpoint last_clean (s : string) : Prop :=
  match s with
  | EmptyString => True
  | String c EmptyString => PyStr.isspace c = false
  | String _ s' => last_clean s'
  end.

(** The tokens one country cell contributes to the geographical
    tables. *)
Definition country_tokens (c : string) : list string :=
  if String.eqb c "Unknown" then []
  else map PyStr.strip (PyStr.split_from "," c 0).

(** Is the country cell of a row the sentinel, whole? *)
Definition unknown_country (r : Row) : bool :=
  cell_eqb (country r) (Some "Unknown").

(** Number of rows of a view added in month [m] of year [y], and in
    month [m] of any year. *)
Definition added_in (y m : Z) (view : DataFrame) : nat :=
  length (filter (fun r => match year_added r, month_added r with
                           | Some y', Some m' => Z.eqb y y' && Z.eqb m m'
                           | _, _ => false
                           end) view).

Definition added_in_month (m : Z) (view : DataFrame) : nat :=
  length (filter (fun r => match month_added r with
                           | Some m' => Z.eqb m m'
                           | None => false
                           end) view).

(** A query without any character that the regular expressions give a
    special meaning to. *)
Fixpoint plain (q : string) : bool :=
  match q with
  | EmptyString => true
  | String c q' =>
      negb (Ascii.eqb c "."%char) && negb (PyRe.is_special c) && plain q'
  end.

(** [year_added] and [month_added] agree with [date_added]. *)
Definition derived_from_date (r : Row) : Prop :=
  match date_added r with
  | Some d => year_added r = Some (ts_year d) /\ month_added r = Some (ts_month d)
  | None => year_added r = None /\ month_added r = None
  end.

(** A table of counts in descending order. *)
Fixpoint descending {A : Type} (t : list (A * nat)) : Prop :=
  match t with
  | [] => True
  | p :: t' => Forall (fun q => snd q <= snd p) t' /\ descending t'
  end.

End Spec.

(** ** More vocabulary, for the properties of the remaining code *)

Module Vocab.

(** The counts of a table, added up. *)
Definition total {A : Type} (t : list (A * nat)) : nat :=
  fold_right (fun p acc => snd p + acc) 0 t.

(** A table whose labels strictly increase. *)
Fixpoint ascending (t : list (Z * nat)) : Prop :=
  match t with
  | [] => True
  | p :: t' => Forall (fun q => (fst p < fst q)%Z) t' /\ ascending t'
  end.

(** Strings without a digit, and of digits only. *)
Fixpoint no_digit (s : string) : bool :=
  match s with
  | EmptyString => true
  | String c s' => negb (PandasMore.is_digit c) && no_digit s'
  end.

Fixpoint all_digits (s : string) : bool :=
  match s with
  | EmptyString => true
  | String c s' => PandasMore.is_digit c && all_digits s'
  end.

(** A string that does not begin with a digit. *)
Definition no_leading_digit (s : string) : bool :=
  match s with
  | EmptyString => true
  | String c _ => negb (PandasMore.is_digit c)
  end.

(** [t] is one of the trimmed comma-separated pieces of the cell. *)
Definition has_token (t : string) (c : cell) : Prop :=
  match c with
  | Some s => In t (map PyStr.strip (PyStr.split_from "," s 0))
  | None => False
  end.

(** The release year of a row lies within the bounds. *)
Definition year_within (lo hi : Z) (r : Row) : bool :=
  match release_year r with
  | Some y => (lo <=? y)%Z && (y <=? hi)%Z
  | None => false
  end.

(** A column of a frame holds a string in some row; a frame has rows
    and a column of it holds no string at all. *)
Definition holds_string (column : Row -> cell) (df : DataFrame) : Prop :=
  exists r s, In r df /\ column r = Some s.

Definition holds_no_string (column : Row -> cell) (df : DataFrame) : Prop :=
  df <> [] /\ forall r, In r df -> column r = None.

(** The five columns of the detail tab are columns of strings. *)
Definition all_object (dts : App.dtypes) : Prop :=
  App.dt_title dts = object /\ App.dt_director dts = object
  /\ App.dt_cast dts = object /\ App.dt_listed_in dts = object
  /\ App.dt_country dts = object.

(** A pattern of ordinary characters and dots. *)
Definition embedded (pat : string) : Prop := PyRe.compile pat <> None.

(** A cell with a character other than the line break in it. *)
Definition any_char (c : cell) : bool :=
  match c with
  | Some s =>
      existsb (fun t => negb (Ascii.eqb t PyRe.newline)) (list_ascii_of_string s)
  | None => false
  end.

(** The cells of a table, added up. *)
Definition grid_total (values : list (list nat)) : nat :=
  fold_right (fun line acc => fold_right Nat.add 0 line + acc) 0 values.

(** A strictly increasing list of labels. *)
Fixpoint increasing (l : list Z) : Prop :=
  match l with
  | [] => True
  | x :: l' => Forall (fun y => (x < y)%Z) l' /\ increasing l'
  end.

End Vocab.

(** * Properties *)

(** ** Strings *)

Lemma contains_cons (sub : string) (c : ascii) (s : string) :
  PyStr.contains sub (String c s)
  = String.prefix sub (String c s) || PyStr.contains sub s.
Proof. reflexivity. Qed.

Lemma split_from_cons (sep : string) (c : ascii) (s : string) :
  PyStr.split_from sep (String c s) 0
  = if String.prefix sep (String c s)
    then EmptyString :: PyStr.split_from sep s (String.length sep - 1)
    else match PyStr.split_from sep s 0 with
         | piece :: rest => String c piece :: rest
         | [] => [String c EmptyString]
         end.
Proof. reflexivity. Qed.

Lemma split_from_no_sep (sep s : string) :
  PyStr.contains sep s = false -> PyStr.split_from sep s 0 = [s].
Proof.
  induction s as [|c s IH]; intros H.
  - reflexivity.
  - rewrite contains_cons in H. apply orb_false_iff in H.
    destruct H as [Hp Hc].
    rewrite split_from_cons, Hp, (IH Hc). reflexivity.
Qed.

Lemma split_nonempty_sep (sep s : string) :
  sep <> EmptyString -> PyStr.split sep s = Ok (PyStr.split_from sep s 0).
Proof.
  intros H. unfold PyStr.split.
  destruct (String.eqb sep "") eqn:E; [apply String.eqb_eq in E; contradiction|].
  reflexivity.
Qed.

(** The loop of [extract_top_items] gathers the trimmed pieces of every
    cell, in order; the [else] branch is the one-piece case of the
    split. *)
Lemma collect_items_flat_map (sep : string) (cells acc : list string) :
  sep <> EmptyString ->
  Helpers.collect_items sep cells acc
  = Ok (acc ++ flat_map (fun c => map PyStr.strip (PyStr.split_from sep c 0)) cells).
Proof.
  intros Hsep. revert acc.
  induction cells as [|c cells IH]; intros acc; simpl.
  - now rewrite app_nil_r.
  - destruct (PyStr.contains sep c) eqn:E.
    + rewrite (split_nonempty_sep sep c Hsep). simpl.
      rewrite IH, <- app_assoc. reflexivity.
    + rewrite IH, (split_from_no_sep _ _ E), <- app_assoc. reflexivity.
Qed.

Lemma collect_tokens_flat_map (cells : list string) :
  App.collect_tokens cells
  = flat_map (fun c => map PyStr.strip (PyStr.split_from "," c 0)) cells.
Proof.
  unfold App.collect_tokens.
  enough (H : forall acc,
             fold_left (fun all_items c =>
                          all_items ++ map PyStr.strip (App.split_comma c))
               cells acc
             = acc ++ flat_map (fun c => map PyStr.strip (PyStr.split_from "," c 0)) cells)
    by apply (H []).
  induction cells as [|c cells IH]; intros acc; simpl.
  - now rewrite app_nil_r.
  - rewrite IH, <- app_assoc. reflexivity.
Qed.

Lemma split_from_not_nil (sep s : string) (skip : nat) :
  PyStr.split_from sep s skip <> [].
Proof.
  revert skip. induction s as [|c s IH]; intros skip; [discriminate|].
  destruct skip; [|apply IH].
  rewrite split_from_cons.
  destruct (String.prefix sep (String c s)); [discriminate|].
  destruct (PyStr.split_from sep s 0); discriminate.
Qed.

Lemma split_from_skip (sep a rest : string) :
  PyStr.split_from sep (a ++ rest)%string (String.length a)
  = PyStr.split_from sep rest 0.
Proof. induction a as [|c a IH]; [reflexivity | exact IH]. Qed.

Lemma prefix_append (a s : string) :
  String.prefix a s = true -> exists rest, s = (a ++ rest)%string.
Proof.
  revert s. induction a as [|c a IH]; intros s H.
  - now exists s.
  - destruct s as [|d s]; simpl in H; [discriminate|].
    destruct (Ascii.ascii_dec c d) as [->|]; [|discriminate].
    destruct (IH s H) as [rest ->]. now exists rest.
Qed.

Lemma string_length_append (a b : string) :
  String.length (a ++ b)%string = String.length a + String.length b.
Proof. induction a as [|c a IH]; simpl; [reflexivity | now rewrite IH]. Qed.

Lemma join_cons_char (sep : string) (c : ascii) (p : string) (l : list string) :
  PyStr.join sep (String c p :: l) = String c (PyStr.join sep (p :: l)).
Proof. destruct l; reflexivity. Qed.

(** Splitting loses nothing: joining the pieces with the separator gives
    the cell back. *)
Lemma join_split_from (sep s : string) :
  sep <> EmptyString -> PyStr.join sep (PyStr.split_from sep s 0) = s.
Proof.
  intros Hsep.
  remember (String.length s) as n eqn:Hn. revert s Hn.
  induction n as [n IH] using lt_wf_ind. intros s Hn.
  destruct s as [|c s]; [reflexivity|].
  rewrite split_from_cons.
  destruct (String.prefix sep (String c s)) eqn:E.
  - destruct (prefix_append _ _ E) as [rest Hrest].
    destruct sep as [|a sep']; [contradiction|].
    simpl in Hrest. injection Hrest as -> ->.
    replace (String.length (String a sep') - 1) with (String.length sep')
      by (simpl; lia).
    rewrite split_from_skip.
    destruct (PyStr.split_from (String a sep') rest 0) as [|p l] eqn:F;
      [now apply split_from_not_nil in F|].
    change (PyStr.join (String a sep') (EmptyString :: p :: l))
      with (String a sep' ++ PyStr.join (String a sep') (p :: l))%string.
    rewrite <- F, (IH (String.length rest)); [reflexivity | | reflexivity].
    subst n. simpl. rewrite string_length_append. lia.
  - destruct (PyStr.split_from sep s 0) as [|p l] eqn:F;
      [now apply split_from_not_nil in F|].
    rewrite join_cons_char, <- F, (IH (String.length s)); [reflexivity | | reflexivity].
    subst n. simpl. lia.
Qed.

Lemma split_head_prefix (sep s : string) :
  exists rest, s = (hd EmptyString (PyStr.split_from sep s 0) ++ rest)%string.
Proof.
  induction s as [|c s [rest IH]].
  - now exists EmptyString.
  - rewrite split_from_cons.
    destruct (String.prefix sep (String c s)); [now exists (String c s)|].
    destruct (PyStr.split_from sep s 0) as [|p l]; simpl in *.
    + exists s. reflexivity.
    + exists rest. now rewrite <- IH.
Qed.

Lemma prefix_append_r (a s rest : string) :
  String.prefix a s = true -> String.prefix a (s ++ rest)%string = true.
Proof.
  revert s. induction a as [|c a IH]; intros s H;
    [now destruct (s ++ rest)%string|].
  destruct s as [|d s]; [discriminate|].
  simpl in *. destruct (Ascii.ascii_dec c d); [now apply IH | discriminate].
Qed.

(** No piece of a split contains the separator. *)
Lemma split_pieces_sep_free (sep s : string) :
  sep <> EmptyString ->
  Forall (fun p => PyStr.contains sep p = false) (PyStr.split_from sep s 0).
Proof.
  intros Hsep.
  assert (Hempty : PyStr.contains sep EmptyString = false).
  { simpl. destruct (String.eqb sep "") eqn:E; [|reflexivity].
    apply String.eqb_eq in E. contradiction. }
  remember (String.length s) as n eqn:Hn. revert s Hn.
  induction n as [n IH] using lt_wf_ind. intros s Hn.
  destruct s as [|c s]; [now repeat constructor|].
  rewrite split_from_cons.
  destruct (String.prefix sep (String c s)) eqn:E.
  - destruct (prefix_append _ _ E) as [rest Hrest].
    destruct sep as [|a sep']; [contradiction|].
    simpl in Hrest. injection Hrest as -> ->.
    replace (String.length (String a sep') - 1) with (String.length sep')
      by (simpl; lia).
    rewrite split_from_skip. constructor; [exact Hempty|].
    apply (IH (String.length rest)); [|reflexivity].
    subst n. simpl. rewrite string_length_append. lia.
  - pose proof (IH (String.length s) ltac:(subst n; simpl; lia) s eq_refl) as G.
    destruct (split_head_prefix sep s) as [rest Hrest].
    destruct (PyStr.split_from sep s 0) as [|p l] eqn:Hsplit;
      [now apply split_from_not_nil in Hsplit|].
    cbn [hd] in Hrest.
    apply Forall_cons_iff in G. destruct G as [Hp Hl].
    constructor; [|assumption].
    rewrite contains_cons, Hp, orb_false_r.
    destruct (String.prefix sep (String c p)) eqn:F; [|reflexivity].
    apply (prefix_append_r _ _ rest) in F.
    change (String c p ++ rest)%string with (String c (p ++ rest)%string) in F.
    rewrite <- Hrest in F. congruence.
Qed.

Lemma lstrip_spec (s : string) :
  exists l, s = (l ++ PyStr.lstrip s)%string
            /\ Spec.all_space l = true /\ Spec.head_clean (PyStr.lstrip s).
Proof.
  induction s as [|c s [l [E [Hl Hc]]]]; simpl.
  - now exists EmptyString.
  - destruct (PyStr.isspace c) eqn:Ec.
    + exists (String c l). simpl. rewrite Ec, Hl, <- E. now repeat split.
    + exists EmptyString. simpl. now repeat split.
Qed.

Lemma rstrip_spec (s : string) :
  exists r, s = (PyStr.rstrip s ++ r)%string
            /\ Spec.all_space r = true /\ Spec.last_clean (PyStr.rstrip s).
Proof.
  induction s as [|c s [r [E [Hr Hc]]]]; simpl.
  - now exists EmptyString.
  - destruct (PyStr.rstrip s) as [|d t] eqn:F.
    + destruct (PyStr.isspace c) eqn:Ec.
      * exists (String c r). simpl in *. subst r. rewrite Ec, Hr. now repeat split.
      * exists r. simpl in *. subst r. now repeat split.
    + exists r. rewrite E at 1. repeat split; [assumption|].
      destruct t; [exact Hc|]. exact Hc.
Qed.

Lemma rstrip_head_clean (s : string) :
  Spec.head_clean s -> Spec.head_clean (PyStr.rstrip s).
Proof.
  destruct s as [|c s]; simpl; [trivial|]. intros H.
  destruct (PyStr.rstrip s); [rewrite H|]; exact H.
Qed.

(** [strip] removes whitespace at both ends and nothing else. *)
Lemma strip_spec (s : string) :
  exists l r, s = (l ++ PyStr.strip s ++ r)%string
              /\ Spec.all_space l = true /\ Spec.all_space r = true
              /\ Spec.head_clean (PyStr.strip s)
              /\ Spec.last_clean (PyStr.strip s).
Proof.
  destruct (lstrip_spec s) as [l [El [Hl Hh]]].
  destruct (rstrip_spec (PyStr.lstrip s)) as [r [Er [Hr Hc]]].
  exists l, r. unfold PyStr.strip.
  rewrite <- Er, <- El. repeat split; try assumption.
  now apply rstrip_head_clean.
Qed.

(** ** Tables of counts *)

Example first_occ_keeps_first_seen_order :
  Spec.first_occ String.eqb ["b"; "a"; "b"; "c"; "a"] = ["b"; "a"; "c"].
Proof. reflexivity. Qed.

Section CountingFacts.
Context {A : Type} (eqb : A -> A -> bool).
Hypothesis eqb_eq : forall x y, eqb x y = true <-> x = y.

Lemma eqb_refl' (x : A) : eqb x x = true.
Proof. now apply eqb_eq. Qed.

Lemma eqb_sym' (x y : A) : eqb x y = eqb y x.
Proof.
  destruct (eqb x y) eqn:E, (eqb y x) eqn:F; try reflexivity.
  - apply eqb_eq in E. subst. now rewrite eqb_refl' in F.
  - apply eqb_eq in F. subst. now rewrite eqb_refl' in E.
Qed.

Lemma existsb_eqb_In (x : A) (l : list A) :
  existsb (eqb x) l = true <-> In x l.
Proof.
  rewrite existsb_exists. split.
  - intros [y [Hy E]]. apply eqb_eq in E. now subst.
  - intros H. exists x. split; [assumption | apply eqb_refl'].
Qed.

Lemma tally_snoc (l : list A) (x : A) :
  tally eqb (l ++ [x]) = bump eqb x (tally eqb l).
Proof. unfold tally. now rewrite fold_left_app. Qed.

Lemma occurrences_snoc (k x : A) (l : list A) :
  occurrences eqb k (l ++ [x])
  = occurrences eqb k l + (if eqb k x then 1 else 0).
Proof.
  unfold occurrences. rewrite filter_app, length_app. simpl.
  now destruct (eqb k x).
Qed.

Lemma occurrences_pos_In (k : A) (l : list A) :
  0 < occurrences eqb k l <-> In k l.
Proof.
  unfold occurrences. induction l as [|x l IH]; simpl.
  - split; [lia | contradiction].
  - destruct (eqb k x) eqn:E; simpl.
    + apply eqb_eq in E. subst. split; [auto | lia].
    + rewrite IH. split; [auto | intros [H|H]; [|assumption]].
      subst. now rewrite eqb_refl' in E.
Qed.

Lemma lookup_bump (k x : A) (t : list (A * nat)) :
  lookup eqb k (bump eqb x t)
  = if eqb k x
    then Some (S match lookup eqb x t with Some n => n | None => 0 end)
    else lookup eqb k t.
Proof.
  induction t as [|[k' n] t IH]; simpl.
  - now destruct (eqb k x).
  - destruct (eqb x k') eqn:E; simpl.
    + apply eqb_eq in E. subst k'. now destruct (eqb k x).
    + destruct (eqb k k') eqn:F.
      * apply eqb_eq in F. subst k'. now rewrite (eqb_sym' k x), E.
      * exact IH.
Qed.

(** The count against a value is the number of its occurrences; a
    value that does not occur has no entry. *)
Lemma lookup_tally (k : A) (l : list A) :
  lookup eqb k (tally eqb l)
  = match occurrences eqb k l with 0 => None | n => Some n end.
Proof.
  induction l as [|x l IH] using rev_ind.
  - reflexivity.
  - rewrite tally_snoc, lookup_bump, occurrences_snoc.
    destruct (eqb k x) eqn:E.
    + apply eqb_eq in E. subst x. rewrite IH.
      destruct (occurrences eqb k l); simpl; f_equal; lia.
    + now rewrite IH, Nat.add_0_r.
Qed.

Lemma keys_bump (x : A) (t : list (A * nat)) :
  map fst (bump eqb x t)
  = if existsb (eqb x) (map fst t) then map fst t else map fst t ++ [x].
Proof.
  induction t as [|[k n] t IH]; simpl.
  - reflexivity.
  - destruct (eqb x k) eqn:E; simpl.
    + reflexivity.
    + rewrite IH. now destruct (existsb (eqb x) (map fst t)).
Qed.

Lemma first_occ_In (x : A) (l : list A) :
  In x (Spec.first_occ eqb l) <-> In x l.
Proof.
  induction l as [|y l IH]; simpl.
  - tauto.
  - rewrite filter_In, IH. split.
    + intros [H|[H _]]; auto.
    + intros [H|H]; [now left|].
      destruct (eqb y x) eqn:E.
      * apply eqb_eq in E. now left.
      * right. split; [assumption | reflexivity].
Qed.

Lemma first_occ_snoc (l : list A) (x : A) :
  Spec.first_occ eqb (l ++ [x])
  = if existsb (eqb x) l then Spec.first_occ eqb l
    else Spec.first_occ eqb l ++ [x].
Proof.
  induction l as [|y l IH]; simpl.
  - reflexivity.
  - rewrite IH, (eqb_sym' x y).
    destruct (eqb y x) eqn:E; simpl.
    + destruct (existsb (eqb x) l); [reflexivity|].
      rewrite filter_app. simpl. rewrite E. simpl.
      now rewrite app_nil_r.
    + destruct (existsb (eqb x) l); [reflexivity|].
      rewrite filter_app. simpl. rewrite E. reflexivity.
Qed.

(** The entries of the tally are in first-seen order. *)
Lemma keys_tally (l : list A) :
  map fst (tally eqb l) = Spec.first_occ eqb l.
Proof.
  induction l as [|x l IH] using rev_ind.
  - reflexivity.
  - rewrite tally_snoc, keys_bump, first_occ_snoc, IH.
    destruct (existsb (eqb x) (Spec.first_occ eqb l)) eqn:E,
             (existsb (eqb x) l) eqn:F; try reflexivity.
    + apply (proj1 (existsb_eqb_In x _)), (proj1 (first_occ_In x l)),
        (proj2 (existsb_eqb_In x l)) in E.
      congruence.
    + apply (proj1 (existsb_eqb_In x l)), (proj2 (first_occ_In x l)),
        (proj2 (existsb_eqb_In x _)) in F.
      congruence.
Qed.

Lemma NoDup_first_occ (l : list A) : NoDup (Spec.first_occ eqb l).
Proof.
  induction l as [|x l IH]; simpl; constructor.
  - rewrite filter_In. intros [_ H]. now rewrite eqb_refl' in H.
  - now apply NoDup_filter.
Qed.

Lemma lookup_not_In (k : A) (t : list (A * nat)) :
  ~ In k (map fst t) -> lookup eqb k t = None.
Proof.
  induction t as [|[k' n] t IH]; simpl; intros H.
  - reflexivity.
  - destruct (eqb k k') eqn:E.
    + apply eqb_eq in E. subst. tauto.
    + apply IH. tauto.
Qed.

(** In a table without repeated keys, an entry is what [lookup]
    finds. *)
Lemma In_lookup (k : A) (n : nat) (t : list (A * nat)) :
  NoDup (map fst t) -> (In (k, n) t <-> lookup eqb k t = Some n).
Proof.
  induction t as [|[k' m] t IH]; simpl; intros H.
  - split; [contradiction | discriminate].
  - inversion H as [|? ? Hk Ht]; subst.
    destruct (eqb k k') eqn:E.
    + apply eqb_eq in E. subst k'. split.
      * intros [G|G]; [congruence|].
        exfalso. apply Hk. change k with (fst (k, n)). now apply in_map.
      * intros G. left. congruence.
    + rewrite <- (IH Ht). split; [|auto].
      intros [G|G]; [|assumption].
      inversion G; subst. now rewrite eqb_refl' in E.
Qed.

End CountingFacts.

(** ** The stable descending sort of [value_counts] *)

Section SortFacts.
Context {A : Type}.
Implicit Types (p q : A * nat) (t : list (A * nat)).

Lemma insert_desc_In q p t :
  In q (insert_desc p t) <-> q = p \/ In q t.
Proof.
  induction t as [|r t IH]; simpl.
  - intuition congruence.
  - destruct (snd p <? snd r); simpl; [rewrite IH|]; intuition congruence.
Qed.

Lemma sort_desc_In q t : In q (sort_desc t) <-> In q t.
Proof.
  induction t as [|r t IH]; simpl.
  - tauto.
  - rewrite insert_desc_In, IH. intuition congruence.
Qed.

Lemma insert_desc_descending p t :
  Spec.descending t -> Spec.descending (insert_desc p t).
Proof.
  induction t as [|r t IH]; simpl; intros H.
  - split; [constructor | exact I].
  - destruct H as [Hr Ht].
    destruct (snd p <? snd r) eqn:E; simpl.
    + apply Nat.ltb_lt in E. split; [|now apply IH].
      rewrite Forall_forall in *. intros q Hq.
      apply (proj1 (insert_desc_In q p t)) in Hq.
      destruct Hq as [->|Hq]; [lia | now apply Hr].
    + apply Nat.ltb_ge in E. split; [|now split].
      constructor; [assumption|].
      rewrite Forall_forall in *. intros q Hq.
      specialize (Hr q Hq). lia.
Qed.

Lemma sort_desc_descending t : Spec.descending (sort_desc t).
Proof.
  induction t as [|r t IH]; simpl; [exact I | now apply insert_desc_descending].
Qed.

(** Stability: among the entries of one count, the sort changes
    nothing. *)
Lemma insert_desc_stable (n : nat) p t :
  filter (fun q => snd q =? n) (insert_desc p t)
  = filter (fun q => snd q =? n) (p :: t).
Proof.
  induction t as [|r t IH]; [reflexivity|].
  cbn [insert_desc]. destruct (snd p <? snd r) eqn:E; [|reflexivity].
  apply Nat.ltb_lt in E.
  cbn [filter]. rewrite IH. cbn [filter].
  destruct (snd p =? n) eqn:Ep, (snd r =? n) eqn:Er; try reflexivity.
  apply Nat.eqb_eq in Ep, Er. lia.
Qed.

Lemma sort_desc_stable (n : nat) t :
  filter (fun q => snd q =? n) (sort_desc t) = filter (fun q => snd q =? n) t.
Proof.
  induction t as [|r t IH]; [reflexivity|].
  cbn [sort_desc fold_right]. fold (sort_desc t).
  rewrite insert_desc_stable. simpl. now rewrite IH.
Qed.

Lemma insert_desc_keys_NoDup p t :
  ~ In (fst p) (map fst t) -> NoDup (map fst t) ->
  NoDup (map fst (insert_desc p t)).
Proof.
  induction t as [|r t IH]; simpl; intros Hp Ht.
  - constructor; [tauto | constructor].
  - destruct (snd p <? snd r); simpl.
    + inversion Ht as [|? ? Hr Ht']; subst. constructor.
      * rewrite in_map_iff. intros [q [Eq Hq]].
        apply (proj1 (insert_desc_In q p t)) in Hq.
        destruct Hq as [->|Hq]; [apply Hp; left; now symmetry|].
        apply Hr. rewrite <- Eq. now apply in_map.
      * apply IH; tauto.
    + constructor; [simpl; tauto | assumption].
Qed.

Lemma sort_desc_keys_NoDup t :
  NoDup (map fst t) -> NoDup (map fst (sort_desc t)).
Proof.
  induction t as [|r t IH]; simpl; intros H; [constructor|].
  inversion H as [|? ? Hr Ht]; subst.
  apply insert_desc_keys_NoDup; [|apply IH; exact Ht].
  rewrite in_map_iff. intros [q [Eq Hq]].
  apply (proj1 (sort_desc_In q t)) in Hq.
  apply Hr. rewrite <- Eq. now apply in_map.
Qed.

End SortFacts.

Section ValueCountsFacts.
Context {A : Type} (eqb : A -> A -> bool).
Hypothesis eqb_eq : forall x y, eqb x y = true <-> x = y.

Lemma tally_keys_NoDup (l : list A) : NoDup (map fst (tally eqb l)).
Proof. rewrite (keys_tally eqb eqb_eq). apply (NoDup_first_occ eqb eqb_eq). Qed.

Lemma tally_In (k : A) (n : nat) (l : list A) :
  In (k, n) (tally eqb l) <-> n = occurrences eqb k l /\ 0 < n.
Proof.
  rewrite (In_lookup eqb eqb_eq) by apply tally_keys_NoDup.
  rewrite (lookup_tally eqb eqb_eq).
  destruct (occurrences eqb k l); split.
  - discriminate.
  - intros [-> H]. lia.
  - intros H. inversion H. split; [reflexivity | lia].
  - intros [-> _]. reflexivity.
Qed.

Lemma value_counts_keys_NoDup (l : list A) :
  NoDup (map fst (value_counts eqb l)).
Proof. apply sort_desc_keys_NoDup, tally_keys_NoDup. Qed.

Lemma value_counts_In (k : A) (n : nat) (l : list A) :
  In (k, n) (value_counts eqb l) <-> n = occurrences eqb k l /\ 0 < n.
Proof. unfold value_counts. rewrite sort_desc_In. apply tally_In. Qed.

Lemma value_counts_descending (l : list A) :
  Spec.descending (value_counts eqb l).
Proof. apply sort_desc_descending. Qed.

Lemma keys_of_count (n : nat) (l : list A) (t : list (A * nat)) :
  (forall k m, In (k, m) t -> m = occurrences eqb k l) ->
  map fst (filter (fun q => snd q =? n) t)
  = filter (fun k => occurrences eqb k l =? n) (map fst t).
Proof.
  induction t as [|[k m] t IH]; intros H; [reflexivity|].
  simpl. rewrite <- (H k m) by now left.
  destruct (m =? n); simpl; f_equal; apply IH; intros; apply H; now right.
Qed.

(** Entries of equal count come in the order in which their values are
    first met. *)
Lemma value_counts_ties (n : nat) (l : list A) :
  map fst (filter (fun q => snd q =? n) (value_counts eqb l))
  = filter (fun k => occurrences eqb k l =? n) (Spec.first_occ eqb l).
Proof.
  unfold value_counts. rewrite sort_desc_stable.
  rewrite (keys_of_count n l).
  - now rewrite (keys_tally eqb eqb_eq).
  - intros k m H. now apply tally_In in H.
Qed.

Lemma get_value_counts (k : A) (l : list A) :
  get eqb k 0 (value_counts eqb l) = occurrences eqb k l.
Proof.
  assert (G : forall t, get eqb k 0 t
                        = match lookup eqb k t with Some n => n | None => 0 end).
  { induction t as [|[k' n] t IH]; simpl; [reflexivity|].
    now destruct (eqb k k'). }
  rewrite G.
  destruct (lookup eqb k (value_counts eqb l)) as [n|] eqn:E.
  - apply (In_lookup eqb eqb_eq) in E; [|apply value_counts_keys_NoDup].
    now apply value_counts_In in E.
  - destruct (occurrences eqb k l) as [|n] eqn:F; [reflexivity|].
    assert (H : In (k, S n) (value_counts eqb l))
      by (apply value_counts_In; split; [congruence | lia]).
    apply (In_lookup eqb eqb_eq) in H; [|apply value_counts_keys_NoDup].
    congruence.
Qed.

End ValueCountsFacts.

(** ** Top tokens *)

Lemma tokens_trimmed (sep : string) (series : list cell) (t : string) :
  In t (Spec.tokens sep series) -> Spec.head_clean t /\ Spec.last_clean t.
Proof.
  unfold Spec.tokens. rewrite in_flat_map. intros [c [_ H]].
  apply in_map_iff in H. destruct H as [piece [<- _]].
  destruct (strip_spec piece) as [l [r [_ [_ [_ [Hh Hl]]]]]]. now split.
Qed.

Lemma extract_top_items_value_counts (series : list cell) (top_n : Z)
  (sep : string) :
  sep <> EmptyString ->
  Helpers.extract_top_items series top_n sep
  = Ok (head top_n (value_counts String.eqb (Spec.tokens sep series))).
Proof.
  intros Hsep. unfold Helpers.extract_top_items.
  now rewrite (collect_items_flat_map sep _ [] Hsep).
Qed.

Lemma genre_counts_value_counts (view : DataFrame) :
  App.genre_counts view
  = head 15 (value_counts String.eqb (Spec.tokens "," (map listed_in view))).
Proof. unfold App.genre_counts. now rewrite collect_tokens_flat_map. Qed.

(** C1, as the code has it.  For every column of cells and every
    non-empty separator, [extract_top_items] splits each non-absent cell
    on the separator (the pieces joined by the separator are the cell,
    and no piece contains the separator) and trims each piece (whitespace
    goes at both ends, nothing else); every trimmed piece is a token, the
    empty one included (nothing is discarded).  The result
    is the first [top_n] entries of the table that has one entry per
    distinct token, with the number of its occurrences in the whole
    column, in count-descending order, entries of equal count in the
    order in which their tokens are first met.  The genre counts of the
    script are the same computation on [listed_in] with the comma and
    [top_n] = 15.  On the cells "Drama, Comedy", "Drama", "Action" with
    [top_n] = 3 the result is Drama 2, Comedy 1, Action 1. *)
Theorem top_tokens_counts_every_trimmed_piece :
  forall (series : list cell) (top_n : Z) (sep : string),
    sep <> EmptyString ->
    let toks := Spec.tokens sep series in
    let table := value_counts String.eqb toks in
    Helpers.extract_top_items series top_n sep = Ok (head top_n table)
    /\ (forall c, exists pieces,
           PyStr.split sep c = Ok pieces
           /\ PyStr.join sep pieces = c
           /\ Forall (fun p => PyStr.contains sep p = false) pieces)
    /\ (forall p, exists l r,
           p = (l ++ PyStr.strip p ++ r)%string
           /\ Spec.all_space l = true /\ Spec.all_space r = true
           /\ Spec.head_clean (PyStr.strip p)
           /\ Spec.last_clean (PyStr.strip p))
    /\ (forall t, In t toks -> Spec.head_clean t /\ Spec.last_clean t)
    /\ NoDup (map fst table)
    /\ (forall t n, In (t, n) table <-> n = occurrences String.eqb t toks /\ 0 < n)
    /\ (In EmptyString toks ->
        In (EmptyString, occurrences String.eqb EmptyString toks) table)
    /\ Spec.descending table
    /\ (forall n, map fst (filter (fun q => snd q =? n) table)
                  = filter (fun t => occurrences String.eqb t toks =? n)
                      (Spec.first_occ String.eqb toks))
    /\ (forall view : DataFrame,
           Helpers.extract_top_items (map listed_in view) 15 ","
           = Ok (App.genre_counts view))
    /\ Helpers.extract_top_items
         [Some "Drama, Comedy"; Some "Drama"; Some "Action"] 3 ","
       = Ok [("Drama", 2); ("Comedy", 1); ("Action", 1)].
Proof.
  intros series top_n sep Hsep toks table.
  split; [now apply extract_top_items_value_counts|].
  split.
  { intros c. exists (PyStr.split_from sep c 0).
    split; [now apply split_nonempty_sep|].
    split; [now apply join_split_from | now apply split_pieces_sep_free]. }
  split; [apply strip_spec|].
  split; [apply tokens_trimmed|].
  split; [apply (value_counts_keys_NoDup String.eqb String.eqb_eq)|].
  split; [intros t n; apply (value_counts_In String.eqb String.eqb_eq)|].
  split.
  { intros H. apply (value_counts_In String.eqb String.eqb_eq).
    split; [reflexivity|].
    now apply (occurrences_pos_In String.eqb String.eqb_eq). }
  split; [apply value_counts_descending|].
  split; [intros n; apply (value_counts_ties String.eqb String.eqb_eq)|].
  split; [|reflexivity].
  intros view. rewrite genre_counts_value_counts.
  apply extract_top_items_value_counts. discriminate.
Qed.

Lemma top_tokens_counts_every_trimmed_piece_witness :
  Helpers.extract_top_items [Some "a, b"; None; Some "b ,"] 2 ","
  = Ok [("b", 2); ("a", 1)].
Proof.
  assert (H : "," <> EmptyString) by discriminate.
  destruct (top_tokens_counts_every_trimmed_piece
              [Some "a, b"; None; Some "b ,"] 2 "," H) as [E _].
  rewrite E. reflexivity.
Defined.

(** C1 as the specification words it fails on the cell "Drama,,Comedy":
    the empty piece between the two commas is tallied, not discarded. *)
Lemma top_tokens_keeps_empty_token :
  Helpers.extract_top_items [Some "Drama,,Comedy"] 3 ","
  = Ok [("Drama", 1); ("", 1); ("Comedy", 1)]
  /\ Spec.top_tokens [Some "Drama,,Comedy"] 3 ","
     = [("Drama", 1); ("Comedy", 1)]
  /\ Helpers.extract_top_items [Some "Drama,,Comedy"] 3 ","
     <> Ok (Spec.top_tokens [Some "Drama,,Comedy"] 3 ",").
Proof.
  split; [reflexivity|]. split; [reflexivity|]. discriminate.
Qed.

(** ** The filter *)

Lemma filtered_df_In (df : DataFrame) (types rates : list cell) (lo hi : Z)
  (r : Row) :
  In r (App.filtered_df df types rates (lo, hi))
  <-> In r df
      /\ isin types (type_ r) = true
      /\ isin rates (rating r) = true
      /\ exists y, release_year r = Some y /\ (lo <= y <= hi)%Z.
Proof.
  unfold App.filtered_df. rewrite filter_In. simpl.
  rewrite !andb_true_iff. unfold App.ge_cell, App.le_cell.
  destruct (release_year r) as [y|].
  - rewrite Z.leb_le, Z.leb_le. split.
    + intros [H [[[Ht Hr] Hlo] Hhi]]. repeat split; try assumption.
      exists y. repeat split; assumption.
    + intros [H [Ht [Hr [y' [E [Hlo Hhi]]]]]]. inversion E; subst.
      repeat split; assumption.
  - split.
    + intros [_ [[_ H] _]]. discriminate.
    + intros [_ [_ [_ [y [E _]]]]]. discriminate.
Qed.

(** C3.  A row is in the filtered view exactly when it is in the
    catalog, passes the type and rating selections and has a release
    year within the inclusive bounds; a row without a release year is
    never in it; when the selections let every row through, the view is
    the catalog's rows with a year in range, in catalog order.  With the
    range 2010-2021 and release years 2005, 2015, 2021 and absent, the
    view is the 2015 and the 2021 row. *)
Theorem year_range_filter_inclusive :
  forall (df : DataFrame) (types rates : list cell) (lo hi : Z),
    (forall r, In r (App.filtered_df df types rates (lo, hi))
               <-> In r df
                   /\ isin types (type_ r) = true
                   /\ isin rates (rating r) = true
                   /\ exists y, release_year r = Some y /\ (lo <= y <= hi)%Z)
    /\ (forall r, release_year r = None ->
                  ~ In r (App.filtered_df df types rates (lo, hi)))
    /\ (Forall (fun r => isin types (type_ r) = true
                         /\ isin rates (rating r) = true) df ->
        App.filtered_df df types rates (lo, hi)
        = filter (fun r => match release_year r with
                           | Some y => (lo <=? y)%Z && (y <=? hi)%Z
                           | None => false
                           end) df)
    /\ (let row y := mkRow (Some "Movie") (Some "T") None None (Some "Unknown")
                       None y (Some "PG") (Some "90 min") (Some "Dramas")
                       None None None in
        App.filtered_df
          [row (Some 2005%Z); row (Some 2015%Z); row (Some 2021%Z); row None]
          [Some "Movie"; Some "TV Show"] [Some "PG"] (2010%Z, 2021%Z)
        = [row (Some 2015%Z); row (Some 2021%Z)]).
Proof.
  intros df types rates lo hi.
  split; [intros r; apply filtered_df_In|].
  split.
  { intros r E H. apply filtered_df_In in H.
    destruct H as [_ [_ [_ [y [F _]]]]]. congruence. }
  split; [|reflexivity].
  intros H. unfold App.filtered_df. apply filter_ext_in.
  intros r Hr. rewrite Forall_forall in H. destruct (H r Hr) as [Ht Hra].
  simpl. rewrite Ht, Hra. unfold App.ge_cell, App.le_cell.
  now destruct (release_year r).
Qed.

(** C5.  With no type selected, or with no rating selected, the view is
    empty, whatever the catalog and the other selections; with every
    type and rating of a catalog selected and its years in range, the
    view is not. *)
Theorem empty_selection_gives_empty_view :
  forall (df : DataFrame) (types rates : list cell) (year_range : Z * Z),
    App.filtered_df df [] rates year_range = []
    /\ App.filtered_df df types [] year_range = []
    /\ (let row := mkRow (Some "Movie") (Some "T") None None (Some "Unknown")
                     None (Some 2015%Z) (Some "PG") (Some "90 min")
                     (Some "Dramas") None None None in
        App.filtered_df [row] [Some "Movie"] [Some "PG"] (2010%Z, 2021%Z)
        = [row]).
Proof.
  intros df types rates year_range. unfold App.filtered_df.
  split; [|split; [|reflexivity]].
  - induction df as [|r df IH]; [reflexivity | exact IH].
  - induction df as [|r df IH]; [reflexivity|].
    simpl. rewrite andb_false_r. exact IH.
Qed.

Lemma filter_idempotent {A : Type} (f : A -> bool) (l : list A) :
  filter f (filter f l) = filter f l.
Proof.
  induction l as [|x l IH]; [reflexivity|].
  simpl. destruct (f x) eqn:E; [|exact IH].
  simpl. now rewrite E, IH.
Qed.

Lemma update_other {A : Type} (l : list A) (a b : nat) (f : A -> A) :
  a <> b -> nth_error (App.update l a f) b = nth_error l b.
Proof.
  revert a b. induction l as [|x l IH]; intros a b H.
  - now destruct a.
  - destruct a, b; simpl; try reflexivity; [contradiction|].
    apply IH. congruence.
Qed.

(** C8.  Filtering an already filtered view again with the same
    selections gives the same rows.  As a statement of the script, with
    [df] bound to the catalog, the filter binds [filtered_df] to a new
    object that holds the filtered rows: the name [df] still denotes the
    same address, every object that was there is unchanged, and this
    stays so after the in-place assignment of the [decade] column to
    [filtered_df]. *)
Theorem filter_idempotent_and_pure :
  forall (inp : Inputs) (ns : App.namespace) (catalog : App.frame_obj),
    App.deref ns (App.name_df ns) = Some catalog ->
    let view := App.filtered_df (App.rows catalog) (content_type inp)
                  (ratings inp) (year_range inp) in
    (forall (df : DataFrame) (types rates : list cell) (range : Z * Z),
        App.filtered_df (App.filtered_df df types rates range) types rates range
        = App.filtered_df df types rates range)
    /\ (let ns' := App.stmt_apply_filters inp ns in
        App.name_df ns' = App.name_df ns
        /\ (exists a, App.name_filtered_df ns' = Some a
                      /\ App.deref ns a = None
                      /\ App.deref ns' a = Some (App.mkFrame view None))
        /\ (forall a o, App.deref ns a = Some o -> App.deref ns' a = Some o))
    /\ (let ns'' := App.stmt_add_decade (App.stmt_apply_filters inp ns) in
        App.name_df ns'' = App.name_df ns
        /\ (forall a o, App.deref ns a = Some o -> App.deref ns'' a = Some o)).
Proof.
  intros inp ns catalog E view.
  split; [intros; apply filter_idempotent|].
  assert (K : forall a o, App.deref ns a = Some o ->
                          a < length (App.heap ns)).
  { intros a o H. apply nth_error_Some. unfold App.deref in H. congruence. }
  unfold App.stmt_apply_filters. rewrite E.
  split; [split; [reflexivity|split]|split; [reflexivity|]].
  - exists (length (App.heap ns)). unfold App.deref. simpl.
    split; [reflexivity|]. split; [now apply nth_error_None|].
    rewrite nth_error_app2, Nat.sub_diag by lia. reflexivity.
  - intros a o H. unfold App.deref in *. simpl.
    rewrite nth_error_app1; [assumption | now apply (K a o)].
  - intros a o H. unfold App.deref in *. simpl.
    rewrite update_other by (specialize (K a o H); lia).
    rewrite nth_error_app1; [assumption | now apply (K a o)].
Qed.

Lemma filter_idempotent_and_pure_witness :
  let row y := mkRow (Some "Movie") (Some "T") None None (Some "Unknown")
                 None (Some y) (Some "PG") (Some "90 min") (Some "Dramas")
                 None None None in
  let catalog := App.mkFrame [row 2005%Z; row 2015%Z] None in
  let ns := App.mkNamespace [catalog] 0 None in
  let inp := mkInputs [Some "Movie"] [Some "PG"] (2010%Z, 2021%Z) "" "All" "All" in
  App.deref (App.stmt_add_decade (App.stmt_apply_filters inp ns)) 0
  = Some catalog
  /\ App.deref (App.stmt_add_decade (App.stmt_apply_filters inp ns)) 1
     = Some (App.mkFrame [row 2015%Z] (Some [Some 2010%Z])).
Proof.
  intros row catalog ns inp.
  destruct (filter_idempotent_and_pure inp ns catalog eq_refl)
    as [_ [_ [_ H]]].
  split; [exact (H 0 catalog eq_refl) | reflexivity].
Defined.

(** ** Countries *)

Lemma head_In {A : Type} (n : Z) (l : list A) (x : A) :
  In x (head n l) -> In x l.
Proof.
  assert (K : forall k, In x (firstn k l) -> In x l).
  { intros k H. rewrite <- (firstn_skipn k l). apply in_or_app. now left. }
  unfold head. destruct (0 <=? n)%Z; apply K.
Qed.

Lemma all_countries_flat_map (view : DataFrame) :
  App.all_countries view
  = flat_map Spec.country_tokens (dropna (map country view)).
Proof.
  unfold App.all_countries.
  enough (H : forall cells acc,
             fold_left (fun acc countries =>
                          if negb (String.eqb countries "Unknown")
                          then acc ++ map PyStr.strip (App.split_comma countries)
                          else acc) cells acc
             = acc ++ flat_map Spec.country_tokens cells) by apply (H _ []).
  induction cells as [|c cells IH]; intros acc; simpl.
  - now rewrite app_nil_r.
  - rewrite IH. unfold Spec.country_tokens at 2.
    destruct (String.eqb c "Unknown"); simpl; [reflexivity|].
    now rewrite <- app_assoc.
Qed.

Lemma all_countries_skip_unknown (view : DataFrame) :
  App.all_countries view
  = App.all_countries (filter (fun r => negb (Spec.unknown_country r)) view).
Proof.
  rewrite !all_countries_flat_map.
  induction view as [|r view IH]; [reflexivity|].
  unfold Spec.unknown_country in *. simpl.
  destruct (country r) as [c|] eqn:Ec; simpl.
  - destruct (String.eqb c "Unknown") eqn:E; simpl.
    + unfold Spec.country_tokens at 1. rewrite E. exact IH.
    + now rewrite Ec, IH.
  - now rewrite Ec.
Qed.

(** C9.  The country table of the geographical tab is the count of the
    tokens gathered by a loop that passes over every cell equal to
    "Unknown": the tokens, and so the table, are those of the view
    without the rows whose country cell is "Unknown"; a row whose
    country is missing in the file is filled to "Unknown" at load and
    contributes no token; and every key of the table is a trimmed piece
    of a country cell of the view that is not "Unknown". *)
Theorem country_counts_skip_unknown_cells :
  forall view : DataFrame,
    App.all_countries view
    = App.all_countries (filter (fun r => negb (Spec.unknown_country r)) view)
    /\ App.country_counts view
       = App.country_counts (filter (fun r => negb (Spec.unknown_country r)) view)
    /\ (forall to_datetime to_numeric raw,
           raw_country raw = None ->
           country (App.clean_row to_datetime to_numeric raw) = Some "Unknown"
           /\ App.all_countries [App.clean_row to_datetime to_numeric raw] = [])
    /\ (forall r, country r = Some "Unknown" -> App.all_countries [r] = [])
    /\ (forall t n, In (t, n) (App.country_counts view) ->
                    exists r c, In r view /\ country r = Some c
                                /\ c <> "Unknown"
                                /\ In t (map PyStr.strip (PyStr.split_from "," c 0)))
    /\ (let row c := mkRow (Some "Movie") (Some "T") None None c None
                       (Some 2015%Z) (Some "PG") (Some "90 min") (Some "Dramas")
                       None None None in
        App.country_counts
          [row (Some "Unknown"); row (Some "India, Japan"); row (Some "India")]
        = [("India", 2); ("Japan", 1)]).
Proof.
  intros view.
  split; [apply all_countries_skip_unknown|].
  split; [unfold App.country_counts; now rewrite <- all_countries_skip_unknown|].
  split.
  { intros td tn raw H. unfold App.clean_row, App.all_countries. simpl.
    rewrite H. split; reflexivity. }
  split.
  { intros r H. unfold App.all_countries. simpl. now rewrite H. }
  split; [|reflexivity].
  intros t n H. unfold App.country_counts in H. apply head_In in H.
  apply (value_counts_In String.eqb String.eqb_eq) in H.
  destruct H as [-> H].
  apply (occurrences_pos_In String.eqb String.eqb_eq) in H.
  rewrite all_countries_flat_map in H. apply in_flat_map in H.
  destruct H as [c [Hc Ht]].
  assert (G : exists r, In r view /\ country r = Some c).
  { clear Ht. induction view as [|r view IH]; simpl in Hc; [contradiction|].
    destruct (country r) as [c'|] eqn:E.
    - destruct Hc as [->|Hc].
      + exists r. split; [now left | assumption].
      + destruct (IH Hc) as [r' [Hr' Er']]. exists r'. split; [now right | assumption].
    - destruct (IH Hc) as [r' [Hr' Er']]. exists r'. split; [now right | assumption]. }
  destruct G as [r [Hr Er]]. exists r, c.
  unfold Spec.country_tokens in Ht.
  destruct (String.eqb c "Unknown") eqn:E; [contradiction|].
  apply String.eqb_neq in E. repeat split; assumption.
Qed.

(** ** The month by year table *)

Section SortedKeysFacts.
Context {A : Type} (cmp : A -> A -> comparison).
Hypothesis cmp_eq : forall x y, cmp x y = Eq -> x = y.

Lemma insert_uniq_In (z x : A) (l : list A) :
  In z (insert_uniq cmp x l) <-> z = x \/ In z l.
Proof.
  induction l as [|y l IH]; simpl.
  - intuition congruence.
  - destruct (cmp x y) eqn:E; simpl.
    + apply cmp_eq in E. subst y. intuition congruence.
    + intuition congruence.
    + rewrite IH. intuition congruence.
Qed.

Lemma sort_uniq_In (z : A) (l : list A) :
  In z (sort_uniq cmp l) <-> In z l.
Proof.
  induction l as [|y l IH]; simpl.
  - tauto.
  - rewrite insert_uniq_In, IH. intuition congruence.
Qed.

End SortedKeysFacts.

Lemma pair_cmp_eq (a b : Z * Z) : App.pair_cmp a b = Eq -> a = b.
Proof.
  destruct a as [a1 a2], b as [b1 b2]. unfold App.pair_cmp. simpl.
  destruct (Z.compare a1 b1) eqn:E; try discriminate.
  intros F. apply Z.compare_eq in E, F. congruence.
Qed.

Lemma pair_eqb_eq (a b : Z * Z) : App.pair_eqb a b = true <-> a = b.
Proof.
  destruct a as [a1 a2], b as [b1 b2]. unfold App.pair_eqb. simpl.
  rewrite andb_true_iff, !Z.eqb_eq. split; [intros [-> ->] | intros H; inversion H]; auto.
Qed.

Lemma lookup_map_keys {A : Type} (eqb : A -> A -> bool)
  (eqb_eq : forall x y, eqb x y = true <-> x = y)
  (f : A -> nat) (k : A) (ks : list A) :
  lookup eqb k (map (fun x => (x, f x)) ks)
  = if existsb (eqb k) ks then Some (f k) else None.
Proof.
  induction ks as [|x ks IH]; simpl; [reflexivity|].
  destruct (eqb k x) eqn:E; simpl; [|exact IH].
  apply eqb_eq in E. now subst.
Qed.

Lemma position_In (x : Z) (axis : list Z) :
  In x axis -> exists i, App.position x axis = Some i.
Proof.
  induction axis as [|y axis IH]; simpl; [contradiction|].
  intros H. destruct (Z.eqb x y) eqn:E; [now exists 0|].
  destruct H as [->|H]; [now rewrite Z.eqb_refl in E|].
  destruct (IH H) as [i ->]. now exists (S i).
Qed.

Lemma position_nth_error (x : Z) (axis : list Z) (i : nat) :
  App.position x axis = Some i -> nth_error axis i = Some x.
Proof.
  revert i. induction axis as [|y axis IH]; simpl; intros i H; [discriminate|].
  destruct (Z.eqb x y) eqn:E.
  - apply Z.eqb_eq in E. inversion H. now subst.
  - destruct (App.position x axis) as [j|]; [|discriminate].
    inversion H. simpl. now apply IH.
Qed.

Lemma occurrences_added_key (y m : Z) (view : DataFrame) :
  occurrences App.pair_eqb (y, m) (dropna (map App.added_key view))
  = Spec.added_in y m view.
Proof.
  unfold occurrences, Spec.added_in, App.added_key.
  induction view as [|r view IH]; [reflexivity|].
  simpl. destruct (year_added r) as [y'|], (month_added r) as [m'|]; simpl;
    try exact IH.
  unfold App.pair_eqb at 1. simpl.
  destruct (Z.eqb y y' && Z.eqb m m'); simpl; now rewrite IH.
Qed.

Lemma dropna_map_In {A B : Type} (f : A -> option B) (b : B) (l : list A) :
  In b (dropna (map f l)) <-> exists a, In a l /\ f a = Some b.
Proof.
  induction l as [|x l IH]; simpl.
  - split; [contradiction | intros [a [[] _]]].
  - destruct (f x) as [b'|] eqn:E; simpl; rewrite IH; split.
    + intros [<-|[a [Ha Fa]]]; [exists x | exists a]; auto.
    + intros [a [[<-|Ha] Fa]]; [left; congruence | right; now exists a].
    + intros [a [Ha Fa]]. exists a. auto.
    + intros [a [[<-|Ha] Fa]]; [congruence | now exists a].
Qed.

Lemma added_key_Some (r : Row) (k : Z * Z) :
  App.added_key r = Some k
  <-> year_added r = Some (fst k) /\ month_added r = Some (snd k).
Proof.
  unfold App.added_key. destruct k as [y m]. simpl.
  destruct (year_added r), (month_added r); split;
    try discriminate; try (intros [? ?]; discriminate).
  - intros H. inversion H. auto.
  - intros [H G]. congruence.
Qed.

Lemma added_key_In (k : Z * Z) (view : DataFrame) :
  In k (dropna (map App.added_key view))
  <-> exists r, In r view /\ year_added r = Some (fst k)
                /\ month_added r = Some (snd k).
Proof.
  rewrite dropna_map_In. split; intros [r [H G]]; exists r;
    (split; [assumption | now apply added_key_Some]).
Qed.

(** A cell of the heat map is the number of rows of that month and
    year, zero included. *)
Lemma heatmap_cell (view : DataFrame) (y m : Z) :
  match lookup App.pair_eqb (y, m) (App.heatmap_data view) with
  | Some n => n
  | None => 0
  end = Spec.added_in y m view.
Proof.
  unfold App.heatmap_data.
  rewrite (lookup_map_keys App.pair_eqb pair_eqb_eq).
  rewrite <- occurrences_added_key.
  destruct (existsb _ _) eqn:E; [reflexivity|].
  destruct (occurrences App.pair_eqb (y, m) (dropna (map App.added_key view)))
    as [|n] eqn:F; [reflexivity|].
  assert (H : In (y, m) (dropna (map App.added_key view)))
    by (apply (occurrences_pos_In App.pair_eqb pair_eqb_eq); lia).
  apply (sort_uniq_In App.pair_cmp pair_cmp_eq) in H.
  apply (existsb_eqb_In App.pair_eqb pair_eqb_eq) in H. congruence.
Qed.

Lemma heatmap_values (view : DataFrame) :
  let t := App.heatmap_pivot view in
  pt_values t
  = map (fun m => map (fun y => Spec.added_in y m view) (pt_columns t))
      (pt_index t).
Proof.
  unfold App.heatmap_pivot, App.fillna_table, App.pivot. simpl.
  rewrite map_map. apply map_ext. intros m.
  rewrite map_map. apply map_ext. intros y. apply heatmap_cell.
Qed.

Lemma heatmap_data_keys (view : DataFrame) :
  map fst (App.heatmap_data view)
  = sort_uniq App.pair_cmp (dropna (map App.added_key view)).
Proof.
  unfold App.heatmap_data. rewrite map_map. simpl. apply map_id.
Qed.

Lemma heatmap_index_In (view : DataFrame) (m : Z) :
  In m (pt_index (App.heatmap_pivot view))
  <-> exists r y, In r view /\ year_added r = Some y /\ month_added r = Some m.
Proof.
  unfold App.heatmap_pivot, App.fillna_table, App.pivot. simpl.
  rewrite (sort_uniq_In Z.compare Z.compare_eq).
  rewrite <- (map_map fst snd), heatmap_data_keys, in_map_iff.
  split.
  - intros [k [<- H]].
    apply (sort_uniq_In App.pair_cmp pair_cmp_eq), added_key_In in H.
    destruct H as [r [Hr [Hy Hm]]]. now exists r, (fst k).
  - intros [r [y [Hr [Hy Hm]]]]. exists (y, m). split; [reflexivity|].
    apply (sort_uniq_In App.pair_cmp pair_cmp_eq), added_key_In.
    now exists r.
Qed.

Lemma heatmap_columns_In (view : DataFrame) (y : Z) :
  In y (pt_columns (App.heatmap_pivot view))
  <-> exists r m, In r view /\ year_added r = Some y /\ month_added r = Some m.
Proof.
  unfold App.heatmap_pivot, App.fillna_table, App.pivot. simpl.
  rewrite (sort_uniq_In Z.compare Z.compare_eq).
  rewrite <- (map_map fst fst), heatmap_data_keys, in_map_iff.
  split.
  - intros [k [<- H]].
    apply (sort_uniq_In App.pair_cmp pair_cmp_eq), added_key_In in H.
    destruct H as [r [Hr [Hy Hm]]]. now exists r, (snd k).
  - intros [r [m [Hr [Hy Hm]]]]. exists (y, m). split; [reflexivity|].
    apply (sort_uniq_In App.pair_cmp pair_cmp_eq), added_key_In.
    now exists r.
Qed.

Lemma heatmap_loc (view : DataFrame) (m y : Z) :
  In m (pt_index (App.heatmap_pivot view)) ->
  In y (pt_columns (App.heatmap_pivot view)) ->
  App.loc (App.heatmap_pivot view) m y = Some (Spec.added_in y m view).
Proof.
  intros Hm Hy. unfold App.loc.
  destruct (position_In _ _ Hm) as [i Ei].
  destruct (position_In _ _ Hy) as [j Ej].
  rewrite Ei, Ej, (heatmap_values view).
  apply position_nth_error in Ei, Ej.
  rewrite nth_error_map, Ei. cbn [option_map].
  rewrite nth_error_map, Ej. reflexivity.
Qed.

Lemma sort_index_In (q : Z * nat) (t : list (Z * nat)) :
  In q (App.sort_index t) <-> In q t.
Proof.
  assert (K : forall p t', In q (App.insert_by_label p t') <-> q = p \/ In q t').
  { intros p t'. induction t' as [|r t' IH]; simpl.
    - intuition congruence.
    - destruct (fst p <=? fst r)%Z; simpl; [|rewrite IH]; intuition congruence. }
  induction t as [|r t IH]; simpl.
  - tauto.
  - rewrite K, IH. intuition congruence.
Qed.

Lemma get_insert_by_label (k : Z) (p : Z * nat) (t : list (Z * nat)) :
  ~ In (fst p) (map fst t) ->
  get Z.eqb k 0 (App.insert_by_label p t) = get Z.eqb k 0 (p :: t).
Proof.
  induction t as [|[k' n] t IH]; intros H; [reflexivity|].
  cbn [App.insert_by_label]. destruct (fst p <=? fst (k', n))%Z; [reflexivity|].
  destruct p as [kp np]. simpl in *.
  rewrite IH by tauto. simpl.
  destruct (Z.eqb k kp) eqn:E, (Z.eqb k k') eqn:F; try reflexivity.
  apply Z.eqb_eq in E, F. exfalso. apply H. left. congruence.
Qed.

Lemma get_sort_index (k : Z) (t : list (Z * nat)) :
  NoDup (map fst t) ->
  get Z.eqb k 0 (App.sort_index t) = get Z.eqb k 0 t.
Proof.
  induction t as [|[k' n] t IH]; intros H; [reflexivity|].
  inversion H as [|? ? Hk Ht]; subst.
  cbn [App.sort_index fold_right]. fold (App.sort_index t).
  rewrite get_insert_by_label.
  - simpl. now rewrite IH.
  - simpl. rewrite in_map_iff. intros [q [Eq Hq]].
    apply (proj1 (sort_index_In q t)) in Hq.
    apply Hk. rewrite <- Eq. now apply in_map.
Qed.

Lemma occurrences_month (i : Z) (view : DataFrame) :
  occurrences Z.eqb i (dropna (map month_added view))
  = Spec.added_in_month i view.
Proof.
  unfold occurrences, Spec.added_in_month.
  induction view as [|r view IH]; [reflexivity|].
  simpl. destruct (month_added r) as [m|]; simpl; [|exact IH].
  destruct (Z.eqb i m); simpl; now rewrite IH.
Qed.

Lemma monthly_data_counts (view : DataFrame) :
  App.monthly_data view
  = combine App.month_names
      (map (fun i => Spec.added_in_month i view) App.months).
Proof.
  unfold App.monthly_data, App.monthly_added. f_equal.
  apply map_ext. intros i.
  rewrite get_sort_index by apply (value_counts_keys_NoDup Z.eqb Z.eqb_eq).
  rewrite (get_value_counts Z.eqb Z.eqb_eq). apply occurrences_month.
Qed.

(** C7.  The month by year table of the heat map has one line per month
    and one column per year that occurs in a row of the view with its
    date present (in a loaded view: that occurs in a row at all), and a
    cell for every such month and year: the cell
    holds the number of rows added in that month of that year, which is
    0, not a gap, when no row matches.  The monthly table below it has
    the twelve months, each with its count, 0 when the month has no
    row. *)
Theorem heatmap_cells_filled_with_zero :
  forall view : DataFrame,
    let t := App.heatmap_pivot view in
    (forall m, In m (pt_index t)
               <-> exists r y, In r view /\ year_added r = Some y
                               /\ month_added r = Some m)
    /\ (forall y, In y (pt_columns t)
                  <-> exists r m, In r view /\ year_added r = Some y
                                  /\ month_added r = Some m)
    /\ pt_values t
       = map (fun m => map (fun y => Spec.added_in y m view) (pt_columns t))
           (pt_index t)
    /\ (forall m y, In m (pt_index t) -> In y (pt_columns t) ->
                    App.loc t m y = Some (Spec.added_in y m view))
    /\ (forall m y, In m (pt_index t) -> In y (pt_columns t) ->
                    Spec.added_in y m view = 0 -> App.loc t m y = Some 0)
    /\ (Forall Spec.derived_from_date view ->
        (forall m, In m (pt_index t)
                   <-> exists r, In r view /\ month_added r = Some m)
        /\ (forall y, In y (pt_columns t)
                      <-> exists r, In r view /\ year_added r = Some y))
    /\ App.monthly_data view
       = combine App.month_names
           (map (fun i => Spec.added_in_month i view) App.months)
    /\ (let row y m := mkRow (Some "Movie") (Some "T") None None
                         (Some "Unknown") (Some (mkTimestamp y m 1))
                         (Some 2015%Z) (Some "PG") (Some "90 min")
                         (Some "Dramas") None (Some y) (Some m) in
        let v := [row 2020%Z 1%Z; row 2021%Z 2%Z; row 2020%Z 1%Z] in
        App.heatmap_pivot v = mkPivot [1%Z; 2%Z] [2020%Z; 2021%Z] [[2; 0]; [0; 1]]
        /\ App.loc (App.heatmap_pivot v) 1 2021 = Some 0
        /\ App.loc (App.heatmap_pivot v) 2 2020 = Some 0).
Proof.
  intros view t.
  split; [intros m; apply heatmap_index_In|].
  split; [intros y; apply heatmap_columns_In|].
  split; [apply heatmap_values|].
  split; [intros m y; apply heatmap_loc|].
  split; [intros m y Hm Hy E; rewrite <- E; now apply heatmap_loc|].
  split; [|split; [apply monthly_data_counts | repeat split]].
  intros Hd. rewrite Forall_forall in Hd. split.
  - intros m. unfold t. rewrite heatmap_index_In. split.
    + intros [r [y [Hr [_ Hm]]]]. now exists r.
    + intros [r [Hr Hm]]. specialize (Hd r Hr).
      unfold Spec.derived_from_date in Hd.
      destruct (date_added r) as [d|]; destruct Hd as [Hy Hm'];
        [|congruence].
      exists r, (ts_year d). auto.
  - intros y. unfold t. rewrite heatmap_columns_In. split.
    + intros [r [m [Hr [Hy _]]]]. now exists r.
    + intros [r [Hr Hy]]. specialize (Hd r Hr).
      unfold Spec.derived_from_date in Hd.
      destruct (date_added r) as [d|]; destruct Hd as [Hy' Hm];
        [|congruence].
      exists r, (ts_month d). auto.
Qed.

(** ** The free-text search *)

Lemma compile_plain (q : string) :
  Spec.plain q = true ->
  PyRe.compile q = Some (map PyRe.Lit (list_ascii_of_string q)).
Proof.
  induction q as [|c q IH]; simpl; intros H; [reflexivity|].
  apply andb_true_iff in H. destruct H as [H Hq].
  apply andb_true_iff in H. destruct H as [Hdot Hsp].
  apply negb_true_iff in Hdot, Hsp.
  now rewrite Hdot, Hsp, (IH Hq).
Qed.

Lemma prefix_cons (a b : ascii) (s t : string) :
  String.prefix (String a s) (String b t)
  = Ascii.eqb a b && String.prefix s t.
Proof.
  simpl. destruct (Ascii.ascii_dec a b) as [->|H].
  - now rewrite Ascii.eqb_refl.
  - apply Ascii.eqb_neq in H. now rewrite H.
Qed.

Lemma match_here_plain (q s : string) :
  PyRe.match_here true (map PyRe.Lit (list_ascii_of_string q)) s
  = String.prefix (PyStr.lower q) (PyStr.lower s).
Proof.
  revert s. induction q as [|c q IH]; intros s.
  - now destruct s.
  - destruct s as [|t s]; [reflexivity|].
    cbn [list_ascii_of_string map PyRe.match_here PyStr.lower].
    rewrite prefix_cons, IH. reflexivity.
Qed.

Lemma search_plain (q s : string) :
  PyRe.search true (map PyRe.Lit (list_ascii_of_string q)) s
  = PyStr.contains (PyStr.lower q) (PyStr.lower s).
Proof.
  induction s as [|t s IH].
  - now destruct q.
  - cbn [PyRe.search PyStr.lower].
    rewrite contains_cons, IH, match_here_plain. reflexivity.
Qed.

Lemma str_contains_plain (q : string) :
  Spec.plain q = true ->
  exists hit, str_contains q false false = Some hit
              /\ forall c, hit c = Spec.ci_substring q c.
Proof.
  intros H. unfold str_contains. rewrite (compile_plain q H).
  eexists. split; [reflexivity|].
  intros [s|]; [apply search_plain | reflexivity].
Qed.

Lemma dtype_of_holds_string (column : Row -> cell) (df : DataFrame) :
  Vocab.holds_string column df -> dtype_of (map column df) = object.
Proof.
  intros [r [x [Hr E]]]. unfold dtype_of.
  destruct (map column df) as [|c l] eqn:M; [reflexivity|].
  assert (K : existsb notna (c :: l) = true).
  { apply existsb_exists. exists (Some x). split; [|reflexivity].
    rewrite <- M, <- E. now apply in_map. }
  now rewrite K.
Qed.

Lemma dtype_of_holds_no_string (column : Row -> cell) (df : DataFrame) :
  Vocab.holds_no_string column df -> dtype_of (map column df) = float64.
Proof.
  intros [Hne H]. unfold dtype_of.
  destruct df as [|r df]; [contradiction|]. cbn [map].
  assert (K : existsb notna (column r :: map column df) = false).
  { apply not_true_is_false. intros G. apply existsb_exists in G.
    destruct G as [c [Hc G]].
    change (In c (map column (r :: df))) in Hc.
    apply in_map_iff in Hc. destruct Hc as [r' [E Hr']].
    rewrite (H r' Hr') in E. subst c. discriminate. }
  now rewrite K.
Qed.

Lemma search_any_char (ignorecase : bool) (s : string) :
  PyRe.search ignorecase [PyRe.AnyChar] s
  = existsb (fun t => negb (Ascii.eqb t PyRe.newline)) (list_ascii_of_string s).
Proof.
  induction s as [|t s IH]; [reflexivity|].
  cbn [PyRe.search PyRe.match_here PyRe.atom_matches list_ascii_of_string existsb].
  rewrite IH. destruct s; now rewrite andb_true_r.
Qed.

(** C6, as the code has it.  The query is compiled as a regular
    expression, and the three columns are read through [.str].  For
    every view of a frame whose title, director and cast columns each
    hold a string, and every non-empty query that has no special
    character, the search keeps exactly the rows whose title, director
    or cast contains the query as a case-insensitive substring; an
    absent field never matches, so a row whose three fields are all
    absent, or all lack the substring, is never kept.  When one of the
    three columns of a frame with rows holds no string, the search
    raises [AttributeError].  The query "." keeps every row that has a
    character other than a line break in one of the three fields,
    whether or not it has a dot.  The query "smith" keeps a row whose
    cast is "John Smith, Jane Doe" and drops a row without it. *)
Theorem search_plain_query_is_substring_match :
  forall (df view : DataFrame) (query : string),
    query <> EmptyString ->
    Spec.plain query = true ->
    (Vocab.holds_string title df -> Vocab.holds_string director df ->
     Vocab.holds_string cast df ->
     App.detailed_df (App.dtypes_of df) view query "All" "All"
     = Ok (Some (Spec.search view query)))
    /\ (forall r, title r = None -> director r = None -> cast r = None ->
                  ~ In r (Spec.search view query))
    /\ (forall r, Spec.ci_substring query (title r) = false ->
                  Spec.ci_substring query (director r) = false ->
                  Spec.ci_substring query (cast r) = false ->
                  ~ In r (Spec.search view query))
    /\ (Vocab.holds_no_string title df \/ Vocab.holds_no_string director df
        \/ Vocab.holds_no_string cast df ->
        App.detailed_df (App.dtypes_of df) view query "All" "All"
        = Raise AttributeError)
    /\ (Vocab.holds_string title df -> Vocab.holds_string director df ->
        Vocab.holds_string cast df ->
        App.detailed_df (App.dtypes_of df) view "." "All" "All"
        = Ok (Some (filter (fun r => Vocab.any_char (title r)
                                     || Vocab.any_char (director r)
                                     || Vocab.any_char (cast r)) view)))
    /\ (let row t d c := mkRow (Some "Movie") t d c (Some "Unknown") None
                           (Some 2015%Z) (Some "PG") (Some "90 min")
                           (Some "Dramas") None None None in
        let by_cast := row (Some "Heist") None (Some "John Smith, Jane Doe") in
        let by_title := row (Some "Blacksmiths") None None in
        let by_director := row None (Some "Will SMITH") None in
        let absent := row None None None in
        let other := row (Some "Heist") (Some "Ann Lee") (Some "Jo Smyth") in
        let catalog := [by_cast; absent; by_title; other; by_director] in
        App.detailed_df (App.dtypes_of catalog) catalog "smith" "All" "All"
        = Ok (Some [by_cast; by_title; by_director])).
Proof.
  intros df view query Hne Hplain.
  assert (Et : App.truthy query = true).
  { unfold App.truthy. destruct (String.eqb query "") eqn:E; [|reflexivity].
    apply String.eqb_eq in E. contradiction. }
  destruct (str_contains_plain query Hplain) as [hit [Ehit Hhit]].
  split; [|split; [|split; [|split; [|split; [|reflexivity]]]]].
  - intros Ht Hd Hc.
    unfold App.detailed_df, App.apply_search, App.dtypes_of.
    cbn [App.dt_title App.dt_director App.dt_cast].
    rewrite Et, Ehit, (dtype_of_holds_string _ _ Ht),
      (dtype_of_holds_string _ _ Hd), (dtype_of_holds_string _ _ Hc).
    unfold App.select_accessor, App.apply_select. simpl.
    unfold Spec.search. do 2 f_equal. apply filter_ext.
    intros r. now rewrite !Hhit.
  - intros r Ht Hd Hc H. unfold Spec.search in H.
    apply filter_In in H. destruct H as [_ H].
    rewrite Ht, Hd, Hc in H. discriminate.
  - intros r Ht Hd Hc H. unfold Spec.search in H.
    apply filter_In in H. destruct H as [_ H].
    rewrite Ht, Hd, Hc in H. discriminate.
  - intros H. unfold App.detailed_df, App.apply_search, App.dtypes_of.
    cbn [App.dt_title App.dt_director App.dt_cast].
    rewrite Et, Ehit.
    destruct H as [H|[H|H]]; rewrite (dtype_of_holds_no_string _ _ H).
    + reflexivity.
    + destruct (dtype_of (map title df)); reflexivity.
    + destruct (dtype_of (map title df)), (dtype_of (map director df));
        reflexivity.
  - intros Ht Hd Hc.
    unfold App.detailed_df, App.apply_search, App.dtypes_of.
    cbn [App.dt_title App.dt_director App.dt_cast].
    rewrite (dtype_of_holds_string _ _ Ht), (dtype_of_holds_string _ _ Hd),
      (dtype_of_holds_string _ _ Hc).
    unfold App.select_accessor, App.apply_select. simpl.
    do 2 f_equal. apply filter_ext. intros r.
    unfold Vocab.any_char.
    destruct (title r), (director r), (cast r);
      now rewrite ?search_any_char.
Qed.

Lemma search_plain_query_is_substring_match_witness :
  let row c := mkRow (Some "Movie") (Some "Heist") (Some "Ann Lee") c
                 (Some "Unknown") None (Some 2015%Z) (Some "PG")
                 (Some "90 min") (Some "Dramas") None None None in
  let catalog := [row (Some "John Smith, Jane Doe"); row (Some "Jo Smyth")] in
  App.detailed_df (App.dtypes_of catalog) catalog "SMITH" "All" "All"
  = Ok (Some [row (Some "John Smith, Jane Doe")]).
Proof.
  intros row catalog.
  assert (Hne : "SMITH" <> EmptyString) by discriminate.
  destruct (search_plain_query_is_substring_match catalog catalog
              "SMITH" Hne eq_refl) as [E _].
  rewrite E.
  - reflexivity.
  - exists (row (Some "Jo Smyth")), "Heist". simpl. tauto.
  - exists (row (Some "Jo Smyth")), "Ann Lee". simpl. tauto.
  - exists (row (Some "Jo Smyth")), "Jo Smyth". simpl. tauto.
Defined.

(** C6 as the specification words it fails on the query ".": the dot is
    a regular expression that matches any character, so a row is kept
    although none of its fields contains a dot. *)
Lemma search_dot_is_not_substring_match :
  let row := mkRow (Some "Movie") (Some "Heist") (Some "Ann Lee")
               (Some "Jo Smyth") (Some "Unknown")
               None (Some 2015%Z) (Some "PG") (Some "90 min")
               (Some "Dramas") None None None in
  App.detailed_df (App.dtypes_of [row]) [row] "." "All" "All" = Ok (Some [row])
  /\ Spec.search [row] "." = []
  /\ App.detailed_df (App.dtypes_of [row]) [row] "." "All" "All"
     <> Ok (Some (Spec.search [row] ".")).
Proof.
  intros row. split; [reflexivity|]. split; [reflexivity|]. discriminate.
Qed.

(** ** The detail cards *)

Lemma emit_then {A : Type} (e : event) (k : script A) (page : list event) :
  (emit e ;;; k) page = k (page ++ [e]).
Proof. reflexivity. Qed.

Lemma show_cards_run (d : DataFrame) (page : list event) :
  App.show_cards d page = (page ++ map Card d, Done tt).
Proof.
  revert page. induction d as [|r d IH]; intros page; simpl.
  - unfold sret. now rewrite app_nil_r.
  - rewrite emit_then, IH, <- app_assoc. reflexivity.
Qed.

Lemma filtered_df_has_year (df : DataFrame) (types rates : list cell)
  (range : Z * Z) :
  Forall (fun r => release_year r <> None)
    (App.filtered_df df types rates range).
Proof.
  destruct range as [lo hi]. apply Forall_forall. intros r H.
  apply filtered_df_In in H. destruct H as [_ [_ [_ [y [E _]]]]]. congruence.
Qed.

Lemma apply_search_incl (dts : App.dtypes) (q : string) (v d : DataFrame) :
  App.apply_search dts q v = Ok (Some d) -> incl d v.
Proof.
  unfold App.apply_search. destruct (App.truthy q).
  - destruct (str_accessor (App.dt_title dts)); [|discriminate].
    cbn [rbind].
    destruct (str_contains q false false); [|discriminate].
    destruct (str_accessor (App.dt_director dts)); [|discriminate].
    destruct (str_accessor (App.dt_cast dts)); [|discriminate].
    cbn [rbind].
    intros H. inversion H. intros r Hr. now apply filter_In in Hr.
  - intros H. inversion H. apply incl_refl.
Qed.

Lemma apply_select_incl (col : Row -> cell) (sel : string) (v d : DataFrame) :
  App.apply_select col sel v = Some d -> incl d v.
Proof.
  unfold App.apply_select. destruct (negb (String.eqb sel "All")).
  - destruct (str_contains sel true false); [|discriminate].
    intros H. inversion H. intros r Hr. now apply filter_In in Hr.
  - intros H. inversion H. apply incl_refl.
Qed.

Lemma detailed_df_incl (dts : App.dtypes) (v d : DataFrame) (q g c : string) :
  App.detailed_df dts v q g c = Ok (Some d) -> incl d v.
Proof.
  unfold App.detailed_df.
  destruct (App.apply_search dts q v) as [[d1|]|] eqn:E1; try discriminate.
  cbn [rbind].
  destruct (App.select_accessor g (App.dt_listed_in dts)); [|discriminate].
  cbn [rbind].
  destruct (App.apply_select listed_in g d1) as [d2|] eqn:E2; [|discriminate].
  destruct (App.select_accessor c (App.dt_country dts)); [|discriminate].
  cbn [rbind].
  intros E3. inversion E3 as [E4]. intros r Hr.
  eapply apply_search_incl; [exact E1|].
  eapply apply_select_incl; [exact E2|].
  eapply apply_select_incl; [exact E4 | exact Hr].
Qed.

Lemma average_release_year_ok (d : DataFrame) :
  Forall (fun r => release_year r <> None) d ->
  exists avg, App.average_release_year d = Ok avg.
Proof.
  intros H. unfold App.average_release_year.
  destruct d as [|r d]; simpl; [now exists 0%Z|].
  inversion H as [|? ? Hr _]; subst.
  destruct (release_year r); [|contradiction].
  simpl. eexists. reflexivity.
Qed.

(** C10.  For every result of the search over a filtered view,
    whatever the dtypes of its columns, the detail tab shows the four
    metrics and the caption, computed on the whole result (its length,
    and the number of its movies and of its TV shows), and then one
    card per row for the first 100 rows of the result, in their order:
    no more than 100 cards, and all the rows when there are fewer. *)
Theorem detail_cards_capped_at_100 :
  forall (df : DataFrame) (types rates : list cell) (range : Z * Z)
         (dts : App.dtypes)
         (query genre country_sel : string) (detailed : DataFrame)
         (page : list event),
    App.detailed_df dts (App.filtered_df df types rates range)
      query genre country_sel = Ok (Some detailed) ->
    (exists avg,
        App.show_details detailed page
        = (page
           ++ [Metric "Filtered Results" (MInt (Z.of_nat (length detailed)));
               Metric "Average Release Year" (MInt avg);
               Metric "Movies" (MInt (Z.of_nat (App.count_type "Movie" detailed)));
               Metric "TV Shows" (MInt (Z.of_nat (App.count_type "TV Show" detailed)));
               Displaying (length detailed)]
           ++ map Card (firstn 100 detailed),
           Done tt))
    /\ length (firstn 100 detailed) = Nat.min 100 (length detailed)
    /\ length (firstn 100 detailed) <= 100
    /\ (length detailed <= 100 -> firstn 100 detailed = detailed).
Proof.
  intros df types rates range dts query genre country_sel detailed page H.
  split.
  - assert (Hy : Forall (fun r => release_year r <> None) detailed).
    { apply Forall_forall. intros r Hr.
      apply (detailed_df_incl _ _ _ _ _ _ H) in Hr.
      pose proof (filtered_df_has_year df types rates range) as G.
      rewrite Forall_forall in G. now apply G. }
    destruct (average_release_year_ok detailed Hy) as [avg Eavg].
    exists avg. unfold App.show_details.
    change (head 100 detailed) with (firstn 100 detailed).
    remember (firstn 100 detailed) as cards eqn:Ecards.
    unfold sbind, emit. rewrite Eavg. cbv beta iota delta [lift sret].
    rewrite show_cards_run, <- !app_assoc. reflexivity.
  - split; [apply length_firstn|].
    split; [apply firstn_le_length | apply firstn_all2].
Qed.

Lemma detail_cards_capped_at_100_witness :
  let row := mkRow (Some "Movie") (Some "T") None None (Some "Unknown") None
               (Some 2015%Z) (Some "PG") (Some "90 min") (Some "Dramas")
               None None None in
  exists avg,
    App.show_details (repeat row 150) []
    = ([Metric "Filtered Results" (MInt 150);
        Metric "Average Release Year" (MInt avg);
        Metric "Movies" (MInt 150);
        Metric "TV Shows" (MInt 0);
        Displaying 150]
       ++ map Card (repeat row 100),
       Done tt).
Proof.
  intros row.
  destruct (detail_cards_capped_at_100 (repeat row 150)
              [Some "Movie"] [Some "PG"] (2010%Z, 2021%Z)
              (App.dtypes_of (repeat row 150)) "" "All" "All"
              (repeat row 150) [] eq_refl) as [[avg E] _].
  exists avg. rewrite E. reflexivity.
Defined.

(** ** The load *)

Lemma load_data_missing (td : string -> option Timestamp)
  (tn : string -> option Z) (page : list event) :
  App.load_data td tn Missing page
  = (page ++ [ErrorBox App.not_found_message], Done []).
Proof. reflexivity. Qed.

Lemma load_data_unreadable (td : string -> option Timestamp)
  (tn : string -> option Z) (why : read_failure) (page : list event) :
  App.load_data td tn (Unreadable why) page
  = (page, Halt (Uncaught (exn_of_failure why))).
Proof. now destruct why. Qed.

Lemma load_data_readable (td : string -> option Timestamp)
  (tn : string -> option Z) (raw : RawFrame) (page : list event) :
  App.load_data td tn (Readable raw) page
  = (page, Done (map (App.clean_row td tn) raw)).
Proof. reflexivity. Qed.

(** C2, as the code has it.  When the file is missing, [load_data]
    reports the error message and returns the empty frame, and the run
    stops right after it; when the file is there but cannot be read,
    [load_data] returns nothing: the exception of [read_csv] is not
    caught, no message of the script is reported, and it ends the run;
    a file without any row gives an empty frame and the run stops
    without a message.  In the three cases the page has no metric, no
    chart and no card.  A file that is read gives the whole cleaned
    table, never a part of it. *)
Theorem load_failure_halts_the_run :
  forall (td : string -> option Timestamp) (tn : string -> option Z)
         (inp : Inputs) (page : list event),
    (App.load_data td tn Missing page
     = (page ++ [ErrorBox App.not_found_message], Done [])
     /\ App.run td tn Missing inp
        = ([Markdown App.header; ErrorBox App.not_found_message], Halt Stopped))
    /\ (forall why,
           App.load_data td tn (Unreadable why) page
           = (page, Halt (Uncaught (exn_of_failure why)))
           /\ App.run td tn (Unreadable why) inp
              = ([Markdown App.header], Halt (Uncaught (exn_of_failure why))))
    /\ App.run td tn (Readable []) inp = ([Markdown App.header], Halt Stopped)
    /\ (forall raw,
           App.load_data td tn (Readable raw) page
           = (page, Done (map (App.clean_row td tn) raw)))
    /\ (forall fs,
           fs = Missing \/ (exists why, fs = Unreadable why) \/ fs = Readable [] ->
           existsb is_rendering (fst (App.run td tn fs inp)) = false).
Proof.
  intros td tn inp page.
  assert (R : forall why,
             App.run td tn (Unreadable why) inp
             = ([Markdown App.header], Halt (Uncaught (exn_of_failure why)))).
  { intros why. unfold App.run, App.main. rewrite emit_then.
    unfold sbind. now rewrite load_data_unreadable. }
  split; [split; reflexivity|].
  split; [intros why; split; [apply load_data_unreadable | apply R]|].
  split; [reflexivity|].
  split; [intros raw; reflexivity|].
  intros fs [->|[[why ->]| ->]]; [reflexivity | now rewrite R | reflexivity].
Qed.

(** C2 as the specification words it fails on a file that exists and
    cannot be read: [load_data] does not return the empty frame and
    reports no message, the [PermissionError] leaves it. *)
Lemma load_unreadable_is_not_caught :
  let td := fun _ : string => @None Timestamp in
  let tn := fun _ : string => @None Z in
  App.load_data td tn (Unreadable NoPermission) []
  = ([], Halt (Uncaught PermissionError))
  /\ App.load_data td tn (Unreadable NoPermission) []
     <> ([ErrorBox App.not_found_message], Done []).
Proof. split; [reflexivity | discriminate]. Qed.

(** ** The derived date columns *)

(** C4.  In every table that [load_data] returns, and in every table
    that [clean_netflix_data] returns, each row's [year_added] and
    [month_added] are the year and the month of its [date_added] when
    that is present, and are absent when it is absent; [date_added] is
    absent when the field is missing in the file and when its text does
    not parse. *)
Theorem year_month_added_follow_date_added :
  forall (to_datetime : string -> option Timestamp)
         (to_numeric : string -> option Z) (raw : RawFrame)
         (page : list event),
    App.load_data to_datetime to_numeric (Readable raw) page
    = (page, Done (map (App.clean_row to_datetime to_numeric) raw))
    /\ Forall Spec.derived_from_date (map (App.clean_row to_datetime to_numeric) raw)
    /\ Forall Spec.derived_from_date
         (Helpers.clean_netflix_data to_datetime to_numeric raw)
    /\ (forall r,
           date_added (App.clean_row to_datetime to_numeric r)
           = match raw_date_added r with
             | Some text => to_datetime text
             | None => None
             end)
    /\ App.load_data to_datetime to_numeric Missing page
       = (page ++ [ErrorBox App.not_found_message], Done [])
    /\ (let parse text :=
          if String.eqb text "September 25, 2021"
          then Some (mkTimestamp 2021 9 25) else None in
        let line d := mkRawRow (Some "Movie") (Some "T") None None None d
                        (Some "2020") None None (Some "Dramas") None in
        map (fun r => (date_added r, year_added r, month_added r))
          (map (App.clean_row parse to_numeric)
             [line (Some "September 25, 2021"); line None; line (Some "soon")])
        = [(Some (mkTimestamp 2021 9 25), Some 2021%Z, Some 9%Z);
           (None, None, None);
           (None, None, None)]).
Proof.
  intros to_datetime to_numeric raw page.
  split; [reflexivity|].
  split.
  { apply Forall_forall. intros r H. apply in_map_iff in H.
    destruct H as [x [<- _]]. unfold Spec.derived_from_date, App.clean_row. simpl.
    now destruct (coerce_datetime to_datetime (raw_date_added x)). }
  split.
  { apply Forall_forall. intros r H. unfold Helpers.clean_netflix_data in H.
    apply in_map_iff in H.
    destruct H as [x [<- _]]. unfold Spec.derived_from_date. simpl.
    now destruct (coerce_datetime to_datetime (raw_date_added x)). }
  split; [intros r; reflexivity|].
  split; reflexivity.
Qed.


(** * Further properties of the code *)

(** ** Totals, sizes and order of the tables of counts *)

Section TableFacts.
Context {A : Type} (eqb : A -> A -> bool).
Hypothesis eqb_eq : forall x y, eqb x y = true <-> x = y.

Lemma total_bump (k : A) (t : list (A * nat)) :
  Vocab.total (bump eqb k t) = S (Vocab.total t).
Proof.
  induction t as [|[k' n] t IH]; simpl; [reflexivity|].
  destruct (eqb k k'); simpl; [reflexivity | rewrite IH; lia].
Qed.

Lemma total_tally (l : list A) : Vocab.total (tally eqb l) = length l.
Proof.
  induction l as [|x l IH] using rev_ind; [reflexivity|].
  rewrite (tally_snoc eqb), total_bump, IH, length_app. simpl. lia.
Qed.

Lemma total_insert_desc (p : A * nat) (t : list (A * nat)) :
  Vocab.total (insert_desc p t) = snd p + Vocab.total t.
Proof.
  induction t as [|q t IH]; simpl; [reflexivity|].
  destruct (snd p <? snd q); simpl; [rewrite IH; lia | reflexivity].
Qed.

Lemma total_sort_desc (t : list (A * nat)) :
  Vocab.total (sort_desc t) = Vocab.total t.
Proof.
  induction t as [|q t IH]; simpl; [reflexivity|].
  fold (sort_desc t). now rewrite total_insert_desc, IH.
Qed.

(** Every value is counted once: the counts add up to the number of
    values. *)
Lemma total_value_counts (l : list A) :
  Vocab.total (value_counts eqb l) = length l.
Proof. unfold value_counts. now rewrite total_sort_desc, total_tally. Qed.

Lemma length_insert_desc (p : A * nat) (t : list (A * nat)) :
  length (insert_desc p t) = S (length t).
Proof.
  induction t as [|q t IH]; simpl; [reflexivity|].
  destruct (snd p <? snd q); simpl; [now rewrite IH | reflexivity].
Qed.

Lemma length_value_counts (l : list A) :
  length (value_counts eqb l) = length (Spec.first_occ eqb l).
Proof.
  unfold value_counts.
  assert (H : forall t : list (A * nat), length (sort_desc t) = length t).
  { induction t as [|q t IH]; simpl; [reflexivity|].
    fold (sort_desc t). now rewrite length_insert_desc, IH. }
  now rewrite H, <- (keys_tally eqb eqb_eq), length_map.
Qed.

Lemma unique_snoc (l : list A) (x : A) :
  PandasMore.unique eqb (l ++ [x])
  = if existsb (eqb x) (PandasMore.unique eqb l) then PandasMore.unique eqb l
    else PandasMore.unique eqb l ++ [x].
Proof. unfold PandasMore.unique. now rewrite fold_left_app. Qed.

(** [unique] lists the distinct values in first-seen order. *)
Lemma unique_first_occ (l : list A) :
  PandasMore.unique eqb l = Spec.first_occ eqb l.
Proof.
  induction l as [|x l IH] using rev_ind; [reflexivity|].
  rewrite unique_snoc, (first_occ_snoc eqb eqb_eq), IH.
  destruct (existsb (eqb x) (Spec.first_occ eqb l)) eqn:E,
           (existsb (eqb x) l) eqn:F; try reflexivity.
  - apply (proj1 (existsb_eqb_In eqb eqb_eq x _)),
      (proj1 (first_occ_In eqb eqb_eq x l)),
      (proj2 (existsb_eqb_In eqb eqb_eq x l)) in E.
    congruence.
  - apply (proj1 (existsb_eqb_In eqb eqb_eq x l)),
      (proj2 (first_occ_In eqb eqb_eq x l)),
      (proj2 (existsb_eqb_In eqb eqb_eq x _)) in F.
    congruence.
Qed.

End TableFacts.

Lemma descending_app_le {A : Type} (t1 t2 : list (A * nat)) :
  Spec.descending (t1 ++ t2) ->
  forall p q, In p t1 -> In q t2 -> snd q <= snd p.
Proof.
  induction t1 as [|r t1 IH]; simpl; intros H p q Hp Hq; [contradiction|].
  destruct H as [Hall Hd]. destruct Hp as [->|Hp].
  - rewrite Forall_forall in Hall. apply Hall. apply in_or_app. now right.
  - now apply (IH Hd).
Qed.

Lemma head_split {A : Type} (n : Z) (l : list A) :
  exists dropped, head n l ++ dropped = l.
Proof.
  unfold head. destruct (0 <=? n)%Z; eexists; apply firstn_skipn.
Qed.

Lemma length_head {A : Type} (n : Z) (l : list A) :
  length (head n l)
  = if (0 <=? n)%Z then Nat.min (Z.to_nat n) (length l)
    else length l - Z.to_nat (- n).
Proof.
  unfold head. destruct (0 <=? n)%Z; rewrite length_firstn; lia.
Qed.

Lemma contains_empty (s : string) : PyStr.contains EmptyString s = true.
Proof. now destruct s. Qed.

(** ** [extract_top_items]: the empty separator, and what is kept *)

(** X1.  With the empty string as separator [extract_top_items] raises
    [ValueError] as soon as the column has a cell that is not absent
    (every string contains the empty string, and [split] refuses it);
    on a column of absent cells only it returns the empty table. *)
Theorem extract_top_items_empty_separator :
  forall (series : list cell) (top_n : Z),
    Helpers.extract_top_items series top_n EmptyString
    = match dropna series with
      | [] => Ok []
      | _ :: _ => Raise ValueError
      end.
Proof.
  intros series top_n. unfold Helpers.extract_top_items.
  destruct (dropna series) as [|c cells]; simpl.
  - unfold head. destruct (0 <=? top_n)%Z; now rewrite firstn_nil.
  - now rewrite contains_empty.
Qed.

(** X2.  With a non-empty separator, what [extract_top_items] returns is
    a prefix of the full table of counts: its length is [top_n] or the
    number of distinct tokens, whichever is smaller (all but the last
    [-top_n] entries for a negative [top_n]); no entry left out has a
    larger count than an entry kept; and the counts of the full table
    add up to the number of tokens. *)
Theorem extract_top_items_keeps_the_largest :
  forall (series : list cell) (top_n : Z) (sep : string),
    sep <> EmptyString ->
    let toks := Spec.tokens sep series in
    exists kept dropped,
      Helpers.extract_top_items series top_n sep = Ok kept
      /\ kept ++ dropped = value_counts String.eqb toks
      /\ length kept
         = (if (0 <=? top_n)%Z
            then Nat.min (Z.to_nat top_n) (length (Spec.first_occ String.eqb toks))
            else length (Spec.first_occ String.eqb toks) - Z.to_nat (- top_n))
      /\ (forall p q, In p kept -> In q dropped -> snd q <= snd p)
      /\ Vocab.total (kept ++ dropped) = length toks.
Proof.
  intros series top_n sep Hsep toks.
  destruct (head_split top_n (value_counts String.eqb toks)) as [dropped E].
  exists (head top_n (value_counts String.eqb toks)), dropped.
  split; [now apply extract_top_items_value_counts|].
  split; [exact E|].
  split; [now rewrite length_head, (length_value_counts String.eqb String.eqb_eq)|].
  split.
  - apply descending_app_le. rewrite E. apply value_counts_descending.
  - rewrite E. apply total_value_counts.
Qed.

Lemma extract_top_items_keeps_the_largest_witness :
  exists dropped,
    Helpers.extract_top_items
      [Some "a, b"; Some "b, c"; None; Some "b, a"] 2 ","
    = Ok [("b", 3); ("a", 2)]
    /\ [("b", 3); ("a", 2)] ++ dropped
       = value_counts String.eqb
           (Spec.tokens "," [Some "a, b"; Some "b, c"; None; Some "b, a"]).
Proof.
  assert (H : "," <> EmptyString) by discriminate.
  destruct (extract_top_items_keeps_the_largest
              [Some "a, b"; Some "b, c"; None; Some "b, a"] 2 "," H)
    as [kept [dropped [E [F _]]]].
  exists dropped. rewrite <- F.
  assert (K : kept = [("b", 3); ("a", 2)]).
  { assert (G : Ok kept = Ok [("b", 3); ("a", 2)]) by (rewrite <- E; reflexivity).
    now inversion G. }
  rewrite K. split; [exact (eq_trans E (f_equal Ok K)) | reflexivity].
Defined.

(** ** The cleaning of [clean_netflix_data] and of [load_data] *)

(** X3.  [clean_netflix_data] keeps the rows and their order; after it
    no row lacks a country, a rating, a duration, a director or a cast
    (a missing one is "Unknown", or "Not Rated" for the rating), a value
    that was there is unchanged, and type, title, genres and description
    are the raw ones, absent where they were absent. *)
Theorem clean_netflix_data_fills_five_columns :
  forall (to_datetime : string -> option Timestamp)
         (to_numeric : string -> option Z) (raw : RawFrame),
    let df := Helpers.clean_netflix_data to_datetime to_numeric raw in
    length df = length raw
    /\ Forall (fun r => country r <> None /\ rating r <> None
                        /\ duration r <> None /\ director r <> None
                        /\ cast r <> None) df
    /\ map country df = map (fun r => fillna "Unknown" (raw_country r)) raw
    /\ map rating df = map (fun r => fillna "Not Rated" (raw_rating r)) raw
    /\ map duration df = map (fun r => fillna "Unknown" (raw_duration r)) raw
    /\ map director df = map (fun r => fillna "Unknown" (raw_director r)) raw
    /\ map cast df = map (fun r => fillna "Unknown" (raw_cast r)) raw
    /\ (forall (x : string) (c : cell), fillna x c = Some x \/ fillna x c = c)
    /\ map type_ df = map raw_type raw
    /\ map title df = map raw_title raw
    /\ map listed_in df = map raw_listed_in raw
    /\ map description df = map raw_description raw.
Proof.
  intros td tn raw df. unfold df, Helpers.clean_netflix_data.
  rewrite length_map, !map_map. simpl.
  repeat split; try reflexivity.
  - apply Forall_forall. intros r H. apply in_map_iff in H.
    destruct H as [x [<- _]]. simpl.
    destruct (raw_country x), (raw_rating x), (raw_duration x),
      (raw_director x), (raw_cast x); repeat split; discriminate.
  - intros x [c|]; [now right | now left].
Qed.

(** X4.  The cleaning inside [load_data] fills the country, the rating
    and the duration only: the director and the cast of a loaded row
    are absent exactly where the file has none, and filling these two
    after it gives the table of [clean_netflix_data]. *)
Theorem load_data_leaves_director_and_cast :
  forall (to_datetime : string -> option Timestamp)
         (to_numeric : string -> option Z) (raw : RawFrame)
         (page : list event),
    exists df,
      App.load_data to_datetime to_numeric (Readable raw) page = (page, Done df)
      /\ length df = length raw
      /\ Forall (fun r => country r <> None /\ rating r <> None
                          /\ duration r <> None) df
      /\ map director df = map raw_director raw
      /\ map cast df = map raw_cast raw
      /\ Helpers.clean_netflix_data to_datetime to_numeric raw
         = map (fun r => mkRow (type_ r) (title r)
                           (fillna "Unknown" (director r))
                           (fillna "Unknown" (cast r))
                           (country r) (date_added r) (release_year r)
                           (rating r) (duration r) (listed_in r)
                           (description r) (year_added r) (month_added r)) df.
Proof.
  intros td tn raw page. exists (map (App.clean_row td tn) raw).
  split; [reflexivity|]. rewrite length_map, !map_map.
  repeat split; try reflexivity.
  apply Forall_forall. intros r H. apply in_map_iff in H.
  destruct H as [x [<- _]]. simpl.
  destruct (raw_country x), (raw_rating x), (raw_duration x);
    repeat split; discriminate.
Qed.

(** ** [calculate_content_trends] *)

Lemma insert_by_label_In (q p : Z * nat) (t : list (Z * nat)) :
  In q (App.insert_by_label p t) <-> q = p \/ In q t.
Proof.
  induction t as [|r t IH]; simpl.
  - intuition congruence.
  - destruct (fst p <=? fst r)%Z; simpl; [|rewrite IH]; intuition congruence.
Qed.

Lemma insert_by_label_ascending (p : Z * nat) (t : list (Z * nat)) :
  ~ In (fst p) (map fst t) -> Vocab.ascending t ->
  Vocab.ascending (App.insert_by_label p t).
Proof.
  induction t as [|r t IH]; simpl; intros Hp H.
  - split; [constructor | exact I].
  - destruct H as [Hr Ht]. destruct (fst p <=? fst r)%Z eqn:E; simpl.
    + apply Z.leb_le in E. assert (fst p < fst r)%Z by lia.
      split; [|now split]. constructor; [assumption|].
      rewrite Forall_forall in *. intros q Hq. specialize (Hr q Hq). lia.
    + apply Z.leb_gt in E. split; [|apply IH; tauto].
      rewrite Forall_forall in *. intros q Hq.
      apply (proj1 (insert_by_label_In q p t)) in Hq.
      destruct Hq as [->|Hq]; [assumption | now apply Hr].
Qed.

Lemma sort_index_ascending (t : list (Z * nat)) :
  NoDup (map fst t) -> Vocab.ascending (App.sort_index t).
Proof.
  induction t as [|r t IH]; simpl; intros H; [exact I|].
  inversion H as [|? ? Hr Ht]; subst. fold (App.sort_index t).
  apply insert_by_label_ascending; [|now apply IH].
  rewrite in_map_iff. intros [q [Eq Hq]].
  apply (proj1 (sort_index_In q t)) in Hq.
  apply Hr. rewrite <- Eq. now apply in_map.
Qed.

Lemma total_sort_index (t : list (Z * nat)) :
  Vocab.total (App.sort_index t) = Vocab.total t.
Proof.
  assert (K : forall p t', Vocab.total (App.insert_by_label p t')
                           = snd p + Vocab.total t').
  { intros p t'. induction t' as [|q t' IH]; simpl; [reflexivity|].
    destruct (fst p <=? fst q)%Z; simpl; [reflexivity | rewrite IH; lia]. }
  induction t as [|q t IH]; simpl; [reflexivity|].
  fold (App.sort_index t). now rewrite K, IH.
Qed.

Lemma sorted_counts_In (y : Z) (n : nat) (l : list Z) :
  In (y, n) (App.sort_index (value_counts Z.eqb l))
  <-> n = occurrences Z.eqb y l /\ 0 < n.
Proof. rewrite sort_index_In. apply (value_counts_In Z.eqb Z.eqb_eq). Qed.

(** X5.  [calculate_content_trends] gives one entry per year that
    occurs in the column, in strictly increasing order of the year,
    with the number of rows of that year; absent years are left out,
    and the counts add up to the number of rows that have a year. *)
Theorem content_trends_sorted_and_complete :
  forall col : list (option Z),
    let t := Stats.calculate_content_trends col in
    Vocab.ascending t
    /\ (forall y n, In (y, n) t
                    <-> n = occurrences Z.eqb y (dropna col) /\ 0 < n)
    /\ Vocab.total t = length (dropna col).
Proof.
  intros col t. unfold t, Stats.calculate_content_trends.
  split; [apply sort_index_ascending, (value_counts_keys_NoDup Z.eqb Z.eqb_eq)|].
  split; [intros y n; apply sorted_counts_In|].
  rewrite total_sort_index. apply total_value_counts.
Qed.

(** ** [get_country_stats] *)

Lemma occurrences_app {A : Type} (eqb : A -> A -> bool) (k : A) (l1 l2 : list A) :
  occurrences eqb k (l1 ++ l2) = occurrences eqb k l1 + occurrences eqb k l2.
Proof. unfold occurrences. now rewrite filter_app, length_app. Qed.

Lemma dropna_map_Some {A : Type} (l : list A) : dropna (map Some l) = l.
Proof. induction l as [|x l IH]; simpl; [reflexivity | now rewrite IH]. Qed.

Lemma get_country_stats_value (col : list cell) :
  Stats.get_country_stats col
  = Ok (Stats.mkCountryStats
          (value_counts String.eqb (Spec.tokens "," col))
          (length (Spec.first_occ String.eqb (Spec.tokens "," col)))).
Proof.
  unfold Stats.get_country_stats.
  rewrite (collect_items_flat_map "," _ []) by discriminate. simpl.
  unfold PandasMore.nunique.
  now rewrite dropna_map_Some, (unique_first_occ String.eqb String.eqb_eq).
Qed.

Lemma tokens_and_country_tokens (view : DataFrame) (t : string) :
  occurrences String.eqb t
    (flat_map (fun c => map PyStr.strip (PyStr.split_from "," c 0))
       (dropna (map country view)))
  = occurrences String.eqb t
      (flat_map Spec.country_tokens (dropna (map country view)))
    + (if String.eqb t "Unknown"
       then length (filter Spec.unknown_country view) else 0).
Proof.
  induction view as [|r view IH].
  - simpl. now destruct (String.eqb t "Unknown").
  - unfold Spec.unknown_country in *. cbn [map filter].
    destruct (country r) as [c|]; cbn [dropna flat_map cell_eqb]; [|exact IH].
    rewrite !occurrences_app, IH. unfold Spec.country_tokens at 2.
    destruct (String.eqb c "Unknown") eqn:E.
    + apply String.eqb_eq in E. subst c.
      change (map PyStr.strip (PyStr.split_from "," "Unknown" 0))
        with ["Unknown"].
      unfold occurrences at 1. cbn [filter length].
      change (occurrences String.eqb t []) with 0.
      destruct (String.eqb t "Unknown"); cbn [length]; lia.
    + cbn [length]. lia.
Qed.

(** X6.  [get_country_stats] never raises; [total_unique] is the number
    of entries of [counts], one per distinct trimmed token, and the
    counts add up to the number of tokens.  Unlike the country table of
    the dashboard it does not pass over the cells equal to "Unknown":
    its count of a token is the dashboard's count, plus, for the token
    "Unknown", the number of rows whose country is "Unknown". *)
Theorem country_stats_count_unknown_cells :
  forall view : DataFrame,
    let toks := Spec.tokens "," (map country view) in
    exists stats,
      Stats.get_country_stats (map country view) = Ok stats
      /\ Stats.total_unique stats = length (Stats.counts stats)
      /\ (forall t n, In (t, n) (Stats.counts stats)
                      <-> n = occurrences String.eqb t toks /\ 0 < n)
      /\ Vocab.total (Stats.counts stats) = length toks
      /\ (forall t,
             occurrences String.eqb t toks
             = occurrences String.eqb t (App.all_countries view)
               + (if String.eqb t "Unknown"
                  then length (filter Spec.unknown_country view) else 0)).
Proof.
  intros view toks. eexists. split; [apply get_country_stats_value|]. simpl.
  split; [now rewrite (length_value_counts String.eqb String.eqb_eq)|].
  split; [intros t n; apply (value_counts_In String.eqb String.eqb_eq)|].
  split; [apply total_value_counts|].
  intros t. unfold toks, Spec.tokens. rewrite all_countries_flat_map.
  apply tokens_and_country_tokens.
Qed.

(** ** [create_summary_stats] *)

Lemma count_type_disjoint (d : DataFrame) :
  App.count_type "Movie" d + App.count_type "TV Show" d <= length d.
Proof.
  unfold App.count_type. induction d as [|r d IH]; simpl; [lia|].
  destruct (type_ r) as [s|]; simpl; [|lia].
  destruct (String.eqb s "Movie") eqn:E; simpl.
  - apply String.eqb_eq in E. subst s. simpl. lia.
  - destruct (String.eqb s "TV Show"); simpl; lia.
Qed.

Lemma fold_min_spec (ys : list Z) (y : Z) :
  In (fold_left Z.min ys y) (y :: ys)
  /\ forall x, In x (y :: ys) -> (fold_left Z.min ys y <= x)%Z.
Proof.
  revert y. induction ys as [|z ys IH]; intros y; simpl.
  - split; [now left | intros x [->|[]]; lia].
  - destruct (IH (Z.min y z)) as [Hin Hle]. split.
    + destruct Hin as [E|Hin]; [|now right; right].
      rewrite <- E. destruct (Z.min_spec y z) as [[_ ->]|[_ ->]]; auto.
    + intros x Hx. assert (K := Hle (Z.min y z) (or_introl eq_refl)).
      destruct Hx as [->|[->|Hx]]; [lia | lia |].
      apply Hle. now right.
Qed.

Lemma fold_max_spec (ys : list Z) (y : Z) :
  In (fold_left Z.max ys y) (y :: ys)
  /\ forall x, In x (y :: ys) -> (x <= fold_left Z.max ys y)%Z.
Proof.
  revert y. induction ys as [|z ys IH]; intros y; simpl.
  - split; [now left | intros x [->|[]]; lia].
  - destruct (IH (Z.max y z)) as [Hin Hle]. split.
    + destruct Hin as [E|Hin]; [|now right; right].
      rewrite <- E. destruct (Z.max_spec y z) as [[_ ->]|[_ ->]]; auto.
    + intros x Hx. assert (K := Hle (Z.max y z) (or_introl eq_refl)).
      destruct Hx as [->|[->|Hx]]; [lia | lia |].
      apply Hle. now right.
Qed.

Lemma series_max_spec (ys : list Z) :
  match App.series_max ys with
  | Some m => In m ys /\ forall x, In x ys -> (x <= m)%Z
  | None => ys = []
  end.
Proof. destruct ys as [|y ys]; [reflexivity | apply fold_max_spec]. Qed.

Lemma series_min_spec (ys : list Z) :
  match PandasMore.series_min ys with
  | Some m => In m ys /\ forall x, In x ys -> (m <= x)%Z
  | None => ys = []
  end.
Proof. destruct ys as [|y ys]; [reflexivity | apply fold_min_spec]. Qed.

Lemma length_first_occ {A : Type} (eqb : A -> A -> bool) (l : list A) :
  length (Spec.first_occ eqb l) <= length l.
Proof.
  induction l as [|x l IH]; simpl; [lia|].
  pose proof (filter_length_le (fun y => negb (eqb x y)) (Spec.first_occ eqb l)).
  lia.
Qed.

Lemma length_dropna {A : Type} (col : list (option A)) :
  length (dropna col) <= length col.
Proof.
  induction col as [|[x|] col IH]; simpl; lia.
Qed.

Lemma nunique_le (col : list cell) : PandasMore.nunique col <= length col.
Proof.
  unfold PandasMore.nunique.
  rewrite (unique_first_occ String.eqb String.eqb_eq).
  etransitivity; [apply length_first_occ | apply length_dropna].
Qed.

Lemma max_count_spec {A : Type} (t : list (A * nat)) :
  (forall p, In p t -> snd p <= fold_right Nat.max 0 (map snd t))
  /\ (t <> [] -> exists p, In p t /\ snd p = fold_right Nat.max 0 (map snd t)).
Proof.
  induction t as [|q t [IH1 IH2]]; simpl.
  - split; [contradiction | congruence].
  - split.
    + intros p [->|Hp]; [lia|]. specialize (IH1 p Hp). lia.
    + intros _. destruct t as [|q' t'].
      * exists q. simpl. split; [now left | lia].
      * destruct (IH2 ltac:(discriminate)) as [p [Hp Ep]].
        destruct (Nat.max_spec (snd q) (fold_right Nat.max 0 (map snd (q' :: t'))))
          as [[_ E]|[_ E]]; rewrite E.
        -- exists p. split; [now right | assumption].
        -- exists q. split; [now left | reflexivity].
Qed.

Lemma mode_In (col : list cell) (m : string) :
  In m (PandasMore.mode col)
  <-> In m (dropna col)
      /\ forall s, occurrences String.eqb s (dropna col)
                   <= occurrences String.eqb m (dropna col).
Proof.
  unfold PandasMore.mode.
  set (l := dropna col). set (t := tally String.eqb l).
  set (top := fold_right Nat.max 0 (map snd t)).
  rewrite (sort_uniq_In String.compare String.compare_eq_iff), in_map_iff.
  destruct (max_count_spec t) as [Hmax Hhit]. fold top in Hmax, Hhit.
  split.
  - intros [[k n] [Ek Hp]]. simpl in Ek. subst k.
    apply filter_In in Hp. destruct Hp as [Hp En]. simpl in En.
    apply Nat.eqb_eq in En. subst n.
    apply (tally_In String.eqb String.eqb_eq) in Hp. destruct Hp as [Etop Hpos].
    split.
    + apply (occurrences_pos_In String.eqb String.eqb_eq). fold l. lia.
    + intros s. fold l. rewrite <- Etop.
      destruct (occurrences String.eqb s l) as [|k] eqn:Es; [lia|].
      assert (G : In (s, S k) t).
      { apply (tally_In String.eqb String.eqb_eq). split; [congruence | lia]. }
      apply (Hmax _ G).
  - intros [Hin Hle]. fold l in Hin, Hle.
    assert (Hpos : 0 < occurrences String.eqb m l)
      by now apply (occurrences_pos_In String.eqb String.eqb_eq).
    assert (G : In (m, occurrences String.eqb m l) t).
    { apply (tally_In String.eqb String.eqb_eq). split; [reflexivity | assumption]. }
    destruct (Hhit ltac:(intros E; rewrite E in G; contradiction))
      as [[k n] [Hk En]]. simpl in En.
    assert (F := proj1 (tally_In String.eqb String.eqb_eq k n l) Hk).
    destruct F as [F _].
    exists (m, occurrences String.eqb m l). split; [reflexivity|].
    apply filter_In. split; [assumption|]. simpl. apply Nat.eqb_eq.
    pose proof (Hmax _ G) as U. simpl in U.
    specialize (Hle k). lia.
Qed.

(** X7.  In the summary of [create_summary_stats], movies and TV shows
    together are no more than the titles, and neither are the distinct
    countries or directors; the earliest and the latest release are
    years of the frame that bound every year of it, both absent when no
    row has a year; the most common rating is "N/A" when no row has a
    rating, and otherwise a rating of the frame that no other rating
    outnumbers. *)
Theorem summary_stats_consistent :
  forall df : DataFrame,
    let s := Stats.create_summary_stats df in
    let years := dropna (map release_year df) in
    let rated := dropna (map rating df) in
    Stats.movies_count s + Stats.tv_shows_count s <= Stats.total_titles s
    /\ Stats.unique_countries s <= Stats.total_titles s
    /\ Stats.unique_directors s <= Stats.total_titles s
    /\ match Stats.earliest_release s, Stats.latest_release s with
       | Some lo, Some hi =>
           In lo years /\ In hi years
           /\ forall y, In y years -> (lo <= y <= hi)%Z
       | None, None => years = []
       | _, _ => False
       end
    /\ (rated = [] -> Stats.most_common_rating s = "N/A")
    /\ (rated <> [] ->
        In (Stats.most_common_rating s) rated
        /\ forall other,
             occurrences String.eqb other rated
             <= occurrences String.eqb (Stats.most_common_rating s) rated).
Proof.
  intros df s years rated. unfold s, Stats.create_summary_stats. simpl.
  split; [apply count_type_disjoint|].
  split; [rewrite <- (length_map country df); apply nunique_le|].
  split; [rewrite <- (length_map director df); apply nunique_le|].
  split.
  { fold years.
    pose proof (series_min_spec years) as Hmin.
    pose proof (series_max_spec years) as Hmax.
    destruct (PandasMore.series_min years) as [lo|],
             (App.series_max years) as [hi|]; try assumption.
    - destruct Hmin as [Hlo Hle], Hmax as [Hhi Hge].
      repeat split; try assumption; [now apply Hle | now apply Hge].
    - destruct Hmin as [Hlo _]. rewrite Hmax in Hlo. contradiction.
    - destruct Hmax as [Hhi _]. rewrite Hmin in Hhi. contradiction. }
  split.
  - intros E. destruct (PandasMore.mode (map rating df)) as [|m rest] eqn:F;
      [reflexivity|].
    assert (G : In m (PandasMore.mode (map rating df))) by (rewrite F; now left).
    apply mode_In in G. destruct G as [G _]. fold rated in G.
    rewrite E in G. contradiction.
  - intros Hne. destruct (PandasMore.mode (map rating df)) as [|m rest] eqn:F.
    + exfalso. destruct rated as [|x rated'] eqn:Er; [congruence|].
      (* some rating occurs: the most frequent one is in the mode *)
      destruct (max_count_spec (tally String.eqb rated)) as [Hmax Hhit].
      assert (Hx : In (x, occurrences String.eqb x rated)
                     (tally String.eqb rated)).
      { apply (tally_In String.eqb String.eqb_eq). split; [reflexivity|].
        apply (occurrences_pos_In String.eqb String.eqb_eq).
        rewrite Er. now left. }
      destruct (Hhit ltac:(intros E; rewrite E in Hx; contradiction))
        as [[k n] [Hk En]]. simpl in En.
      assert (Hmode : In k (PandasMore.mode (map rating df))).
      { apply mode_In. fold rated.
        apply (tally_In String.eqb String.eqb_eq) in Hk.
        destruct Hk as [Ek Hpos]. split.
        - apply (occurrences_pos_In String.eqb String.eqb_eq). lia.
        - intros o. destruct (occurrences String.eqb o rated) as [|j] eqn:Eo; [lia|].
          assert (Ho : In (o, S j) (tally String.eqb rated)).
          { apply (tally_In String.eqb String.eqb_eq). split; [congruence | lia]. }
          pose proof (Hmax _ Ho) as U. simpl in U. lia. }
      rewrite F in Hmode. contradiction.
    + assert (G : In m (PandasMore.mode (map rating df))) by (rewrite F; now left).
      apply mode_In in G. exact G.
Qed.

(** ** The metrics above the tabs *)

Lemma filtered_df_years (df : DataFrame) (types rates : list cell)
  (lo hi y : Z) :
  In y (dropna (map release_year (App.filtered_df df types rates (lo, hi)))) ->
  (lo <= y <= hi)%Z.
Proof.
  intros H. apply dropna_map_In in H. destruct H as [r [Hr Ey]].
  apply filtered_df_In in Hr. destruct Hr as [_ [_ [_ [y' [E B]]]]].
  congruence.
Qed.

(** X8.  Above the tabs the script shows four metrics of the filtered
    view: its number of rows; its movies and its TV shows, which
    together are no more than the rows; and the latest release year,
    which is "N/A" when the view is empty and otherwise the largest
    release year of the view, a year within the selected range. *)
Theorem top_metrics_of_a_filtered_view :
  forall (df : DataFrame) (types rates : list cell) (lo hi : Z)
         (page : list event),
    let v := App.filtered_df df types rates (lo, hi) in
    exists latest,
      App.show_metrics v page
      = (page ++ [Metric "Total Content" (MInt (Z.of_nat (length v)));
                  Metric "Movies" (MInt (Z.of_nat (App.count_type "Movie" v)));
                  Metric "TV Shows" (MInt (Z.of_nat (App.count_type "TV Show" v)));
                  Metric "Latest Release Year" latest],
         Done tt)
      /\ App.count_type "Movie" v + App.count_type "TV Show" v <= length v
      /\ (v = [] -> latest = MText "N/A")
      /\ (v <> [] ->
          exists y, latest = MInt y
                    /\ (lo <= y <= hi)%Z
                    /\ (exists r, In r v /\ release_year r = Some y)
                    /\ forall r y', In r v -> release_year r = Some y' ->
                                    (y' <= y)%Z).
Proof.
  intros df types rates lo hi page v.
  eexists. split.
  { unfold App.show_metrics, sbind, emit. simpl.
    rewrite <- !app_assoc. reflexivity. }
  split; [apply count_type_disjoint|].
  pose proof (series_max_spec (dropna (map release_year v))) as Hmax.
  split.
  - intros E. rewrite E. reflexivity.
  - intros Hne.
    destruct (App.series_max (dropna (map release_year v))) as [y|] eqn:Ey.
    + destruct Hmax as [Hin Hge]. exists y. split; [reflexivity|].
      split; [now apply (filtered_df_years df types rates)|].
      split.
      * apply dropna_map_In in Hin. destruct Hin as [r [Hr Er]]. now exists r.
      * intros r y' Hr Er. apply Hge. apply dropna_map_In. now exists r.
    + exfalso. destruct v as [|r v'] eqn:Ev; [congruence|].
      pose proof (filtered_df_has_year df types rates (lo, hi)) as Hy.
      fold v in Hy. rewrite Ev in Hy. inversion Hy as [|? ? Hr _]; subst.
      simpl in Hmax. destruct (release_year r); [discriminate | contradiction].
Qed.

(** ** The decade column *)

Lemma update_same {A : Type} (l : list A) (a : nat) (f : A -> A) (x : A) :
  nth_error l a = Some x -> nth_error (App.update l a f) a = Some (f x).
Proof.
  revert a. induction l as [|y l IH]; intros a H.
  - now destruct a.
  - destruct a; simpl in *; [congruence | now apply IH].
Qed.

Lemma decade_bounds (y : Z) :
  ((y / 10) * 10 <= y <= (y / 10) * 10 + 9)%Z /\ (((y / 10) * 10) mod 10 = 0)%Z.
Proof.
  pose proof (Z.div_mod y 10 ltac:(lia)).
  pose proof (Z.mod_pos_bound y 10 ltac:(lia)).
  split; [lia | apply Z.mod_mul; lia].
Qed.

(** X9.  The assignment of line 161 gives the frame bound to
    [filtered_df] a [decade] column with one entry per row: the row's
    release year rounded down to a multiple of ten (also for a negative
    year), so the year lies in the ten years from the decade on; the
    decade counts then have one entry per decade, in increasing order,
    and add up to the rows of the view. *)
Theorem decade_column_rounds_down :
  forall (inp : Inputs) (ns : App.namespace) (catalog : App.frame_obj),
    App.deref ns (App.name_df ns) = Some catalog ->
    let view := App.filtered_df (App.rows catalog) (content_type inp)
                  (ratings inp) (year_range inp) in
    let ns' := App.stmt_add_decade (App.stmt_apply_filters inp ns) in
    (exists a, App.name_filtered_df ns' = Some a
               /\ App.deref ns' a
                  = Some (App.mkFrame view (Some (App.decade_column view))))
    /\ Forall2 (fun r d =>
                  exists y dd, release_year r = Some y /\ d = Some dd
                               /\ (dd <= y <= dd + 9)%Z
                               /\ (dd mod 10 = 0)%Z)
         view (App.decade_column view)
    /\ Vocab.ascending (App.decade_counts (App.decade_column view))
    /\ Vocab.total (App.decade_counts (App.decade_column view)) = length view.
Proof.
  intros inp ns catalog E view ns'.
  split.
  { exists (length (App.heap ns)). unfold ns', App.stmt_apply_filters.
    rewrite E. unfold App.stmt_add_decade, App.deref. simpl.
    split; [reflexivity|].
    rewrite (update_same _ _ _ (App.mkFrame view None));
      [reflexivity | now rewrite nth_error_app2, Nat.sub_diag by lia]. }
  assert (Hy : Forall (fun r => release_year r <> None) view)
    by apply filtered_df_has_year.
  split.
  { unfold App.decade_column. induction view as [|r v IH]; [constructor|].
    inversion Hy as [|? ? Hr Hv]; subst. simpl. constructor; [|now apply IH].
    destruct (release_year r) as [y|]; [|contradiction].
    exists y, ((y / 10) * 10)%Z. simpl.
    destruct (decade_bounds y) as [B M]. repeat split; try assumption; lia. }
  unfold App.decade_counts.
  split; [apply sort_index_ascending, (value_counts_keys_NoDup Z.eqb Z.eqb_eq)|].
  rewrite total_sort_index, total_value_counts.
  unfold App.decade_column. clear ns'.
  induction view as [|r v IH]; [reflexivity|].
  inversion Hy as [|? ? Hr Hv]; subst. simpl.
  destruct (release_year r); [simpl; now rewrite IH | contradiction].
Qed.

Lemma decade_column_rounds_down_witness :
  let row y := mkRow (Some "Movie") (Some "T") None None (Some "Unknown")
                 None (Some y) (Some "PG") (Some "90 min") (Some "Dramas")
                 None None None in
  let catalog := App.mkFrame [row 2019%Z; row 1987%Z; row 2020%Z; row 2011%Z] None in
  let ns := App.mkNamespace [catalog] 0 None in
  let inp := mkInputs [Some "Movie"] [Some "PG"] (1980%Z, 2021%Z) "" "All" "All" in
  App.decade_counts
    (App.decade_column
       (App.filtered_df (App.rows catalog) (content_type inp) (ratings inp)
          (year_range inp)))
  = [(1980%Z, 1); (2010%Z, 2); (2020%Z, 1)]
  /\ Vocab.total
       (App.decade_counts
          (App.decade_column
             (App.filtered_df (App.rows catalog) (content_type inp)
                (ratings inp) (year_range inp))))
     = 4.
Proof.
  intros row catalog ns inp.
  destruct (decade_column_rounds_down inp ns catalog eq_refl)
    as [_ [_ [_ T]]].
  split; [reflexivity | exact T].
Defined.

(** ** The number a duration begins with *)

Lemma take_digits_spec (s : string) :
  exists post, s = (PandasMore.take_digits s ++ post)%string
               /\ Vocab.all_digits (PandasMore.take_digits s) = true
               /\ Vocab.no_leading_digit post = true.
Proof.
  induction s as [|c s [post [E [Hd Hp]]]]; simpl.
  - now exists EmptyString.
  - destruct (PandasMore.is_digit c) eqn:Ec.
    + exists post. simpl. rewrite Ec, Hd, <- E. now repeat split.
    + exists (String c s). simpl. rewrite Ec. now repeat split.
Qed.

Lemma search_digits_None (s : string) :
  PandasMore.search_digits s = None <-> Vocab.no_digit s = true.
Proof.
  induction s as [|c s IH]; simpl; [tauto|].
  destruct (PandasMore.is_digit c); simpl; [split; discriminate | exact IH].
Qed.

Lemma search_digits_Some (s d : string) :
  PandasMore.search_digits s = Some d ->
  exists pre post,
    s = (pre ++ d ++ post)%string
    /\ Vocab.no_digit pre = true
    /\ d <> EmptyString
    /\ Vocab.all_digits d = true
    /\ Vocab.no_leading_digit post = true.
Proof.
  induction s as [|c s IH]; simpl; [discriminate|].
  destruct (PandasMore.is_digit c) eqn:Ec.
  - intros H. inversion H; subst d. clear H.
    destruct (take_digits_spec s) as [post [E [Hd Hp]]].
    exists EmptyString, post. simpl. rewrite Ec, Hd, <- E.
    repeat split; [discriminate | assumption].
  - intros H. destruct (IH H) as [pre [post [E [Hpre R]]]].
    exists (String c pre), post. simpl. rewrite Ec, Hpre, <- E.
    now repeat split.
Qed.

(** X10.  The durations of lines 197 and 200 are read as the first run
    of digits of the text: a cell that is absent or has no digit gives
    an absent number and nothing is raised; otherwise the text is some
    digit-free text, then the digits that are read, then a rest that
    does not go on with a digit.  "90 min" gives 90, "3 Seasons" gives
    3 and "Unknown" gives nothing; the column has one entry per row. *)
Theorem duration_number_is_first_digit_run :
  forall (d : DataFrame) (c : cell),
    length (App.leading_number d) = length d
    /\ (PandasMore.str_extract_digits c = None
        <-> match c with
            | Some s => Vocab.no_digit s = true
            | None => True
            end)
    /\ (forall digits,
           PandasMore.str_extract_digits c = Some digits ->
           exists s pre post,
             c = Some s
             /\ s = (pre ++ digits ++ post)%string
             /\ Vocab.no_digit pre = true
             /\ digits <> EmptyString
             /\ Vocab.all_digits digits = true
             /\ Vocab.no_leading_digit post = true)
    /\ (let row t dur := mkRow t (Some "T") None None (Some "Unknown") None
                           (Some 2015%Z) (Some "PG") dur (Some "Dramas")
                           None None None in
        let view := [row (Some "Movie") (Some "90 min");
                     row (Some "TV Show") (Some "3 Seasons");
                     row (Some "Movie") (Some "Unknown");
                     row (Some "Movie") None;
                     row (Some "TV Show") (Some "1 Season")] in
        App.leading_number (App.movies_df view) = [Some 90%Z; None; None]
        /\ App.leading_number (App.tv_shows_df view) = [Some 3%Z; Some 1%Z]
        /\ App.season_counts (App.tv_shows_df view) = [(1%Z, 1); (3%Z, 1)]).
Proof.
  intros d c.
  split; [apply length_map|].
  split.
  { destruct c as [s|]; simpl; [apply search_digits_None | tauto]. }
  split; [|repeat split].
  intros digits H. destruct c as [s|]; simpl in H; [|discriminate].
  destruct (search_digits_Some s digits H) as [pre [post R]].
  exists s, pre, post. split; [reflexivity | exact R].
Qed.

(** ** A table of counts accounts for every value once *)

Section TableTotal.
Context {A : Type} (eqb : A -> A -> bool).
Hypothesis eqb_eq : forall x y, eqb x y = true <-> x = y.

Lemma length_partition (k : A) (l : list A) :
  length l = occurrences eqb k l + length (filter (fun x => negb (eqb k x)) l).
Proof.
  unfold occurrences. induction l as [|x l IH]; simpl; [reflexivity|].
  destruct (eqb k x); simpl; lia.
Qed.

Lemma occurrences_filter_other (k k' : A) (l : list A) :
  k' <> k ->
  occurrences eqb k' (filter (fun x => negb (eqb k x)) l) = occurrences eqb k' l.
Proof.
  intros H. unfold occurrences. induction l as [|x l IH]; simpl; [reflexivity|].
  destruct (eqb k x) eqn:E; simpl.
  - apply eqb_eq in E. subst x.
    destruct (eqb k' k) eqn:F; [apply eqb_eq in F; contradiction | exact IH].
  - destruct (eqb k' x); simpl; now rewrite IH.
Qed.

(** A table with distinct keys, whose counts are the numbers of
    occurrences and whose keys cover the values, adds up to the number
    of values. *)
Lemma table_total (t : list (A * nat)) :
  forall l : list A,
    NoDup (map fst t) ->
    (forall k n, In (k, n) t -> n = occurrences eqb k l) ->
    (forall x, In x l -> In x (map fst t)) ->
    Vocab.total t = length l.
Proof.
  induction t as [|[k n] t IH]; intros l Hnd Hcount Hcover.
  - destruct l as [|x l]; [reflexivity|]. destruct (Hcover x (or_introl eq_refl)).
  - inversion Hnd as [|? ? Hk Ht]; subst. simpl.
    rewrite (length_partition k l), (Hcount k n (or_introl eq_refl)). f_equal.
    apply IH; [assumption| |].
    + intros k' n' H. rewrite occurrences_filter_other.
      * apply Hcount. now right.
      * intros ->. apply Hk. change k with (fst (k, n')). now apply in_map.
    + intros x Hx. apply filter_In in Hx. destruct Hx as [Hx Hne].
      destruct (Hcover x Hx) as [E|H]; [|assumption].
      simpl in E. subst x. now rewrite (proj2 (eqb_eq k k) eq_refl) in Hne.
Qed.

End TableTotal.

Lemma NoDup_keys_filter {A B : Type} (f : A * B -> bool) (t : list (A * B)) :
  NoDup (map fst t) -> NoDup (map fst (filter f t)).
Proof.
  induction t as [|p t IH]; simpl; intros H; [constructor|].
  inversion H as [|? ? Hp Ht]; subst.
  destruct (f p); simpl; [|now apply IH].
  constructor; [|now apply IH].
  rewrite in_map_iff. intros [q [Eq Hq]]. apply filter_In in Hq.
  apply Hp. rewrite <- Eq. apply in_map. tauto.
Qed.

Lemma ascending_filter (f : Z * nat -> bool) (t : list (Z * nat)) :
  Vocab.ascending t -> Vocab.ascending (filter f t).
Proof.
  induction t as [|p t IH]; simpl; intros H; [exact I|].
  destruct H as [Hp Ht]. destruct (f p); simpl; [|now apply IH].
  split; [|now apply IH].
  rewrite Forall_forall in *. intros q Hq. apply filter_In in Hq.
  apply Hp. tauto.
Qed.

Lemma ascending_keys_NoDup (t : list (Z * nat)) :
  Vocab.ascending t -> NoDup (map fst t).
Proof.
  induction t as [|p t IH]; simpl; intros H; constructor.
  - destruct H as [Hp _]. rewrite in_map_iff. intros [q [Eq Hq]].
    rewrite Forall_forall in Hp. specialize (Hp q Hq). lia.
  - apply IH. tauto.
Qed.

Lemma occurrences_filter_keep (P : Z -> bool) (y : Z) (l : list Z) :
  P y = true ->
  occurrences Z.eqb y (filter P l) = occurrences Z.eqb y l.
Proof.
  intros H. unfold occurrences. induction l as [|x l IH]; simpl; [reflexivity|].
  destruct (P x) eqn:E; simpl.
  - destruct (Z.eqb y x); simpl; now rewrite IH.
  - destruct (Z.eqb y x) eqn:F; [|exact IH].
    apply Z.eqb_eq in F. subst x. congruence.
Qed.

(** ** Releases by year *)

(** X11.  The release trend lists the years from 1990 on that occur in
    the view, in strictly increasing order, each with the number of its
    rows; the years before 1990 are left out, so the counts add up to
    the number of rows released in 1990 or later.  It is the table of
    [calculate_content_trends] on the release years, cut at 1990. *)
Theorem yearly_releases_start_at_1990 :
  forall view : DataFrame,
    let years := dropna (map release_year view) in
    let t := App.yearly_releases view in
    Vocab.ascending t
    /\ (forall y n, In (y, n) t
                    <-> (1990 <= y)%Z
                        /\ n = occurrences Z.eqb y years /\ 0 < n)
    /\ Vocab.total t = length (filter (fun y => (1990 <=? y)%Z) years)
    /\ t = filter (fun p => (1990 <=? fst p)%Z)
             (Stats.calculate_content_trends (map release_year view)).
Proof.
  intros view years t.
  assert (Hasc : Vocab.ascending t).
  { apply ascending_filter, sort_index_ascending,
      (value_counts_keys_NoDup Z.eqb Z.eqb_eq). }
  assert (Hin : forall y n, In (y, n) t
                            <-> (1990 <= y)%Z
                                /\ n = occurrences Z.eqb y years /\ 0 < n).
  { intros y n. unfold t, App.yearly_releases. fold years.
    rewrite filter_In, sorted_counts_In. simpl. rewrite Z.leb_le. tauto. }
  split; [exact Hasc|]. split; [exact Hin|]. split; [|reflexivity].
  apply (table_total Z.eqb Z.eqb_eq).
  - now apply ascending_keys_NoDup.
  - intros y n H. apply Hin in H. destruct H as [Hy [-> _]].
    symmetry. apply occurrences_filter_keep. now apply Z.leb_le.
  - intros y Hy. apply filter_In in Hy. destruct Hy as [Hy H90].
    apply in_map_iff. exists (y, occurrences Z.eqb y years).
    split; [reflexivity|]. apply Hin.
    split; [now apply Z.leb_le|]. split; [reflexivity|].
    now apply (occurrences_pos_In Z.eqb Z.eqb_eq).
Qed.

(** ** Genre trends *)

Lemma genre_records_count (top : list string) (g : string) (y : option Z)
  (ty : cell) (toks : list string) :
  length (filter (fun rec => String.eqb g (App.gr_genre rec))
            (map (fun genre => App.mkGenreRecord genre y ty)
               (filter (fun genre => existsb (String.eqb genre) top) toks)))
  = if existsb (String.eqb g) top then occurrences String.eqb g toks else 0.
Proof.
  unfold occurrences. induction toks as [|x toks IH]; simpl.
  - now destruct (existsb (String.eqb g) top).
  - destruct (existsb (String.eqb x) top) eqn:Ex; simpl.
    + destruct (String.eqb g x) eqn:E; simpl.
      * apply String.eqb_eq in E. subst x. rewrite Ex in *. simpl. now rewrite IH.
      * exact IH.
    + rewrite IH. destruct (String.eqb g x) eqn:E; [|reflexivity].
      apply String.eqb_eq in E. subst x. now rewrite Ex.
Qed.

(** X12.  The genre trend has one record per genre token of a row when
    the genre is one of the (at most eight) first genres of the genre
    table, and none for the other genres; a record carries the release
    year and the type of its row.  So the records of a top genre are as
    many as its count in the genre table. *)
Theorem genre_trend_records_match_genre_counts :
  forall (view : DataFrame) (g : string),
    let toks := Spec.tokens "," (map listed_in view) in
    length (App.top_genres view) <= 8
    /\ (forall rec, In rec (App.genre_time_data view) ->
                    In (App.gr_genre rec) (App.top_genres view)
                    /\ exists row, In row view
                                   /\ App.gr_release_year rec = release_year row
                                   /\ App.gr_type rec = type_ row
                                   /\ Vocab.has_token (App.gr_genre rec)
                                        (listed_in row))
    /\ length (filter (fun rec => String.eqb g (App.gr_genre rec))
                 (App.genre_time_data view))
       = (if existsb (String.eqb g) (App.top_genres view)
          then occurrences String.eqb g toks else 0)
    /\ (In g (App.top_genres view) ->
        In (g, occurrences String.eqb g toks) (App.genre_counts view)).
Proof.
  intros view g toks.
  split.
  { unfold App.top_genres. rewrite length_map.
    change (head 8 (App.genre_counts view))
      with (firstn 8 (App.genre_counts view)).
    apply firstn_le_length. }
  split.
  { intros rec H. unfold App.genre_time_data in H. apply in_flat_map in H.
    destruct H as [row [Hrow H]].
    destruct (listed_in row) as [s|] eqn:Es; [|contradiction].
    apply in_map_iff in H. destruct H as [genre [<- H]].
    apply filter_In in H. destruct H as [Htok Htop]. simpl.
    split; [now apply (existsb_eqb_In String.eqb String.eqb_eq)|].
    exists row. rewrite Es. now repeat split. }
  split.
  { unfold App.genre_time_data, toks, Spec.tokens.
    set (top := App.top_genres view). clearbody top.
    induction view as [|row view IH].
    - simpl. now destruct (existsb (String.eqb g) top).
    - cbn [flat_map map]. rewrite filter_app, length_app, IH.
      destruct (listed_in row) as [s|]; cbn [dropna flat_map].
      + rewrite genre_records_count, occurrences_app.
        unfold App.split_comma.
        now destruct (existsb (String.eqb g) top).
      + reflexivity. }
  intros H. unfold App.top_genres in H. apply in_map_iff in H.
  destruct H as [[g' n] [Eg H]]. simpl in Eg. subst g'.
  apply head_In in H.
  assert (G := H). rewrite genre_counts_value_counts in G. apply head_In in G.
  apply (value_counts_In String.eqb String.eqb_eq) in G.
  destruct G as [-> _]. exact H.
Qed.

(** ** Tokens are substrings of their cell *)

Lemma string_append_assoc (a b c : string) :
  ((a ++ b) ++ c)%string = (a ++ (b ++ c))%string.
Proof. induction a as [|x a IH]; simpl; [reflexivity | now rewrite IH]. Qed.

Lemma prefix_self_append (t y : string) : String.prefix t (t ++ y)%string = true.
Proof.
  induction t as [|c t IH]; simpl; [now destruct y|].
  destruct (Ascii.ascii_dec c c); [exact IH | contradiction].
Qed.

Lemma contains_append (t x y : string) :
  PyStr.contains t (x ++ t ++ y)%string = true.
Proof.
  induction x as [|c x IH].
  - simpl. destruct (t ++ y)%string as [|d s] eqn:E.
    + destruct t; [reflexivity | discriminate].
    + rewrite contains_cons, <- E, prefix_self_append. reflexivity.
  - change (String c x ++ t ++ y)%string with (String c (x ++ t ++ y)%string).
    rewrite contains_cons, IH. apply orb_true_r.
Qed.

Lemma join_In (sep p : string) (pieces : list string) :
  In p pieces -> exists a b, PyStr.join sep pieces = (a ++ p ++ b)%string.
Proof.
  induction pieces as [|q pieces IH]; [contradiction|].
  intros H. destruct pieces as [|q' pieces].
  - destruct H as [->|[]]. exists EmptyString, EmptyString. simpl.
    clear IH. induction p as [|c p IHp]; simpl; [reflexivity | now rewrite <- IHp].
  - change (PyStr.join sep (q :: q' :: pieces))
      with (q ++ sep ++ PyStr.join sep (q' :: pieces))%string.
    destruct H as [->|H].
    + exists EmptyString, (sep ++ PyStr.join sep (q' :: pieces))%string.
      reflexivity.
    + destruct (IH H) as [a [b E]]. rewrite E.
      exists (q ++ sep ++ a)%string, b.
      now rewrite !string_append_assoc.
Qed.

(** A trimmed piece of a cell is a substring of the cell. *)
Lemma token_is_substring (sep t c : string) :
  sep <> EmptyString ->
  In t (map PyStr.strip (PyStr.split_from sep c 0)) ->
  PyStr.contains t c = true.
Proof.
  intros Hsep H. apply in_map_iff in H. destruct H as [piece [<- Hp]].
  destruct (join_In sep piece _ Hp) as [a [b E]].
  rewrite (join_split_from sep c Hsep) in E.
  destruct (strip_spec piece) as [l [r [Ep _]]].
  remember (PyStr.strip piece) as t eqn:Et.
  rewrite E, Ep, !string_append_assoc, <- (string_append_assoc a l).
  apply contains_append.
Qed.

Lemma match_here_plain_case (q s : string) :
  PyRe.match_here false (map PyRe.Lit (list_ascii_of_string q)) s
  = String.prefix q s.
Proof.
  revert s. induction q as [|c q IH]; intros s.
  - now destruct s.
  - destruct s as [|t s]; [reflexivity|].
    cbn [list_ascii_of_string map PyRe.match_here].
    rewrite prefix_cons, IH. reflexivity.
Qed.

Lemma search_plain_case (q s : string) :
  PyRe.search false (map PyRe.Lit (list_ascii_of_string q)) s
  = PyStr.contains q s.
Proof.
  induction s as [|t s IH].
  - now destruct q.
  - cbn [PyRe.search]. rewrite contains_cons, IH, match_here_plain_case.
    reflexivity.
Qed.

Lemma str_contains_plain_case (q : string) :
  Spec.plain q = true ->
  exists hit, str_contains q true false = Some hit
              /\ forall c, hit c = match c with
                                   | Some s => PyStr.contains q s
                                   | None => false
                                   end.
Proof.
  intros H. unfold str_contains. rewrite (compile_plain q H).
  eexists. split; [reflexivity|].
  intros [s|]; [apply search_plain_case | reflexivity].
Qed.

(** ** The genre and country select boxes *)

(** X13.  Selecting a genre or a country that has no special character
    keeps the rows whose cell contains the selection as a substring,
    case-sensitively, and drops the rows without the cell; so every row
    that has the selection as one of its tokens is kept, and so is a
    row where it is only part of a longer token ("Dramas" keeps a row
    listed in "TV Dramas").  Selecting "All" keeps the view. *)
Theorem select_keeps_rows_with_the_token :
  forall (column : Row -> cell) (view : DataFrame) (selected : string),
    Spec.plain selected = true ->
    exists d,
      App.apply_select column selected view = Some d
      /\ (selected = "All" -> d = view)
      /\ (selected <> "All" ->
          (forall r, In r d
                     <-> In r view
                         /\ exists s, column r = Some s
                                      /\ PyStr.contains selected s = true)
          /\ (forall r, In r view -> Vocab.has_token selected (column r) ->
                        In r d))
      /\ (let row g := mkRow (Some "Movie") (Some "T") None None
                         (Some "Unknown") None (Some 2015%Z) (Some "PG")
                         (Some "90 min") g None None None in
          App.apply_select listed_in "Dramas"
            [row (Some "Dramas, Comedies"); row (Some "TV Dramas");
             row None; row (Some "Comedies")]
          = Some [row (Some "Dramas, Comedies"); row (Some "TV Dramas")]).
Proof.
  intros column view selected Hplain. unfold App.apply_select.
  destruct (str_contains_plain_case selected Hplain) as [hit [Ehit Hhit]].
  rewrite Ehit.
  destruct (String.eqb selected "All") eqn:E; simpl.
  - apply String.eqb_eq in E. exists view.
    split; [reflexivity|]. split; [reflexivity|].
    split; [congruence | reflexivity].
  - apply String.eqb_neq in E. eexists. split; [reflexivity|].
    split; [congruence|]. split; [|reflexivity].
    intros _.
    assert (K : forall r, In r (filter (fun r => hit (column r)) view)
                          <-> In r view
                              /\ exists s, column r = Some s
                                           /\ PyStr.contains selected s = true).
    { intros r. rewrite filter_In, Hhit.
      destruct (column r) as [s|]; split.
      - intros [H G]. split; [assumption | now exists s].
      - intros [H [s' [Es G]]]. inversion Es; subst. now split.
      - intros [_ H]. discriminate.
      - intros [_ [s' [Es _]]]. discriminate. }
    split; [exact K|].
    intros r Hr Htok. apply K. split; [assumption|].
    unfold Vocab.has_token in Htok. destruct (column r) as [s|]; [|contradiction].
    exists s. split; [reflexivity|].
    apply (token_is_substring "," selected s); [discriminate | assumption].
Qed.

Lemma select_keeps_rows_with_the_token_witness :
  let row c := mkRow (Some "Movie") (Some "T") None None c None
                 (Some 2015%Z) (Some "PG") (Some "90 min") (Some "Dramas")
                 None None None in
  exists d,
    App.apply_select country "India"
      [row (Some "United States, India"); row (Some "Unknown"); row (Some "India")]
    = Some d
    /\ In (row (Some "India")) d.
Proof.
  intros row.
  destruct (select_keeps_rows_with_the_token country
              [row (Some "United States, India"); row (Some "Unknown");
               row (Some "India")] "India" eq_refl)
    as [d [E [_ [H _]]]].
  exists d. split; [exact E|].
  apply (proj2 (H ltac:(discriminate))).
  - simpl. tauto.
  - simpl. now left.
Defined.

Lemma cell_eqb_eq (a b : cell) : cell_eqb a b = true <-> a = b.
Proof.
  destruct a as [x|], b as [y|]; simpl; split; try discriminate; try reflexivity.
  - intros H. apply String.eqb_eq in H. now subst.
  - intros H. inversion H. apply String.eqb_refl.
Qed.

Lemma NoDup_firstn {A : Type} (n : nat) (l : list A) :
  NoDup l -> NoDup (firstn n l).
Proof.
  intros H. rewrite <- (firstn_skipn n l) in H.
  now apply NoDup_app_remove_r in H.
Qed.

Lemma firstn_In {A : Type} (n : nat) (l : list A) (x : A) :
  In x (firstn n l) -> In x l.
Proof.
  intros H. rewrite <- (firstn_skipn n l). apply in_or_app. now left.
Qed.

Lemma exploded_Some (col : list cell) (t : string) :
  In (Some t) (App.exploded col) <-> In t (Spec.tokens "," col).
Proof.
  unfold App.exploded, Spec.tokens, App.split_comma.
  induction col as [|[s|] col IH]; simpl.
  - tauto.
  - rewrite !in_app_iff, IH, !in_map_iff. split.
    + intros [[p [E Hp]]|H]; [left | now right].
      inversion E. now exists p.
    + intros [[p [E Hp]]|H]; [left | now right].
      exists p. split; [congruence | assumption].
  - rewrite IH. split; [intros [H|H]; [discriminate | assumption] | auto].
Qed.

Lemma exploded_None (col : list cell) :
  In None (App.exploded col) <-> In None col.
Proof.
  unfold App.exploded. induction col as [|[s|] col IH]; simpl.
  - tauto.
  - rewrite in_app_iff, IH, in_map_iff. split.
    + intros [[p [E _]]|H]; [discriminate | now right].
    + intros [H|H]; [discriminate | now right].
  - rewrite IH. tauto.
Qed.

(** X14.  On a column that holds a string, a select box offers "All"
    first and then at most fifty more options, without repetition, in
    the order in which they are first met in the column: each is a
    trimmed token of a cell of the column (or the absent value, when
    the column has an absent cell); when the column has no more than
    fifty distinct ones, every token is offered.  On a column of a
    frame with rows in which every cell is absent, building the options
    raises [AttributeError]. *)
Theorem select_options_shape :
  forall col : list cell,
    let offered := firstn 50 (Spec.first_occ cell_eqb (App.exploded col)) in
    ((exists s, In (Some s) col) ->
     App.select_options col = Ok (Some "All" :: offered))
    /\ (col <> [] -> (forall c, In c col -> c = None) ->
        App.select_options col = Raise AttributeError)
    /\ (forall options, App.select_options col = Ok options ->
                        options = Some "All" :: offered
                        /\ length options <= 51)
    /\ NoDup offered
    /\ (forall t, In (Some t) offered -> In t (Spec.tokens "," col))
    /\ (In None offered -> In None col)
    /\ (length (Spec.first_occ cell_eqb (App.exploded col)) <= 50 ->
        forall t, In t (Spec.tokens "," col) -> In (Some t) offered).
Proof.
  intros col offered. unfold offered, App.select_options.
  rewrite (unique_first_occ cell_eqb cell_eqb_eq).
  split.
  { intros [x Hx].
    assert (K : dtype_of col = object).
    { unfold dtype_of. destruct col as [|c col]; [reflexivity|].
      assert (G : existsb notna (c :: col) = true).
      { apply existsb_exists. now exists (Some x). }
      now rewrite G. }
    now rewrite K. }
  split.
  { intros Hne Hall.
    assert (K : dtype_of col = float64).
    { unfold dtype_of. destruct col as [|c col]; [contradiction|].
      assert (G : existsb notna (c :: col) = false).
      { apply not_true_is_false. intros G. apply existsb_exists in G.
        destruct G as [c' [Hc' G]]. rewrite (Hall c' Hc') in G. discriminate. }
      now rewrite G. }
    now rewrite K. }
  split.
  { intros options H. destruct (str_accessor (dtype_of col)); [|discriminate].
    cbn [rbind] in H.
    assert (E : options
                = Some "All"
                  :: firstn 50 (Spec.first_occ cell_eqb (App.exploded col)))
      by congruence.
    split; [exact E|].
    rewrite E. cbn [length]. apply le_n_S, firstn_le_length. }
  split; [apply NoDup_firstn, (NoDup_first_occ cell_eqb cell_eqb_eq)|].
  split.
  { intros t H. apply firstn_In in H.
    apply (proj1 (first_occ_In cell_eqb cell_eqb_eq _ _)) in H.
    exact (proj1 (exploded_Some col t) H). }
  split.
  { intros H. apply firstn_In in H.
    apply (proj1 (first_occ_In cell_eqb cell_eqb_eq _ _)) in H.
    exact (proj1 (exploded_None col) H). }
  intros Hlen t H. rewrite firstn_all2 by assumption.
  apply (proj2 (first_occ_In cell_eqb cell_eqb_eq _ _)).
  exact (proj2 (exploded_Some col t) H).
Qed.

(** X15.  A genre that the genre box offers, other than "All" and
    without special characters, always finds something: filtering the
    catalog the options were taken from by that genre keeps at least
    one row. *)
Theorem offered_genre_matches_a_row :
  forall (df : DataFrame) (genre : string) (options : list cell),
    App.select_options (map listed_in df) = Ok options ->
    In (Some genre) options ->
    genre <> "All" ->
    Spec.plain genre = true ->
    exists d r, App.apply_select listed_in genre df = Some d /\ In r d.
Proof.
  intros df genre options Eopt Hopt Hne Hplain.
  unfold App.select_options in Eopt.
  destruct (str_accessor (dtype_of (map listed_in df))); [|discriminate].
  cbn [rbind] in Eopt.
  assert (Eo : options
               = Some "All"
                 :: firstn 50 (PandasMore.unique cell_eqb
                                 (App.exploded (map listed_in df))))
    by congruence.
  rewrite Eo in Hopt.
  destruct Hopt as [E|Hopt]; [congruence|].
  rewrite (unique_first_occ cell_eqb cell_eqb_eq) in Hopt.
  apply firstn_In in Hopt.
  apply (proj1 (first_occ_In cell_eqb cell_eqb_eq _ _)) in Hopt.
  apply (proj1 (exploded_Some _ _)) in Hopt.
  unfold Spec.tokens in Hopt. apply in_flat_map in Hopt.
  destruct Hopt as [s [Hs Htok]].
  apply dropna_map_In in Hs. destruct Hs as [r [Hr Er]].
  unfold App.apply_select.
  destruct (str_contains_plain_case genre Hplain) as [hit [Ehit Hhit]].
  rewrite Ehit.
  destruct (String.eqb genre "All") eqn:E;
    [apply String.eqb_eq in E; contradiction|].
  simpl. eexists. exists r. split; [reflexivity|].
  apply filter_In. split; [assumption|].
  rewrite Hhit, Er.
  apply (token_is_substring "," genre s); [discriminate | assumption].
Qed.

Lemma offered_genre_matches_a_row_witness :
  let row g := mkRow (Some "Movie") (Some "T") None None (Some "Unknown")
                 None (Some 2015%Z) (Some "PG") (Some "90 min") g
                 None None None in
  exists d r,
    App.apply_select listed_in "Comedies"
      [row (Some "Dramas, Comedies"); row None; row (Some "Dramas")]
    = Some d
    /\ In r d.
Proof.
  intros row.
  apply (offered_genre_matches_a_row
           [row (Some "Dramas, Comedies"); row None; row (Some "Dramas")]
           "Comedies" [Some "All"; Some "Dramas"; Some "Comedies"; None]).
  - reflexivity.
  - simpl. tauto.
  - discriminate.
  - reflexivity.
Defined.

(** ** The detail search as a selection *)

Lemma filter_filter {A : Type} (f g : A -> bool) (l : list A) :
  filter f (filter g l) = filter (fun x => g x && f x) l.
Proof.
  induction l as [|x l IH]; [reflexivity|].
  simpl. destruct (g x); simpl; [destruct (f x); now rewrite IH | exact IH].
Qed.

Lemma str_contains_embedded (pat : string) (case na : bool) :
  Vocab.embedded pat -> exists hit, str_contains pat case na = Some hit.
Proof.
  unfold Vocab.embedded, str_contains. intros H.
  destruct (PyRe.compile pat); [eexists; reflexivity | contradiction].
Qed.

Lemma apply_search_as_filter (dts : App.dtypes) (q : string) :
  Vocab.all_object dts -> Vocab.embedded q ->
  exists keep, forall v, App.apply_search dts q v = Ok (Some (filter keep v)).
Proof.
  intros [Ht [Hd [Hc _]]] Hq. unfold App.apply_search.
  destruct (App.truthy q).
  - destruct (str_contains_embedded q false false Hq) as [hit E].
    rewrite E, Ht, Hd, Hc. eexists. intros v. reflexivity.
  - exists (fun _ => true). intros v. now rewrite filter_true.
Qed.

Lemma apply_select_as_filter (col : Row -> cell) (sel : string) :
  Vocab.embedded sel ->
  exists keep, forall v, App.apply_select col sel v = Some (filter keep v).
Proof.
  intros Hs. unfold App.apply_select. destruct (negb (String.eqb sel "All")).
  - destruct (str_contains_embedded sel true false Hs) as [hit E].
    rewrite E. eexists. intros v. reflexivity.
  - exists (fun _ => true). intros v. now rewrite filter_true.
Qed.

Lemma select_accessor_object (sel : string) :
  App.select_accessor sel object = Ok tt.
Proof. unfold App.select_accessor. now destruct (negb (String.eqb sel "All")). Qed.

Lemma detailed_df_as_filter (dts : App.dtypes) (q g c : string) :
  Vocab.all_object dts ->
  Vocab.embedded q -> Vocab.embedded g -> Vocab.embedded c ->
  exists keep,
    forall v, App.detailed_df dts v q g c = Ok (Some (filter keep v)).
Proof.
  intros Hall Hq Hg Hc.
  destruct (apply_search_as_filter dts q Hall Hq) as [k1 H1].
  destruct (apply_select_as_filter listed_in g Hg) as [k2 H2].
  destruct (apply_select_as_filter country c Hc) as [k3 H3].
  destruct Hall as [_ [_ [_ [Hl Hco]]]].
  exists (fun r => k1 r && (k2 r && k3 r)). intros v.
  unfold App.detailed_df. rewrite H1. cbn [rbind].
  rewrite Hl, select_accessor_object. cbn [rbind].
  rewrite H2, Hco, select_accessor_object. cbn [rbind].
  now rewrite H3, !filter_filter.
Qed.

(** X16.  For a query, a genre and a country written with ordinary
    characters and dots, on columns that are columns of strings, the
    detail search raises nothing and is a selection of rows of the
    view, in the order of the view, by a test that depends on the three
    inputs only; searching the result again with the same inputs
    changes nothing.  With an empty query and "All" in both boxes the
    result is the view itself, whatever the columns hold. *)
Theorem detail_search_is_a_stable_selection :
  forall (dts : App.dtypes) (view : DataFrame)
         (query genre country_sel : string),
    Vocab.all_object dts ->
    Vocab.embedded query ->
    Vocab.embedded genre ->
    Vocab.embedded country_sel ->
    exists keep : Row -> bool,
      (forall other,
          App.detailed_df dts other query genre country_sel
          = Ok (Some (filter keep other)))
      /\ App.detailed_df dts (filter keep view) query genre country_sel
         = Ok (Some (filter keep view))
      /\ incl (filter keep view) view
      /\ length (filter keep view) <= length view
      /\ (forall any : App.dtypes,
             App.detailed_df any view "" "All" "All" = Ok (Some view)).
Proof.
  intros dts view query genre country_sel Hall Hq Hg Hc.
  destruct (detailed_df_as_filter dts query genre country_sel Hall Hq Hg Hc)
    as [keep K].
  exists keep.
  split; [exact K|].
  split; [rewrite K; now rewrite filter_idempotent|].
  split; [intros r Hr; now apply filter_In in Hr|].
  split; [apply filter_length_le | reflexivity].
Qed.

Lemma detail_search_is_a_stable_selection_witness :
  let row t := mkRow (Some "Movie") (Some t) (Some "Ann Lee") (Some "Jo Smyth")
                 (Some "India") None (Some 2015%Z) (Some "PG")
                 (Some "90 min") (Some "Dramas") None None None in
  let catalog := [row "Heist"; row "Other"] in
  exists keep,
    App.detailed_df (App.dtypes_of catalog) catalog "h.ist" "Dramas" "India"
    = Ok (Some (filter keep catalog))
    /\ filter keep catalog = [row "Heist"].
Proof.
  intros row catalog.
  assert (Hall : Vocab.all_object (App.dtypes_of catalog))
    by (repeat split).
  assert (Hq : Vocab.embedded "h.ist") by discriminate.
  assert (Hg : Vocab.embedded "Dramas") by discriminate.
  assert (Hc : Vocab.embedded "India") by discriminate.
  destruct (detail_search_is_a_stable_selection (App.dtypes_of catalog)
              catalog "h.ist" "Dramas" "India" Hall Hq Hg Hc)
    as [keep [K _]].
  exists keep. split; [apply K|].
  assert (E : Ok (Some (filter keep catalog)) = Ok (Some [row "Heist"]))
    by (rewrite <- K; reflexivity).
  congruence.
Defined.

(** ** The average release year *)

Lemma sum_bounds (lo hi : Z) (ys : list Z) :
  (forall y, In y ys -> (lo <= y <= hi)%Z) ->
  (lo * Z.of_nat (length ys) <= fold_right Z.add 0%Z ys
   <= hi * Z.of_nat (length ys))%Z.
Proof.
  induction ys as [|y ys IH]; intros H.
  - simpl. lia.
  - assert (Hy := H y (or_introl eq_refl)).
    assert (IH' := IH (fun z Hz => H z (or_intror Hz))).
    cbn [length fold_right]. rewrite Nat2Z.inj_succ. lia.
Qed.

(** X17.  On a filtered view that is not empty the "Average Release
    Year" of the detail tab is computed without error and lies within
    the selected range of years; on an empty frame it is 0; on a frame
    that has rows but no release year at all it raises [ValueError]. *)
Theorem average_release_year_within_range :
  forall (df : DataFrame) (types rates : list cell) (lo hi : Z),
    let v := App.filtered_df df types rates (lo, hi) in
    (v <> [] -> exists avg, App.average_release_year v = Ok avg
                            /\ (lo <= avg <= hi)%Z)
    /\ App.average_release_year [] = Ok 0%Z
    /\ (forall d, d <> [] -> Forall (fun r => release_year r = None) d ->
                  App.average_release_year d = Raise ValueError).
Proof.
  intros df types rates lo hi v.
  split; [|split; [reflexivity|]].
  - intros Hne. unfold App.average_release_year.
    destruct v as [|r v'] eqn:Ev; [congruence|]. cbn [empty].
    rewrite <- Ev.
    assert (Hin : forall y, In y (dropna (map release_year v)) -> (lo <= y <= hi)%Z)
      by (intros y; apply filtered_df_years).
    assert (Hr : In r v) by (rewrite Ev; now left).
    apply filtered_df_In in Hr. destruct Hr as [_ [_ [_ [y0 [Ey0 _]]]]].
    destruct (dropna (map release_year v)) as [|y ys] eqn:Eys.
    + exfalso. rewrite Ev in Eys. simpl in Eys. rewrite Ey0 in Eys. discriminate.
    + eexists. split; [reflexivity|].
      pose proof (sum_bounds lo hi (y :: ys) Hin) as [B1 B2].
      set (n := Z.of_nat (length (y :: ys))) in *.
      assert (Hn : (0 < n)%Z) by (unfold n; simpl; lia).
      split.
      * rewrite <- (Z.quot_mul lo n) by lia. now apply Z.quot_le_mono.
      * rewrite <- (Z.quot_mul hi n) by lia. now apply Z.quot_le_mono.
  - intros d Hne Hall. unfold App.average_release_year.
    destruct d as [|r d]; [congruence|]. cbn [empty].
    assert (E : forall l : DataFrame,
               Forall (fun r => release_year r = None) l ->
               dropna (map release_year l) = []).
    { induction 1 as [|x l Hx _ IH]; [reflexivity|].
      simpl. now rewrite Hx. }
    now rewrite (E _ Hall).
Qed.

(** ** Narrowing and default selections of the filter *)

Lemma isin_incl (small large : list cell) (c : cell) :
  incl small large -> isin small c = true -> isin large c = true.
Proof.
  unfold isin. intros Hincl H. apply existsb_exists in H.
  destruct H as [x [Hx E]]. apply existsb_exists. exists x.
  split; [now apply Hincl | assumption].
Qed.

Lemma filter_implied {A : Type} (f g : A -> bool) (l : list A) :
  (forall x, f x = true -> g x = true) ->
  filter f (filter g l) = filter f l.
Proof.
  intros H. rewrite filter_filter. apply filter_ext. intros x.
  destruct (f x) eqn:E; [now rewrite (H x E) | apply andb_false_r].
Qed.

(** X18.  A narrower selection (fewer types, fewer ratings, a range of
    years inside the other one) selects from the wider view: filtering
    the wider view with the narrower selection gives the narrower view,
    whose rows are all rows of the wider view, so it cannot be
    longer. *)
Theorem narrower_filter_selects_from_wider_view :
  forall (df : DataFrame) (types types' rates rates' : list cell)
         (lo hi lo' hi' : Z),
    incl types types' -> incl rates rates' ->
    (lo' <= lo)%Z -> (hi <= hi')%Z ->
    let narrow := App.filtered_df df types rates (lo, hi) in
    let wide := App.filtered_df df types' rates' (lo', hi') in
    App.filtered_df wide types rates (lo, hi) = narrow
    /\ incl narrow wide
    /\ length narrow <= length wide.
Proof.
  intros df types types' rates rates' lo hi lo' hi' Ht Hr Hlo Hhi narrow wide.
  assert (E : App.filtered_df wide types rates (lo, hi) = narrow).
  { unfold wide, narrow, App.filtered_df. apply filter_implied.
    intros r H. simpl in *.
    apply andb_true_iff in H. destruct H as [H H4].
    apply andb_true_iff in H. destruct H as [H H3].
    apply andb_true_iff in H. destruct H as [H1 H2].
    rewrite (isin_incl _ _ _ Ht H1), (isin_incl _ _ _ Hr H2). simpl.
    unfold App.ge_cell, App.le_cell in *.
    destruct (release_year r) as [y|]; [|discriminate].
    apply Z.leb_le in H3, H4.
    apply andb_true_iff. split; apply Z.leb_le; lia. }
  split; [exact E|].
  split.
  - rewrite <- E. intros r H. unfold App.filtered_df in H.
    now apply filter_In in H.
  - rewrite <- E. apply filter_length_le.
Qed.

Lemma narrower_filter_selects_from_wider_view_witness :
  let row t y := mkRow (Some t) (Some "T") None None (Some "Unknown") None
                   (Some y) (Some "PG") (Some "90 min") (Some "Dramas")
                   None None None in
  let df := [row "Movie" 2005%Z; row "TV Show" 2015%Z; row "Movie" 2018%Z] in
  App.filtered_df
    (App.filtered_df df [Some "Movie"; Some "TV Show"] [Some "PG"]
       (2000%Z, 2021%Z))
    [Some "Movie"] [Some "PG"] (2010%Z, 2021%Z)
  = [row "Movie" 2018%Z].
Proof.
  intros row df.
  destruct (narrower_filter_selects_from_wider_view df
              [Some "Movie"] [Some "Movie"; Some "TV Show"]
              [Some "PG"] [Some "PG"] 2010 2021 2000 2021) as [E _].
  - intros c [<-|[]]. now left.
  - apply incl_refl.
  - lia.
  - lia.
  - rewrite E. reflexivity.
Defined.

(** X19.  With the default selections of the two multiselects (every
    distinct value of the type column and of the rating column, the
    absent value included when it occurs), only the range of years
    filters: the view is the catalog's rows with a release year within
    the bounds. *)
Theorem default_selections_leave_only_the_year_filter :
  forall (df : DataFrame) (lo hi : Z),
    App.filtered_df df (App.default_content_type df) (App.default_ratings df)
      (lo, hi)
    = filter (Vocab.year_within lo hi) df.
Proof.
  intros df lo hi. unfold App.filtered_df. apply filter_ext_in.
  intros r Hr.
  assert (K : forall (col : Row -> cell),
             isin (PandasMore.unique cell_eqb (map col df)) (col r) = true).
  { intros col. unfold isin.
    apply (existsb_eqb_In cell_eqb cell_eqb_eq).
    rewrite (unique_first_occ cell_eqb cell_eqb_eq).
    apply (proj2 (first_occ_In cell_eqb cell_eqb_eq _ _)). now apply in_map. }
  unfold App.default_content_type, App.default_ratings.
  rewrite (K type_), (K rating). simpl.
  unfold Vocab.year_within, App.ge_cell, App.le_cell.
  now destruct (release_year r).
Qed.

(** ** The body of a detail card *)

Lemma slice_to_length (n : nat) (s : string) :
  String.length (PandasMore.slice_to n s) <= n.
Proof.
  revert s. induction n as [|n IH]; intros s; [reflexivity|].
  destruct s as [|c s]; simpl; [lia|]. specialize (IH s). lia.
Qed.

Lemma slice_to_all (n : nat) (s : string) :
  String.length s <= n -> PandasMore.slice_to n s = s.
Proof.
  revert s. induction n as [|n IH]; intros s H.
  - destruct s; [reflexivity | simpl in H; lia].
  - destruct s as [|c s]; [reflexivity|]. simpl in *.
    rewrite IH by lia. reflexivity.
Qed.

Lemma card_body_In (row : Row) (x : App.card_line) :
  In x (App.card_body row)
  <-> App.LType (type_ row) = x
      \/ (if cell_eqb (type_ row) (Some "Movie")
          then App.LDuration (duration row)
          else App.LSeasons (duration row)) = x
      \/ App.LRating (rating row) = x
      \/ App.LReleaseYear (release_year row) = x
      \/ (exists d, date_added row = Some d /\ App.LAddedOn d = x)
      \/ App.LCountry (country row) = x
      \/ (exists s, director row = Some s /\ s <> "Unknown"
                    /\ App.LDirector s = x)
      \/ (exists s, cast row = Some s /\ s <> "Unknown"
                    /\ App.LCast (PandasMore.slice_to 200 s ++ "...")%string = x)
      \/ App.LGenre (listed_in row) = x
      \/ (exists s, description row = Some s /\ App.LDescription s = x).
Proof.
  unfold App.card_body. rewrite !in_app_iff. cbn [In].
  assert (D : In x match date_added row with
                   | Some d => [App.LAddedOn d]
                   | None => []
                   end
              <-> exists d, date_added row = Some d /\ App.LAddedOn d = x).
  { destruct (date_added row) as [d|]; simpl; split.
    - intros [H|[]]. now exists d.
    - intros [d' [E H]]. inversion E. subst. now left.
    - intros [].
    - intros [d' [E _]]. discriminate. }
  assert (R : In x match director row with
                   | Some s => if negb (String.eqb s "Unknown")
                               then [App.LDirector s] else []
                   | None => []
                   end
              <-> exists s, director row = Some s /\ s <> "Unknown"
                            /\ App.LDirector s = x).
  { destruct (director row) as [s|]; [|split; [intros [] | intros [s [E _]]; discriminate]].
    destruct (String.eqb s "Unknown") eqn:E; simpl; split.
    - intros [].
    - intros [s' [Es [Hne _]]]. inversion Es. subst.
      apply String.eqb_eq in E. contradiction.
    - intros [H|[]]. exists s. apply String.eqb_neq in E. now repeat split.
    - intros [s' [Es [_ H]]]. inversion Es. subst. now left. }
  assert (C : In x match cast row with
                   | Some s => if negb (String.eqb s "Unknown")
                               then [App.LCast (PandasMore.slice_to 200 s ++ "...")%string]
                               else []
                   | None => []
                   end
              <-> exists s, cast row = Some s /\ s <> "Unknown"
                            /\ App.LCast (PandasMore.slice_to 200 s ++ "...")%string = x).
  { destruct (cast row) as [s|]; [|split; [intros [] | intros [s [E _]]; discriminate]].
    destruct (String.eqb s "Unknown") eqn:E; simpl; split.
    - intros [].
    - intros [s' [Es [Hne _]]]. inversion Es. subst.
      apply String.eqb_eq in E. contradiction.
    - intros [H|[]]. exists s. apply String.eqb_neq in E. now repeat split.
    - intros [s' [Es [_ H]]]. inversion Es. subst. now left. }
  assert (P : In x match description row with
                   | Some s => [App.LDescription s]
                   | None => []
                   end
              <-> exists s, description row = Some s /\ App.LDescription s = x).
  { destruct (description row) as [s|]; simpl; split.
    - intros [H|[]]. now exists s.
    - intros [s' [E H]]. inversion E. subst. now left.
    - intros [].
    - intros [s' [E _]]. discriminate. }
  rewrite D, R, C, P. tauto.
Qed.

Ltac card_cases H :=
  apply (proj1 (card_body_In _ _)) in H;
  repeat match type of H with
         | _ \/ _ => destruct H as [H|H]
         end;
  try match type of H with
      | exists _, _ =>
          let s := fresh "s" in let E := fresh "E" in destruct H as [s [E H]]
      end;
  try match type of H with
      | _ /\ _ => let N := fresh "N" in destruct H as [N H]
      end;
  try discriminate H.

(** X20.  In a detail card the cast appears only when the row has one
    other than "Unknown", as its first 200 characters followed by
    "...", whether or not anything was cut (never more than 203
    characters); the director appears, whole, only when the row has one
    other than "Unknown"; the duration is labelled as a duration for a
    movie and as seasons for every other row, a row without a type
    included. *)
Theorem card_body_lines :
  forall row : Row,
    (forall shown, In (App.LCast shown) (App.card_body row)
                   <-> exists s, cast row = Some s /\ s <> "Unknown"
                                 /\ shown = (PandasMore.slice_to 200 s ++ "...")%string)
    /\ (forall s, String.length (PandasMore.slice_to 200 s ++ "...")%string <= 203)
    /\ (forall s, String.length s <= 200 ->
                  (PandasMore.slice_to 200 s ++ "...")%string = (s ++ "...")%string)
    /\ (forall s, In (App.LDirector s) (App.card_body row)
                  <-> director row = Some s /\ s <> "Unknown")
    /\ (In (App.LDuration (duration row)) (App.card_body row)
        <-> type_ row = Some "Movie")
    /\ (In (App.LSeasons (duration row)) (App.card_body row)
        <-> type_ row <> Some "Movie").
Proof.
  intros row.
  split.
  { intros shown. split.
    - intros H. card_cases H.
      + destruct (cell_eqb (type_ row) (Some "Movie")); discriminate H.
      + inversion H. subst. eauto.
    - intros [s [E [Hne ->]]]. apply card_body_In.
      do 7 right. left. now exists s. }
  split.
  { intros s. rewrite string_length_append.
    change (String.length "...") with 3.
    pose proof (slice_to_length 200 s). lia. }
  split; [intros s H; now rewrite slice_to_all|].
  split.
  { intros s. split.
    - intros H. card_cases H.
      + destruct (cell_eqb (type_ row) (Some "Movie")); discriminate H.
      + inversion H. subst. eauto.
    - intros [E Hne]. apply card_body_In.
      do 6 right. left. now exists s. }
  split.
  - split.
    + intros H. card_cases H.
      destruct (cell_eqb (type_ row) (Some "Movie")) eqn:E; [|discriminate H].
      now apply cell_eqb_eq.
    + intros E. apply card_body_In. right. left.
      now rewrite (proj2 (cell_eqb_eq _ _) E).
  - split.
    + intros H. card_cases H.
      destruct (cell_eqb (type_ row) (Some "Movie")) eqn:E; [discriminate H|].
      intros G. apply cell_eqb_eq in G. congruence.
    + intros Hne. apply card_body_In. right. left.
      destruct (cell_eqb (type_ row) (Some "Movie")) eqn:E; [|reflexivity].
      apply cell_eqb_eq in E. contradiction.
Qed.

(** ** The heat map accounts for every dated row *)

Lemma insert_uniq_Z_increasing (x : Z) (l : list Z) :
  Vocab.increasing l -> Vocab.increasing (insert_uniq Z.compare x l).
Proof.
  induction l as [|y l IH]; simpl; intros H.
  - split; [constructor | exact I].
  - destruct H as [Hy Hl]. destruct (Z.compare x y) eqn:E; simpl.
    + now split.
    + apply (proj1 (Z.compare_lt_iff x y)) in E. split; [|now split].
      constructor; [assumption|].
      rewrite Forall_forall in *. intros z Hz. specialize (Hy z Hz). lia.
    + apply (proj1 (Z.compare_gt_iff x y)) in E. split; [|now apply IH].
      rewrite Forall_forall in *. intros z Hz.
      apply (proj1 (insert_uniq_In Z.compare Z.compare_eq z x l)) in Hz.
      destruct Hz as [->|Hz]; [assumption | now apply Hy].
Qed.

Lemma sort_uniq_Z_NoDup (l : list Z) : NoDup (sort_uniq Z.compare l).
Proof.
  assert (H : Vocab.increasing (sort_uniq Z.compare l)).
  { induction l as [|x l IH]; simpl; [exact I|].
    now apply insert_uniq_Z_increasing. }
  revert H. generalize (sort_uniq Z.compare l). clear l.
  induction l as [|x l IH]; simpl; intros H; constructor.
  - destruct H as [Hx _]. intros Hin. rewrite Forall_forall in Hx.
    specialize (Hx x Hin). lia.
  - apply IH. tauto.
Qed.

Lemma grid_total_as_table (f : Z -> Z -> nat) (index columns : list Z) :
  Vocab.grid_total (map (fun m => map (fun y => f y m) columns) index)
  = Vocab.total
      (flat_map (fun m => map (fun y => ((y, m), f y m)) columns) index).
Proof.
  assert (K : forall m, fold_right Nat.add 0 (map (fun y => f y m) columns)
                        = Vocab.total (map (fun y => ((y, m), f y m)) columns)).
  { intros m. induction columns as [|y columns IH]; simpl; [reflexivity|].
    now rewrite IH. }
  assert (T : forall t1 t2 : list ((Z * Z) * nat),
             Vocab.total (t1 ++ t2) = Vocab.total t1 + Vocab.total t2).
  { intros t1 t2. induction t1 as [|p t1 IH]; simpl; [reflexivity|].
    rewrite IH. lia. }
  induction index as [|m index IH]; simpl; [reflexivity|].
  now rewrite T, K, IH.
Qed.

Lemma grid_keys_NoDup (f : Z -> Z -> nat) (index columns : list Z) :
  NoDup index -> NoDup columns ->
  NoDup (map fst
           (flat_map (fun m => map (fun y => ((y, m), f y m)) columns) index)).
Proof.
  intros Hi Hc. induction index as [|m index IH]; simpl; [constructor|].
  inversion Hi as [|? ? Hm Hi']; subst.
  rewrite map_app. apply NoDup_app.
  - rewrite map_map. simpl.
    clear - Hc. induction columns as [|y columns IHc]; simpl; [constructor|].
    inversion Hc as [|? ? Hy Hc']; subst. constructor; [|now apply IHc].
    rewrite in_map_iff. intros [y' [E Hy']]. inversion E. subst. contradiction.
  - now apply IH.
  - intros k H1 H2. apply in_map_iff in H1. destruct H1 as [p [Ep Hp]].
    apply in_map_iff in Hp. destruct Hp as [y [Ey _]]. subst p. simpl in Ep.
    apply in_map_iff in H2. destruct H2 as [q [Eq Hq]].
    apply in_flat_map in Hq. destruct Hq as [m' [Hm' Hq]].
    apply in_map_iff in Hq. destruct Hq as [y' [Ey' _]]. subst q. simpl in Eq.
    subst k. inversion Eq. subst. contradiction.
Qed.

(** X21.  The cells of the heat map add up to the number of rows of the
    view that have a year and a month of addition: every such row is
    counted in exactly one cell, and a row without them in none. *)
Theorem heatmap_counts_every_dated_row_once :
  forall view : DataFrame,
    Vocab.grid_total (pt_values (App.heatmap_pivot view))
    = length (filter (fun r => match year_added r, month_added r with
                               | Some _, Some _ => true
                               | _, _ => false
                               end) view).
Proof.
  intros view.
  assert (L : length (filter (fun r => match year_added r, month_added r with
                                       | Some _, Some _ => true
                                       | _, _ => false
                                       end) view)
              = length (dropna (map App.added_key view))).
  { unfold App.added_key. induction view as [|r view IH]; [reflexivity|].
    simpl. destruct (year_added r), (month_added r); simpl; now rewrite IH. }
  rewrite L, (heatmap_values view), grid_total_as_table.
  apply (table_total App.pair_eqb pair_eqb_eq).
  - apply grid_keys_NoDup; apply sort_uniq_Z_NoDup.
  - intros [y m] n H. apply in_flat_map in H. destruct H as [m' [_ H]].
    apply in_map_iff in H. destruct H as [y' [E _]]. inversion E. subst.
    symmetry. apply occurrences_added_key.
  - intros [y m] H.
    assert (G := proj1 (added_key_In (y, m) view) H).
    destruct G as [r [Hr [Ey Em]]]. simpl in Ey, Em.
    apply in_map_iff. exists ((y, m), Spec.added_in y m view).
    split; [reflexivity|]. apply in_flat_map. exists m. split.
    + apply heatmap_index_In. now exists r, y.
    + apply in_map_iff. exists y. split; [reflexivity|].
      apply heatmap_columns_In. now exists r, m.
Qed.

(** ** The two pies of the overview *)

Lemma occurrences_type (label : string) (d : DataFrame) :
  occurrences String.eqb label (dropna (map type_ d)) = App.count_type label d.
Proof.
  unfold occurrences, App.count_type.
  induction d as [|r d IH]; simpl; [reflexivity|].
  destruct (type_ r) as [s|]; simpl; [|exact IH].
  rewrite (String.eqb_sym label s). destruct (String.eqb s label); simpl;
    now rewrite IH.
Qed.

(** X22.  The pie of content types has one slice per type that occurs in
    the view, and the size of the slice "Movie" (or "TV Show") is the
    number the metrics show for it; the slices come in descending order
    and add up to the number of rows that have a type.  The pie of
    ratings keeps the ten largest slices of the ratings' table at
    most. *)
Theorem overview_pies_agree_with_the_metrics :
  forall view : DataFrame,
    (forall label n, In (label, n) (App.type_counts view)
                     <-> n = App.count_type label view /\ 0 < n)
    /\ Spec.descending (App.type_counts view)
    /\ Vocab.total (App.type_counts view) = length (dropna (map type_ view))
    /\ length (App.rating_counts view) <= 10
    /\ exists dropped,
         App.rating_counts view ++ dropped
         = value_counts String.eqb (dropna (map rating view))
         /\ forall p q, In p (App.rating_counts view) -> In q dropped ->
                        snd q <= snd p.
Proof.
  intros view. unfold App.type_counts, App.rating_counts.
  split.
  { intros label n. rewrite (value_counts_In String.eqb String.eqb_eq).
    now rewrite occurrences_type. }
  split; [apply value_counts_descending|].
  split; [apply total_value_counts|].
  split.
  { rewrite length_head. change (0 <=? 10)%Z with true. cbv iota.
    change (Z.to_nat 10) with 10. apply Nat.le_min_l. }
  destruct (head_split 10 (value_counts String.eqb (dropna (map rating view))))
    as [dropped E].
  exists dropped. split; [exact E|].
  apply descending_app_le. rewrite E. apply value_counts_descending.
Qed.

(** ** The additions by year and by month *)

(** X23.  In a view whose years and months of addition come from the
    dates (as [load_data] leaves them), the chart of additions by year
    and the table of additions by month each add up to the number of
    rows that have a date, which is also the number of rows that the
    heat map counts. *)
Theorem additions_charts_count_the_dated_rows :
  forall view : DataFrame,
    Forall Spec.derived_from_date view ->
    let dated := length (filter (fun r => match date_added r with
                                          | Some _ => true
                                          | None => false
                                          end) view) in
    Vocab.total (App.yearly_added view) = dated
    /\ Vocab.total (App.monthly_added view) = dated
    /\ length (filter (fun r => match year_added r, month_added r with
                                | Some _, Some _ => true
                                | _, _ => false
                                end) view) = dated
    /\ Vocab.ascending (App.yearly_added view).
Proof.
  intros view H dated. unfold dated, App.yearly_added, App.monthly_added.
  rewrite !total_sort_index, !total_value_counts.
  split; [|split; [|split]].
  - induction H as [|r view Hr H IH]; [reflexivity|]. simpl.
    unfold Spec.derived_from_date in Hr.
    destruct (date_added r); destruct Hr as [-> _]; simpl; now rewrite IH.
  - induction H as [|r view Hr H IH]; [reflexivity|]. simpl.
    unfold Spec.derived_from_date in Hr.
    destruct (date_added r); destruct Hr as [_ ->]; simpl; now rewrite IH.
  - induction H as [|r view Hr H IH]; [reflexivity|]. simpl.
    unfold Spec.derived_from_date in Hr.
    destruct (date_added r); destruct Hr as [Ey Em]; rewrite Ey; simpl;
      try rewrite Em; simpl; now rewrite IH.
  - apply sort_index_ascending, (value_counts_keys_NoDup Z.eqb Z.eqb_eq).
Qed.

Lemma additions_charts_count_the_dated_rows_witness :
  let row d y m := mkRow (Some "Movie") (Some "T") None None (Some "India") d
                     (Some 2015%Z) (Some "PG") (Some "90 min") (Some "Dramas")
                     None y m in
  let view := [row (Some (mkTimestamp 2019 9 25)) (Some 2019%Z) (Some 9%Z);
               row None None None;
               row (Some (mkTimestamp 2020 9 1)) (Some 2020%Z) (Some 9%Z)] in
  Vocab.total (App.yearly_added view) = 2
  /\ Vocab.total (App.monthly_added view) = 2.
Proof.
  intros row view.
  assert (H : Forall Spec.derived_from_date view).
  { repeat constructor. }
  destruct (additions_charts_count_the_dated_rows view H) as [E [F _]].
  split; [exact E | exact F].
Defined.

(** ** Content types by country *)

Lemma country_data_plain (view : DataFrame) (name : string) :
  Spec.plain name = true ->
  App.country_data view name
  = Some (filter (fun r => match country r with
                           | Some s => PyStr.contains name s
                           | None => false
                           end) view).
Proof.
  intros H. unfold App.country_data.
  destruct (str_contains_plain_case name H) as [hit [E Hhit]].
  rewrite E. f_equal. apply filter_ext. intros r. apply Hhit.
Qed.

Lemma country_type_rows_plain (view : DataFrame) (names : list string) :
  Forall (fun name => Spec.plain name = true) names ->
  App.country_type_rows view names
  = Some (map (fun name =>
                 let d := filter (fun r => match country r with
                                           | Some s => PyStr.contains name s
                                           | None => false
                                           end) view in
                 (name, App.count_type "Movie" d, App.count_type "TV Show" d))
            names).
Proof.
  induction 1 as [|name names Hn H IH]; [reflexivity|].
  cbn [App.country_type_rows map]. rewrite (country_data_plain view name Hn), IH.
  reflexivity.
Qed.

(** X24.  When the ten most frequent country names hold no character
    that a regular expression reads specially, the chart of types by
    country has one line per such name, in the order of the country
    table, and counts under a name the movies and the shows among the
    rows whose country cell contains the name anywhere: every row that
    lists the name as a country is among them, and the two numbers of a
    line never exceed the size of the view together. *)
Theorem country_type_chart_counts_by_substring :
  forall view : DataFrame,
    Forall (fun name => Spec.plain name = true)
      (map fst (head 10 (App.country_counts view))) ->
    let under name := filter (fun r => match country r with
                                       | Some s => PyStr.contains name s
                                       | None => false
                                       end) view in
    exists lines,
      App.country_type_data view = Some lines
      /\ map (fun l => fst (fst l)) lines
         = map fst (head 10 (App.country_counts view))
      /\ (forall name movies shows,
             In (name, movies, shows) lines ->
             movies = App.count_type "Movie" (under name)
             /\ shows = App.count_type "TV Show" (under name)
             /\ movies + shows <= length view)
      /\ (forall name r, In r view -> Vocab.has_token name (country r) ->
                         In r (under name)).
Proof.
  intros view H under. unfold App.country_type_data.
  rewrite (country_type_rows_plain view _ H).
  eexists. split; [reflexivity|].
  split; [rewrite map_map; simpl; apply map_id|].
  split.
  - intros name movies shows Hin. apply in_map_iff in Hin.
    destruct Hin as [name' [E _]]. inversion E. subst.
    split; [reflexivity|]. split; [reflexivity|].
    etransitivity; [apply count_type_disjoint|]. apply filter_length_le.
  - intros name r Hr Ht. unfold under. apply filter_In. split; [assumption|].
    destruct (country r) as [s|]; [|contradiction].
    apply (token_is_substring "," name s); [discriminate | exact Ht].
Qed.

Lemma country_type_chart_counts_by_substring_witness :
  let row t c := mkRow (Some t) (Some "T") None None (Some c) None
                   (Some 2015%Z) (Some "PG") (Some "90 min") (Some "Dramas")
                   None None None in
  let view := [row "Movie" "Nigeria"; row "TV Show" "Niger, Nigeria";
               row "Movie" "Niger"] in
  exists lines,
    App.country_type_data view = Some lines
    /\ In ("Niger", 2, 1) lines.
Proof.
  intros row view.
  assert (H : Forall (fun name => Spec.plain name = true)
                (map fst (head 10 (App.country_counts view)))).
  { repeat constructor. }
  destruct (country_type_chart_counts_by_substring view H) as [lines [E _]].
  exists lines. split; [exact E|].
  assert (K : Some lines = Some [("Nigeria", 1, 1); ("Niger", 2, 1)])
    by (rewrite <- E; reflexivity).
  inversion K. simpl. tauto.
Defined.
